(** * Portfolio sustainability Monte Carlo: rebalancing engine and path simulator

    A shallow embedding of [src/rebalance_strategies.py], of the path
    simulator and batch driver of [src/simulation.py] and of the summary
    tables of [src/sensitivity_analysis.py], followed by the properties of
    the specification that were checked against them and by further
    properties of the code.

    Conventions of the embedding.
    - A Python [float] (or NumPy [float64]) is a real number: rounding is not
      modelled, so "equal within floating tolerance" reads as equality.
    - A division whose divisor is zero is a fault.  Python's [float] raises
      [ZeroDivisionError] there, NumPy's [float64] yields [inf] or [nan] under
      a [RuntimeWarning]; the model on real numbers stops at the first such
      division with [Raise DivisionByZero].  What the run does from there on
      is the matter of module [Numeric], which embeds the same code on numbers
      that are Python floats or NumPy [float64]s.
    - [x ** y] is the power of real numbers for a base above zero; the
      properties that depend on it carry an inflation rate above -100%.
    - A [dict] is the list of its items in insertion order.
    - A [datetime] is a count of microseconds, a [timedelta] a difference of
      two such counts, and [.days] its floor division by one day.
    - The mutable strategy object and NumPy's global random generator are
      threaded through the functions that touch them.
    - A pandas reduction returns a number or [nan]; [Series.median], [Series.std]
      and [Series.quantile] are parameters of the summary.
    - Left out: the range of [datetime] (years 1 to 9999), printing, and the
      loading of files. *)

From Stdlib Require Import Reals Lra List String ZArith Lia Bool.
Import ListNotations.
Open Scope R_scope.

(* ================================================================== *)
(** * Part I: the model *)
(* ================================================================== *)

(** ** Python values *)

Module Py.

(** Comparisons of numbers, as booleans. *)
Definition gt (x y : R) : bool := if Rgt_dec x y then true else false.
Definition ge (x y : R) : bool := if Rge_dec x y then true else false.
Definition ne (x y : R) : bool := if Req_dec_T x y then false else true.

(** [dict] with string keys and numeric values. *)
Definition dict := list (string * R).

(** [d.get(key, default)] *)
Fixpoint get (d : dict) (key : string) (default : R) : R :=
  match d with
  | [] => default
  | (k, v) :: rest => if String.eqb key k then v else get rest key default
  end.

(** [key in d] *)
Fixpoint contains (d : dict) (key : string) : bool :=
  match d with
  | [] => false
  | (k, _) :: rest => String.eqb key k || contains rest key
  end.

Definition keys (d : dict) : list string := map fst d.
Definition values (d : dict) : list R := map snd d.

(** The builtin [sum]: starts from 0 and adds from the left. *)
Definition sum (xs : list R) : R := fold_left Rplus xs 0.

(** What can go wrong in the modelled code. *)
Inductive fault : Type :=
| DivisionByZero    (* a division by a divisor equal to zero *)
| SeedOutOfRange    (* np.random.seed outside 0 .. 2**32 - 1 *)
| NegativeScale.    (* np.random.normal with scale < 0 *)

Inductive outcome (A : Type) : Type :=
| Ok (a : A)
| Raise (f : fault).
Arguments Ok {A} a.
Arguments Raise {A} f.

Definition bind {A B : Type} (m : outcome A) (k : A -> outcome B) : outcome B :=
  match m with
  | Ok a => k a
  | Raise f => Raise f
  end.

(** [x / y] *)
Definition div (x y : R) : outcome R :=
  if Req_dec_T y 0 then Raise DivisionByZero else Ok (x / y).

(** A comprehension or a [for] loop whose body may fault, left to right. *)
Fixpoint for_each {A B : Type} (f : A -> outcome B) (xs : list A) : outcome (list B) :=
  match xs with
  | [] => Ok []
  | x :: rest =>
      bind (f x) (fun y => bind (for_each f rest) (fun ys => Ok (y :: ys)))
  end.

(** [datetime], in microseconds since 0001-01-01 00:00. *)
Definition datetime := Z.
Definition microseconds_per_day : Z := 86400000000.

(** [timedelta(days=n)] *)
Definition timedelta_days (n : Z) : Z := (n * microseconds_per_day)%Z.

(** [(later - earlier).days] *)
Definition days_between (later earlier : datetime) : Z :=
  ((later - earlier) / microseconds_per_day)%Z.

(** [datetime(2025, 1, 1)]: day 739252 of the proleptic Gregorian calendar. *)
Definition datetime_2025_1_1 : datetime := (739251 * microseconds_per_day)%Z.

End Py.

Import Py.

Declare Scope outcome_scope.
Delimit Scope outcome_scope with outcome.
Notation "x <- m ;; k" := (bind m (fun x => k))
  (at level 61, m at next level, right associativity) : outcome_scope.
Notation "' p <- m ;; k" := (bind m (fun x => let p := x in k))
  (at level 61, p pattern, m at next level, right associativity) : outcome_scope.
Open Scope outcome_scope.

(** ** [rebalance_strategies.py] *)

Module RebalanceStrategies.

(** The two concrete subclasses of [RebalanceStrategy] with the fields each
    adds.  The base class itself, whose [should_rebalance] raises
    [NotImplementedError], is never instantiated by the repository. *)
Inductive variant : Type :=
| TimeBased (frequency : string)
| ThresholdBased (threshold : R).

(** The fields of a strategy object.  [last_rebalance_date] is the only one
    ever reassigned after construction. *)
Record RebalanceStrategy : Type := mkRebalanceStrategy {
  target_allocation : dict;
  transaction_cost : R;
  last_rebalance_date : option datetime;
  kind : variant
}.

Definition set_last_rebalance_date (self : RebalanceStrategy) (date : datetime)
  : RebalanceStrategy :=
  mkRebalanceStrategy (target_allocation self) (transaction_cost self)
                      (Some date) (kind self).

(** [TimeBasedRebalance.__init__] *)
Definition TimeBasedRebalance (target : dict) (frequency : string) (cost : R)
  : RebalanceStrategy :=
  mkRebalanceStrategy target cost None (TimeBased frequency).

(** [ThresholdBasedRebalance.__init__] *)
Definition ThresholdBasedRebalance (target : dict) (threshold : R) (cost : R)
  : RebalanceStrategy :=
  mkRebalanceStrategy target cost None (ThresholdBased threshold).

(** [self.frequency_days] *)
Definition frequency_days : list (string * Z) :=
  [("monthly"%string, 30%Z); ("quarterly"%string, 90%Z); ("annual"%string, 365%Z)].

(** [self.frequency_days.get(frequency, default)] *)
Fixpoint frequency_days_get (table : list (string * Z)) (frequency : string)
         (default : Z) : Z :=
  match table with
  | [] => default
  | (k, v) :: rest =>
      if String.eqb frequency k then v else frequency_days_get rest frequency default
  end.

(** [TimeBasedRebalance.should_rebalance]: the answer and the object after
    the call. *)
Definition TimeBased_should_rebalance (self : RebalanceStrategy) (frequency : string)
           (current_allocation : dict) (date : datetime) (portfolio_value : R)
  : bool * RebalanceStrategy :=
  match last_rebalance_date self with
  | None => (true, set_last_rebalance_date self date)
  | Some last =>
      let days_since_rebalance := days_between date last in
      if (days_since_rebalance >=? frequency_days_get frequency_days frequency 365)%Z
      then (true, set_last_rebalance_date self date)
      else (false, self)
  end.

(** [ThresholdBasedRebalance.should_rebalance]: the loop over the target
    items returns [True] at the first asset whose deviation exceeds the
    threshold, [False] when it runs out. *)
Fixpoint threshold_loop (items : dict) (current_allocation : dict) (threshold : R)
  : bool :=
  match items with
  | [] => false
  | (asset, target) :: rest =>
      let current := get current_allocation asset 0 in
      let deviation := Rabs (current - target) in
      if gt deviation threshold then true
      else threshold_loop rest current_allocation threshold
  end.

Definition ThresholdBased_should_rebalance (self : RebalanceStrategy) (threshold : R)
           (current_allocation : dict) (date : datetime) (portfolio_value : R)
  : bool * RebalanceStrategy :=
  (threshold_loop (target_allocation self) current_allocation threshold, self).

(** Method dispatch on the object's class. *)
Definition should_rebalance (self : RebalanceStrategy) (current_allocation : dict)
           (date : datetime) (portfolio_value : R) : bool * RebalanceStrategy :=
  match kind self with
  | TimeBased frequency =>
      TimeBased_should_rebalance self frequency current_allocation date portfolio_value
  | ThresholdBased threshold =>
      ThresholdBased_should_rebalance self threshold current_allocation date portfolio_value
  end.

(** [RebalanceStrategy.calculate_rebalance_cost].  The loop visits the keys
    of [target_allocation] and reads each key's value back; on a dict that is
    the item's own value. *)
Definition calculate_rebalance_cost (self : RebalanceStrategy)
           (target_allocation current_allocation : dict) (portfolio_value : R) : R :=
  let total_change :=
    fold_left
      (fun total_change '(asset, target) =>
         let change := Rabs (target - get current_allocation asset 0) in
         total_change + change)
      target_allocation 0 in
  let cost := portfolio_value * (total_change / 2) * transaction_cost self in
  cost.

(** [RebalanceStrategy.rebalance] *)
Definition rebalance (self : RebalanceStrategy) (current_values : dict)
           (portfolio_value : R) : outcome (dict * R) :=
  current_allocation <-
    for_each (fun '(asset, value) =>
                weight <- (if gt portfolio_value 0 then div value portfolio_value
                           else Ok 0) ;;
                Ok (asset, weight))
             current_values ;;
  let new_values :=
    map (fun '(asset, target) => (asset, portfolio_value * target))
        (target_allocation self) in
  let cost :=
    calculate_rebalance_cost self (target_allocation self) current_allocation
                             portfolio_value in
  let remaining_value := portfolio_value - cost in
  let new_values :=
    map (fun '(asset, target) => (asset, remaining_value * target))
        (target_allocation self) in
  Ok (new_values, cost).

End RebalanceStrategies.

Import RebalanceStrategies.

(** ** [simulation.py] *)

Module Simulation.

(** One entry of [asset_stats]. *)
Record AssetStat : Type := mkAssetStat { mean_return : R; std_dev : R }.
Definition asset_statistics := list (string * AssetStat).

(** [portfolio_config]: the simulator reads its ['allocation'] only. *)
Record PortfolioConfig : Type := mkPortfolioConfig {
  name : string;
  allocation : dict
}.

(** A [DataFrame] of returns, row by row; a row maps each column (asset) to
    that month's log-return. *)
Definition returns_frame := list dict.

(** The scalar parameters of [simulate_portfolio_path], shared with
    [monte_carlo_simulation]. *)
Record Params : Type := mkParams {
  initial_capital : R;
  portfolio_config : PortfolioConfig;
  withdrawal_amount : R;
  inflation_rate : R;
  apply_inflation : bool;
  periodic_contribution : R;
  contribution_enabled : bool;
  thirteenth_payment_months : option (list Z);
  thirteenth_payment_amount : R;
  thirteenth_payment_enabled : bool
}.

(** One row of the history. *)
Module History.
Record row : Type := mkRow {
  month : nat;
  portfolio_value : R;
  withdrawal : R;
  base_withdrawal : R;
  contribution : R;
  total_withdrawals : R;
  total_contributions : R;
  total_rebalance_costs : R;
  asset_columns : dict
}.
End History.

(** The metrics dict of one trajectory. *)
Module Metrics.
Record t : Type := mkMetrics {
  final_value : R;
  total_withdrawals : R;
  total_contributions : R;
  net_flow : R;
  total_rebalance_costs : R;
  months_survived : nat;
  survived_full_period : bool;
  total_return : R
}.
End Metrics.

(** The variables of [simulate_portfolio_path] that live across months,
    with the strategy object the caller passed in.  [new_asset_values] is
    bound from the first month on; before it the model keeps the initial
    asset values in its place. *)
Record Locals : Type := mkLocals {
  asset_values : dict;
  new_asset_values : dict;
  portfolio_value : R;
  withdrawal : R;
  total_withdrawals : R;
  total_contributions : R;
  total_rebalance_costs : R;
  months_survived : nat;
  current_date : datetime;
  history : list History.row;
  rebalance_strategy : RebalanceStrategy
}.

(** How one pass through the loop body ends. *)
Inductive loop_exit : Type :=
| Next (st : Locals)     (* falls through to the next month *)
| Break (st : Locals).   (* [break] *)

(** "Ajustar retiro por inflación si aplica".  The power is Python's float
    power for a positive base, that is for rates above -100%. *)
Definition adjust_withdrawal (p : Params) (month : nat) (withdrawal : R) : R :=
  if apply_inflation p && (0 <? month)%nat then
    let monthly_inflation := Rpower (1 + inflation_rate p) (1 / 12) - 1 in
    withdrawal * (1 + monthly_inflation)
  else withdrawal.

(** "Actualizar valores de activos con retornos" *)
Definition apply_returns (asset_values month_returns : dict) : dict :=
  map (fun '(asset, value) =>
         if contains month_returns asset then
           let monthly_return := get month_returns asset 0 in
           (asset, value * exp monthly_return)
         else (asset, value))
      asset_values.

(** "Aplicar contribución periódica": the contribution of the month, the
    per-asset values, the portfolio value and the running total after it. *)
Definition apply_contribution (p : Params) (new_asset_values : dict)
           (portfolio_value total_contributions : R)
  : outcome (R * dict * R * R) :=
  let contribution_this_month := 0 in
  if contribution_enabled p then
    let contribution_this_month := periodic_contribution p in
    if ne contribution_this_month 0 then
      let portfolio_value := portfolio_value + contribution_this_month in
      let total_contributions := total_contributions + contribution_this_month in
      if gt portfolio_value 0 then
        new_asset_values <-
          for_each (fun '(asset, value) =>
                      share <- div value (portfolio_value - contribution_this_month) ;;
                      Ok (asset, share * portfolio_value))
                   new_asset_values ;;
        Ok (contribution_this_month, new_asset_values, portfolio_value,
            total_contributions)
      else
        Ok (contribution_this_month, new_asset_values, portfolio_value,
            total_contributions)
    else
      Ok (contribution_this_month, new_asset_values, portfolio_value,
          total_contributions)
  else
    Ok (contribution_this_month, new_asset_values, portfolio_value,
        total_contributions).

(** [thirteenth_payment_months_0indexed] *)
Definition thirteenth_payment_months_0indexed (p : Params) : list Z :=
  let thirteenth_payment_months :=
    match thirteenth_payment_months p with
    | None => []
    | Some months => months
    end in
  map (fun m => (m - 1)%Z) thirteenth_payment_months.

(** "Determinar retiro total del mes".  The power is Python's float power for
    a positive base, as in [adjust_withdrawal]. *)
Definition total_monthly_withdrawal (p : Params) (month : nat) (withdrawal : R) : R :=
  let monthly_withdrawal := withdrawal in
  if thirteenth_payment_enabled p
     && existsb (Z.eqb (Z.of_nat month)) (thirteenth_payment_months_0indexed p)
  then
    let thirteenth_amount :=
      if apply_inflation p && (0 <? month)%nat then
        thirteenth_payment_amount p
        * Rpower (1 + inflation_rate p) (INR (month + 1) / 12)
      else thirteenth_payment_amount p in
    monthly_withdrawal + thirteenth_amount
  else monthly_withdrawal.

(** "Reducir proporcionalmente cada activo"; [portfolio_value] is the value
    already reduced by the withdrawal. *)
Definition reduce_proportionally (new_asset_values : dict)
           (portfolio_value monthly_withdrawal : R) : outcome dict :=
  for_each (fun '(asset, value) =>
              fraction <- div monthly_withdrawal (portfolio_value + monthly_withdrawal) ;;
              Ok (asset, value * (1 - fraction)))
           new_asset_values.

(** The [current_allocation] comprehension. *)
Definition current_weights (new_asset_values : dict) (portfolio_value : R)
  : outcome dict :=
  for_each (fun '(asset, value) =>
              weight <- (if gt portfolio_value 0 then div value portfolio_value
                         else Ok 0) ;;
              Ok (asset, weight))
           new_asset_values.

(** The body of [for month in range(n_months)]. *)
Definition month_body (p : Params) (monthly_returns : returns_frame)
           (month : nat) (st : Locals) : outcome loop_exit :=
  let allocation := allocation (portfolio_config p) in
  let withdrawal := adjust_withdrawal p month (withdrawal st) in
  let month_returns := nth month monthly_returns [] in
  let new_asset_values := apply_returns (asset_values st) month_returns in
  let portfolio_value := sum (values new_asset_values) in
  '(contribution_this_month, new_asset_values, portfolio_value, total_contributions) <-
    apply_contribution p new_asset_values portfolio_value (total_contributions st) ;;
  let monthly_withdrawal := total_monthly_withdrawal p month withdrawal in
  if ge portfolio_value monthly_withdrawal then
    let portfolio_value := portfolio_value - monthly_withdrawal in
    let total_withdrawals := total_withdrawals st + monthly_withdrawal in
    new_asset_values <-
      reduce_proportionally new_asset_values portfolio_value monthly_withdrawal ;;
    current_allocation <- current_weights new_asset_values portfolio_value ;;
    let '(rebalance_now, strategy) :=
      should_rebalance (rebalance_strategy st) current_allocation (current_date st)
                       portfolio_value in
    '(new_asset_values, portfolio_value, total_rebalance_costs) <-
      (if rebalance_now then
         '(new_asset_values, rebalance_cost) <-
           rebalance strategy new_asset_values portfolio_value ;;
         Ok (new_asset_values, portfolio_value - rebalance_cost,
             total_rebalance_costs st + rebalance_cost)
       else Ok (new_asset_values, portfolio_value, total_rebalance_costs st)) ;;
    let asset_values := new_asset_values in
    let row :=
      History.mkRow (month + 1) portfolio_value monthly_withdrawal withdrawal
                    contribution_this_month total_withdrawals total_contributions
                    total_rebalance_costs
                    (map (fun asset =>
                            ((asset ++ "_value")%string, get new_asset_values asset 0))
                         (keys allocation)) in
    Ok (Next (mkLocals asset_values new_asset_values portfolio_value withdrawal
                       total_withdrawals total_contributions total_rebalance_costs
                       (months_survived st)
                       (current_date st + timedelta_days 30)%Z
                       (history st ++ [row]) strategy))
  else
    let months_survived := month in
    let portfolio_value := 0 in
    let new_asset_values := map (fun '(asset, _) => (asset, 0)) new_asset_values in
    Ok (Break (mkLocals (asset_values st) new_asset_values portfolio_value withdrawal
                        (total_withdrawals st) total_contributions
                        (total_rebalance_costs st) months_survived
                        (current_date st) (history st) (rebalance_strategy st))).

(** The [for] loop over the months still to run: it ends by running out of
    months or by [break], with the variables as they are then. *)
Fixpoint months_loop (p : Params) (monthly_returns : returns_frame)
         (months : list nat) (st : Locals) : outcome loop_exit :=
  match months with
  | [] => Ok (Next st)
  | month :: rest =>
      r <- month_body p monthly_returns month st ;;
      match r with
      | Next st' => months_loop p monthly_returns rest st'
      | Break st' => Ok (Break st')
      end
  end.

Definition locals_of (r : loop_exit) : Locals :=
  match r with
  | Next st => st
  | Break st => st
  end.

(** The variables as initialised before the loop. *)
Definition initial_locals (p : Params) (rebalance_strategy : RebalanceStrategy)
           (n_months : nat) : Locals :=
  let allocation := allocation (portfolio_config p) in
  let portfolio_value := initial_capital p in
  let asset_values :=
    map (fun '(asset, weight) => (asset, portfolio_value * weight)) allocation in
  mkLocals asset_values asset_values portfolio_value (withdrawal_amount p)
           0 0 0 n_months datetime_2025_1_1 [] rebalance_strategy.

(** The variables after the loop ran over [range(k)]: for [k] up to
    [n_months] this is the trajectory at the end of month [k], or its last
    state when the loop was left earlier. *)
Definition run_months (p : Params) (rebalance_strategy : RebalanceStrategy)
           (monthly_returns : returns_frame) (k : nat) : outcome Locals :=
  r <- months_loop p monthly_returns (seq 0 k)
                   (initial_locals p rebalance_strategy (List.length monthly_returns)) ;;
  Ok (locals_of r).

(** "Calcular métricas finales" *)
Definition final_metrics (p : Params) (n_months : nat) (st : Locals)
  : outcome Metrics.t :=
  let net_flow := total_contributions st - total_withdrawals st in
  total_return <-
    (if gt (initial_capital p) 0
     then div (portfolio_value st - initial_capital p) (initial_capital p)
     else Ok 0) ;;
  Ok (Metrics.mkMetrics (portfolio_value st) (total_withdrawals st)
                        (total_contributions st) net_flow
                        (total_rebalance_costs st) (months_survived st)
                        (months_survived st =? n_months)%nat total_return).

(** [simulate_portfolio_path]: the history, the metrics, and the strategy
    object as the call leaves it.  [asset_stats] is accepted and not read. *)
Definition simulate_portfolio_path (p : Params) (asset_stats : asset_statistics)
           (rebalance_strategy : RebalanceStrategy) (monthly_returns : returns_frame)
  : outcome (list History.row * Metrics.t * RebalanceStrategy) :=
  let n_months := List.length monthly_returns in
  st <- run_months p rebalance_strategy monthly_returns n_months ;;
  metrics <- final_metrics p n_months st ;;
  Ok (history st, metrics, Simulation.rebalance_strategy st).

(** *** The batch driver

    NumPy's global generator is an abstract state: [seeded s] is the state
    [np.random.seed(s)] installs, and [normal loc scale size g] are the draws
    [np.random.normal(loc, scale, size)] makes from state [g] for a [scale]
    it accepts, with the state it leaves. *)
Section RandomGenerator.

Variable rng : Type.
Variable seeded : Z -> rng.
Variable normal : R -> R -> nat -> rng -> list R * rng.

(** [np.random.seed(seed)] accepts 0 .. 2**32 - 1. *)
Definition np_random_seed (seed : Z) : outcome rng :=
  if ((0 <=? seed) && (seed <? 2 ^ 32))%Z then Ok (seeded seed)
  else Raise SeedOutOfRange.

(** [pd.DataFrame(columns)] for columns of [n_rows] entries each; without
    a column the frame has no row. *)
Definition frame_of_columns (columns : list (string * list R)) (n_rows : nat)
  : returns_frame :=
  match columns with
  | [] => []
  | _ :: _ =>
      map (fun i => map (fun '(asset, column) => (asset, nth i column 0)) columns)
          (seq 0 n_rows)
  end.

(** [np.random.normal(loc, scale, size)]: a negative [scale] is refused
    with [ValueError]. *)
Definition np_random_normal (loc scale : R) (size : nat) (g : rng)
  : outcome (list R * rng) :=
  if ge scale 0 then Ok (normal loc scale size g) else Raise NegativeScale.

(** The loop of [generate_monthly_returns] over the assets still to draw. *)
Fixpoint draw_columns (n_months : nat) (assets : asset_statistics)
         (monthly_returns : list (string * list R)) (g : rng)
  : outcome (list (string * list R) * rng) :=
  match assets with
  | [] => Ok (monthly_returns, g)
  | (asset, stats) :: rest =>
      let '(mean_annual, std_annual) :=
        if String.eqb asset "cash" then (0.02, 0.001)
        else (mean_return stats, std_dev stats) in
      let mean_monthly := mean_annual / 12 in
      let std_monthly := std_annual / sqrt 12 in
      '(log_returns, g) <- np_random_normal mean_monthly std_monthly n_months g ;;
      draw_columns n_months rest (monthly_returns ++ [(asset, log_returns)]) g
  end.

(** [generate_monthly_returns], from generator state [g]. *)
Definition generate_monthly_returns (asset_stats : asset_statistics) (n_months : nat)
           (random_seed : option Z) (g : rng) : outcome (returns_frame * rng) :=
  g <- match random_seed with
       | Some seed => np_random_seed seed
       | None => Ok g
       end ;;
  '(monthly_returns, g) <- draw_columns n_months asset_stats [] g ;;
  Ok (frame_of_columns monthly_returns n_months, g).

(** [random_seed + i if random_seed else None]: [None] and [0] are the
    values of [random_seed] that test false. *)
Definition iteration_seed (random_seed : option Z) (i : nat) : option Z :=
  match random_seed with
  | Some seed => if (seed =? 0)%Z then None else Some (seed + Z.of_nat i)%Z
  | None => None
  end.

(** What [monte_carlo_simulation] accumulates, with the two objects it
    shares with its caller: the strategy and the generator.  A history
    carries the value of its ['simulation'] column. *)
Record Batch : Type := mkBatch {
  all_histories : list (list History.row * nat);
  all_metrics : list Metrics.t;
  strategy_object : RebalanceStrategy;
  generator : rng
}.

(** The body of [for i in range(n_iterations)]. *)
Definition iteration_body (p : Params) (asset_stats : asset_statistics)
           (n_months : nat) (random_seed : option Z) (i : nat) (b : Batch)
  : outcome Batch :=
  '(monthly_returns, g) <-
    generate_monthly_returns asset_stats n_months (iteration_seed random_seed i)
                             (generator b) ;;
  '(history, metrics, strategy) <-
    simulate_portfolio_path p asset_stats (strategy_object b) monthly_returns ;;
  Ok (mkBatch (all_histories b ++ [(history, (i + 1)%nat)])
              (all_metrics b ++ [metrics]) strategy g).

Fixpoint iterations_loop (p : Params) (asset_stats : asset_statistics)
         (n_months : nat) (random_seed : option Z) (iterations : list nat)
         (b : Batch) : outcome Batch :=
  match iterations with
  | [] => Ok b
  | i :: rest =>
      b' <- iteration_body p asset_stats n_months random_seed i b ;;
      iterations_loop p asset_stats n_months random_seed rest b'
  end.

(** "Verificar si la cartera usa cash y agregarlo a asset_stats" *)
Definition with_cash (p : Params) (asset_stats : asset_statistics)
  : asset_statistics :=
  let allocation := allocation (portfolio_config p) in
  if contains allocation "cash" && gt (get allocation "cash" 0) 0
     && negb (existsb (String.eqb "cash") (map fst asset_stats))
  then asset_stats ++ [("cash"%string, mkAssetStat 0.02 0.001)]
  else asset_stats.

(** The batch after the loop ran over [range(k)]: for [k] up to
    [n_iterations], the batch as iteration [k] finds it. *)
Definition run_iterations (p : Params) (asset_stats : asset_statistics)
           (rebalance_strategy : RebalanceStrategy) (n_months : nat)
           (random_seed : option Z) (g : rng) (k : nat) : outcome Batch :=
  iterations_loop p (with_cash p asset_stats) n_months random_seed (seq 0 k)
                  (mkBatch [] [] rebalance_strategy g).

(** [monte_carlo_simulation], called with generator state [g]: the
    histories and the metrics table, with the strategy object and the
    generator as the call leaves them. *)
Definition monte_carlo_simulation (p : Params) (asset_stats : asset_statistics)
           (rebalance_strategy : RebalanceStrategy) (n_months n_iterations : nat)
           (random_seed : option Z) (g : rng) : outcome Batch :=
  run_iterations p asset_stats rebalance_strategy n_months random_seed g
                 n_iterations.

End RandomGenerator.

Arguments all_histories {rng} _.
Arguments all_metrics {rng} _.
Arguments strategy_object {rng} _.
Arguments generator {rng} _.
Arguments mkBatch {rng} _ _ _ _.

End Simulation.

Import Simulation.

(** ** The specification's vocabulary

    Quantities the specification names and the code computes only in
    passing, written after the specification's words. *)

Module Spec.

(** |current_weight - target_weight| of one target item; an asset the
    current allocation does not list weighs 0. *)
Definition deviation (current_allocation : dict) (item : string * R) : R :=
  Rabs (get current_allocation (fst item) 0 - snd item).

(** The maximum absolute deviation over the target allocation's assets. *)
Definition max_deviation (target current_allocation : dict) : R :=
  fold_right (fun item m => Rmax (deviation current_allocation item) m) 0 target.

(** The threshold trigger as the specification words it: the maximum
    deviation is at or above the threshold. *)
Definition threshold_trigger (target current_allocation : dict) (threshold : R) : bool :=
  ge (max_deviation target current_allocation) threshold.

(** The weight of an asset, from the per-asset values and the portfolio
    value. *)
Definition current_weight (current_values : dict) (portfolio_value : R)
           (asset : string) : R :=
  if gt portfolio_value 0 then get current_values asset 0 / portfolio_value else 0.

(** Turnover: the sum over the target assets of
    |target_weight - current_weight|. *)
Definition turnover (target current_values : dict) (portfolio_value : R) : R :=
  fold_right
    (fun '(asset, target_weight) total =>
       Rabs (target_weight - current_weight current_values portfolio_value asset) + total)
    0 target.

(** The cost of a rebalance. *)
Definition rebalance_cost (target current_values : dict)
           (portfolio_value transaction_cost : R) : R :=
  portfolio_value * (turnover target current_values portfolio_value / 2) * transaction_cost.

(** The contribution step as the specification words it: the amount is added
    to the total, and the new total is spread over the assets in proportion
    to their shares of the total before the contribution, or by the target
    weights when that total is 0. *)
Definition contribution_step (target new_asset_values : dict)
           (portfolio_value amount : R) : dict * R :=
  let new_total := portfolio_value + amount in
  if ne portfolio_value 0 then
    (map (fun '(asset, value) => (asset, value / portfolio_value * new_total))
         new_asset_values,
     new_total)
  else
    (map (fun '(asset, weight) => (asset, new_total * weight)) target, new_total).

(** The specification's contribution step, claimed of [apply_contribution]. *)
Definition contribution_claim (p : Params) (new_asset_values : dict)
           (portfolio_value total_contributions : R) : Prop :=
  let amount := periodic_contribution p in
  let step := contribution_step (allocation (portfolio_config p)) new_asset_values
                                portfolio_value amount in
  apply_contribution p new_asset_values portfolio_value total_contributions
  = Ok (amount, fst step, snd step, total_contributions + amount).

(** Every value of a dict is zero. *)
Definition all_zero (d : dict) : Prop :=
  forall asset value, In (asset, value) d -> value = 0.

(** A trajectory that has not been left by [break] after [m] of its
    [n_months] months: the month-boundary invariant, with what keeps it. *)
Definition on_course (n_months m : nat) (st : Locals) : Prop :=
  portfolio_value st = sum (values (new_asset_values st))
  /\ asset_values st = new_asset_values st
  /\ asset_values st <> []
  /\ months_survived st = n_months
  /\ List.length (history st) = m
  /\ 0 <= withdrawal st
  /\ sum (values (target_allocation (rebalance_strategy st))) = 1.

(** A trajectory left by [break]: the ruin state. *)
Definition ruined (st : Locals) : Prop :=
  portfolio_value st = 0
  /\ all_zero (new_asset_values st)
  /\ List.length (history st) = months_survived st.

(** What a strategy object can become by being checked: its configuration
    stays; a threshold-based object stays as it is; a reference date once set
    stays set. *)
Definition evolves (self self' : RebalanceStrategy) : Prop :=
  target_allocation self' = target_allocation self
  /\ transaction_cost self' = transaction_cost self
  /\ kind self' = kind self
  /\ (forall threshold, kind self = ThresholdBased threshold -> self' = self)
  /\ (last_rebalance_date self <> None -> last_rebalance_date self' <> None).

(** The freshness the specification asks of a batch of [n_iterations]
    iterations, [batch_before i] being the batch as iteration [i] finds it:
    every iteration finds a strategy whose reference date is unset. *)
Definition starts_unset {rng : Type} (batch_before : nat -> outcome (Batch rng))
           (n_iterations : nat) : Prop :=
  forall (i : nat) (b : Batch rng),
  (i < n_iterations)%nat ->
  batch_before i = Ok b ->
  last_rebalance_date (strategy_object b) = None.

(** Two batches that differ in the generator at most. *)
Definition same_tables {rng : Type} (b1 b2 : Batch rng) : Prop :=
  all_histories b1 = all_histories b2
  /\ all_metrics b1 = all_metrics b2
  /\ strategy_object b1 = strategy_object b2.

(** Two runs that end alike: with the same fault, or with the same tables. *)
Definition same_result {rng : Type} (r1 r2 : outcome (Batch rng)) : Prop :=
  match r1, r2 with
  | Ok b1, Ok b2 => same_tables b1 b2
  | Raise e1, Raise e2 => e1 = e2
  | _, _ => False
  end.

End Spec.

(** ** Inputs the properties are exercised on *)

Module Fixtures.

(** The allocation of the repository's tests. *)
Definition stocks_bonds : dict := [("stocks"%string, 0.6); ("bonds"%string, 0.4)].

(** An even allocation, a threshold and a current allocation whose numbers
    are all exact in binary floating point: both deviations are 0.25. *)
Definition even_split : dict := [("stocks"%string, 0.5); ("bonds"%string, 0.5)].
Definition drifted : dict := [("stocks"%string, 0.75); ("bonds"%string, 0.25)].
Definition quarter_threshold : RebalanceStrategy :=
  ThresholdBasedRebalance even_split 0.25 0.002.

(** The values of [test_rebalance_values_sum]. *)
Definition test_values : dict := [("stocks"%string, 70000); ("bonds"%string, 30000)].
Definition test_strategy : RebalanceStrategy :=
  TimeBasedRebalance stocks_bonds "annual" 0.002.

(** The ruin scenario: 100000 at 60/40, every log-return 0, 2000 withdrawn a
    month, no inflation adjustment, no contribution, no extra withdrawal. *)
Definition zero_row : dict := [("stocks"%string, 0); ("bonds"%string, 0)].
Definition zero_returns (n_months : nat) : returns_frame := repeat zero_row n_months.
Definition ruin_params : Params :=
  mkParams 100000 (mkPortfolioConfig "60/40" stocks_bonds) 2000 0.02 false 0 false
         None 0 false.

(** 1000 at 60/40 with a signed monthly contribution and a monthly
    withdrawal, no inflation adjustment, no extra withdrawal. *)
Definition contributing (amount withdrawal : R) : Params :=
  mkParams 1000 (mkPortfolioConfig "60/40" stocks_bonds) withdrawal 0.02 false
         amount true None 0 false.
Definition split_values : dict := [("stocks"%string, 600); ("bonds"%string, 400)].

(** Where the ruin scenario stands after [k] months. *)
Definition ruin_course (k : nat) (st : Locals) : Prop :=
  sum (values (asset_values st)) = 100000 - 2000 * INR k
  /\ asset_values st <> []
  /\ withdrawal st = 2000
  /\ transaction_cost (rebalance_strategy st) = 0
  /\ sum (values (target_allocation (rebalance_strategy st))) = 1
  /\ months_survived st = 60%nat.

(** Statistics of two assets without drift or volatility. *)
Definition flat_stats : asset_statistics :=
  [("stocks"%string, mkAssetStat 0 0); ("bonds"%string, mkAssetStat 0 0)].

(** A generator without state, whose draws are all equal to the mean. *)
Definition mean_draws (loc scale : R) (size : nat) (g : unit) : list R * unit :=
  (repeat loc size, g).

(** A generator that counts its calls and shifts its draws by the count; the
    seed sets the count. *)
Definition counting_draws (loc scale : R) (size : nat) (g : Z) : list R * Z :=
  (repeat (loc + IZR g) size, (g + 1)%Z).

End Fixtures.

(** ** What a trajectory keeps on record *)

Module Trajectory.

(** The contribution a month books: the configured amount, or 0 when
    contributions are off. *)
Definition monthly_contribution (p : Params) : R :=
  if contribution_enabled p then periodic_contribution p else 0.

(** The books of a trajectory that has run [m] of its [n_months] months
    without leaving the loop: one history row per month, labelled from 1, the
    running totals equal to the sums of the monthly columns, and the calendar
    advanced by 30 days a month. *)
Definition recorded (n_months m : nat) (st : Locals) : Prop :=
  months_survived st = n_months
  /\ map History.month (history st) = seq 1 m
  /\ total_withdrawals st = sum (map History.withdrawal (history st))
  /\ total_contributions st = sum (map History.contribution (history st))
  /\ current_date st = (datetime_2025_1_1 + timedelta_days (30 * Z.of_nat m))%Z.

(** The books of a trajectory left by [break]; the contribution of the month
    of the [break] is in the running total without a row of its own. *)
Definition stopped (p : Params) (st : Locals) : Prop :=
  map History.month (history st) = seq 1 (months_survived st)
  /\ total_withdrawals st = sum (map History.withdrawal (history st))
  /\ total_contributions st
     = sum (map History.contribution (history st)) + monthly_contribution p
  /\ portfolio_value st = 0.

(** The number of 30-day steps a time-based strategy lets pass between two
    rebalances: its day count, rounded up to whole steps. *)
Definition cadence (frequency : string) : Z :=
  ((frequency_days_get frequency_days frequency 365 + 29) / 30)%Z.


(** The reference date of a newly built time-based strategy after [m] months
    of a trajectory: none before the first month, then the date of the last
    month whose number is a multiple of the cadence. *)
Definition reference_after (frequency : string) (m : nat) : option datetime :=
  match m with
  | O => None
  | S j =>
      Some (datetime_2025_1_1
            + timedelta_days
                (30 * (cadence frequency * (Z.of_nat j / cadence frequency))))%Z
  end.

End Trajectory.

(** ** More inputs the properties are exercised on *)

Module Samples.

(** 100000 at 60/40 with nothing withdrawn: the survival scenario. *)
Definition idle_params : Params :=
  mkParams 100000 (mkPortfolioConfig "60/40" Fixtures.stocks_bonds) 0 0.02 false 0 false
           None 0 false.


(** 100000 at 60/40 with 500 withdrawn a month, adjusted for an inflation of
    2%, and a thirteenth payment of 500 in months 6 and 12. *)
Definition pension_params : Params :=
  mkParams 100000 (mkPortfolioConfig "60/40" Fixtures.stocks_bonds) 500 0.02 true 0
           false (Some [6%Z; 12%Z]) 500 true.

End Samples.

(** ** Rounding *)

Module Rounding.


End Rounding.

(** ** What a batch keeps on record *)

Module Tables.

(** The tables of a batch after [k] iterations: one metrics row and one
    history per iteration, the histories numbered from 1, and each history as
    long as its trajectory survived. *)
Definition tabled {rng : Type} (k : nat) (b : Batch rng) : Prop :=
  List.length (all_metrics b) = k
  /\ map snd (all_histories b) = seq 1 k
  /\ Forall2 (fun history metrics =>
                List.length (fst history) = Metrics.months_survived metrics)
             (all_histories b) (all_metrics b).

(** Two statistics tables with the same assets in the same order that agree
    on every asset but cash. *)
Definition same_but_cash (stats1 stats2 : asset_statistics) : Prop :=
  Forall2 (fun entry1 entry2 =>
             fst entry1 = fst entry2
             /\ (fst entry1 <> "cash"%string -> snd entry1 = snd entry2))
          stats1 stats2.

(** The seeds [np.random.seed] accepts. *)
Definition seed_in_range (seed : Z) : Prop := (0 <= seed < 2 ^ 32)%Z.

(** The deviations [np.random.normal] accepts: none below zero, that of cash
    apart, which is not read. *)
Definition scales_accepted (asset_stats : asset_statistics) : Prop :=
  Forall (fun entry => fst entry <> "cash"%string -> 0 <= std_dev (snd entry))
         asset_stats.

End Tables.

(** ** The numbers the simulator holds

    The values of a trajectory are Python floats until they meet a return:
    [np.exp] of an entry of the returns frame is a NumPy [float64], and so is
    every result of arithmetic with one.  The two kinds divide differently: a
    Python float divided by a Python float zero raises [ZeroDivisionError], a
    division with a [float64] on either side yields [inf] or [nan] under a
    [RuntimeWarning] and the run goes on. *)

Module NumPy.

(** A [float64]: a number, an infinity or [nan].  Rounding, overflow and the
    sign of a zero are not modelled. *)
Inductive float64 : Type :=
| Finite (x : R)
| Infinity (negative : bool)
| NaN.

Definition negative (a : float64) : float64 :=
  match a with
  | Finite x => Finite (- x)
  | Infinity s => Infinity (negb s)
  | NaN => NaN
  end.

Definition add (a b : float64) : float64 :=
  match a, b with
  | NaN, _ => NaN
  | _, NaN => NaN
  | Finite x, Finite y => Finite (x + y)
  | Finite _, Infinity t => Infinity t
  | Infinity s, Finite _ => Infinity s
  | Infinity s, Infinity t => if Bool.eqb s t then Infinity s else NaN
  end.

Definition subtract (a b : float64) : float64 := add a (negative b).

Definition multiply (a b : float64) : float64 :=
  match a, b with
  | NaN, _ => NaN
  | _, NaN => NaN
  | Finite x, Finite y => Finite (x * y)
  | Finite x, Infinity t => if ne x 0 then Infinity (xorb (gt 0 x) t) else NaN
  | Infinity s, Finite y => if ne y 0 then Infinity (xorb s (gt 0 y)) else NaN
  | Infinity s, Infinity t => Infinity (xorb s t)
  end.

Definition divide (a b : float64) : float64 :=
  match a, b with
  | NaN, _ => NaN
  | _, NaN => NaN
  | Finite x, Finite y =>
      if ne y 0 then Finite (x / y)
      else if ne x 0 then Infinity (gt 0 x)
      else NaN
  | Finite _, Infinity _ => Finite 0
  | Infinity s, Finite y => Infinity (xorb s (gt 0 y))
  | Infinity _, Infinity _ => NaN
  end.

Definition absolute (a : float64) : float64 :=
  match a with
  | Finite x => Finite (Rabs x)
  | Infinity _ => Infinity false
  | NaN => NaN
  end.

(** [a > b] and [a >= b]: [False] when either side is [nan]. *)
Definition greater (a b : float64) : bool :=
  match a, b with
  | NaN, _ => false
  | _, NaN => false
  | Finite x, Finite y => gt x y
  | Finite _, Infinity t => t
  | Infinity s, Finite _ => negb s
  | Infinity s, Infinity t => negb s && t
  end.

Definition greater_equal (a b : float64) : bool :=
  match a, b with
  | NaN, _ => false
  | _, NaN => false
  | Finite x, Finite y => ge x y
  | Finite _, Infinity t => t
  | Infinity s, Finite _ => negb s
  | Infinity s, Infinity t => negb s || t
  end.

End NumPy.

Module Number.

(** A Python float (or int) or a NumPy [float64]. *)
Inductive t : Type :=
| PyFloat (x : R)
| Float64 (v : NumPy.float64).

(** The [float64] an operand is taken for when the other side is one. *)
Definition float64 (a : t) : NumPy.float64 :=
  match a with
  | PyFloat x => NumPy.Finite x
  | Float64 v => v
  end.

Definition add (a b : t) : t :=
  match a, b with
  | PyFloat x, PyFloat y => PyFloat (x + y)
  | _, _ => Float64 (NumPy.add (float64 a) (float64 b))
  end.

Definition sub (a b : t) : t :=
  match a, b with
  | PyFloat x, PyFloat y => PyFloat (x - y)
  | _, _ => Float64 (NumPy.subtract (float64 a) (float64 b))
  end.

Definition mul (a b : t) : t :=
  match a, b with
  | PyFloat x, PyFloat y => PyFloat (x * y)
  | _, _ => Float64 (NumPy.multiply (float64 a) (float64 b))
  end.

(** [a / b]: the one operation that can raise, between two Python floats. *)
Definition div (a b : t) : outcome t :=
  match a, b with
  | PyFloat x, PyFloat y => q <- Py.div x y ;; Ok (PyFloat q)
  | _, _ => Ok (Float64 (NumPy.divide (float64 a) (float64 b)))
  end.

(** [abs(a)] *)
Definition abs (a : t) : t :=
  match a with
  | PyFloat x => PyFloat (Rabs x)
  | Float64 v => Float64 (NumPy.absolute v)
  end.

Definition gt (a b : t) : bool := NumPy.greater (float64 a) (float64 b).
Definition ge (a b : t) : bool := NumPy.greater_equal (float64 a) (float64 b).

(** The builtin [sum]: starts from the int 0 and adds from the left. *)
Definition sum (xs : list t) : t := fold_left add xs (PyFloat 0).

(** A dict with string keys whose values are such numbers. *)
Definition dict : Type := list (string * t).

Fixpoint get (d : dict) (key : string) (default : t) : t :=
  match d with
  | [] => default
  | (k, v) :: rest => if String.eqb key k then v else get rest key default
  end.

Definition values (d : dict) : list t := map snd d.

End Number.

(** ** The strategies and the path simulator on these numbers

    The same code as in [RebalanceStrategies] and [Simulation], with every
    value of the trajectory a [Number.t].  The parameters, the target
    weights, the withdrawals and the contributions come from the settings
    and stay Python floats. *)

Module Numeric.

(** [ThresholdBasedRebalance.should_rebalance], the loop over the target. *)
Fixpoint threshold_loop (items : Py.dict) (current_allocation : Number.dict)
         (threshold : R) : bool :=
  match items with
  | [] => false
  | (asset, target) :: rest =>
      let current := Number.get current_allocation asset (Number.PyFloat 0) in
      let deviation := Number.abs (Number.sub current (Number.PyFloat target)) in
      if Number.gt deviation (Number.PyFloat threshold) then true
      else threshold_loop rest current_allocation threshold
  end.

(** [should_rebalance] of either class: the answer and the object after the
    call. *)
Definition should_rebalance (self : RebalanceStrategy)
           (current_allocation : Number.dict) (date : datetime)
           (portfolio_value : Number.t) : bool * RebalanceStrategy :=
  match kind self with
  | TimeBased frequency =>
      match last_rebalance_date self with
      | None => (true, set_last_rebalance_date self date)
      | Some last =>
          let days_since_rebalance := days_between date last in
          if (days_since_rebalance
              >=? frequency_days_get frequency_days frequency 365)%Z
          then (true, set_last_rebalance_date self date)
          else (false, self)
      end
  | ThresholdBased threshold =>
      (threshold_loop (target_allocation self) current_allocation threshold, self)
  end.

(** [RebalanceStrategy.calculate_rebalance_cost] *)
Definition calculate_rebalance_cost (self : RebalanceStrategy)
           (target_allocation : Py.dict) (current_allocation : Number.dict)
           (portfolio_value : Number.t) : outcome Number.t :=
  let total_change :=
    fold_left
      (fun total_change '(asset, target) =>
         let change :=
           Number.abs
             (Number.sub (Number.PyFloat target)
                         (Number.get current_allocation asset (Number.PyFloat 0))) in
         Number.add total_change change)
      target_allocation (Number.PyFloat 0) in
  half <- Number.div total_change (Number.PyFloat 2) ;;
  let cost :=
    Number.mul (Number.mul portfolio_value half)
               (Number.PyFloat (transaction_cost self)) in
  Ok cost.

(** [RebalanceStrategy.rebalance] *)
Definition rebalance (self : RebalanceStrategy) (current_values : Number.dict)
           (portfolio_value : Number.t) : outcome (Number.dict * Number.t) :=
  current_allocation <-
    for_each (fun '(asset, value) =>
                weight <- (if Number.gt portfolio_value (Number.PyFloat 0)
                           then Number.div value portfolio_value
                           else Ok (Number.PyFloat 0)) ;;
                Ok (asset, weight))
             current_values ;;
  let new_values :=
    map (fun '(asset, target) =>
           (asset, Number.mul portfolio_value (Number.PyFloat target)))
        (target_allocation self) in
  cost <- calculate_rebalance_cost self (target_allocation self) current_allocation
                                   portfolio_value ;;
  let remaining_value := Number.sub portfolio_value cost in
  let new_values :=
    map (fun '(asset, target) =>
           (asset, Number.mul remaining_value (Number.PyFloat target)))
        (target_allocation self) in
  Ok (new_values, cost).

(** A row of the history. *)
Record row : Type := mkRow {
  month : nat;
  portfolio_value : Number.t;
  withdrawal : R;
  base_withdrawal : R;
  contribution : R;
  total_withdrawals : R;
  total_contributions : R;
  total_rebalance_costs : Number.t;
  asset_columns : Number.dict
}.

(** The final metrics. *)
Record metrics : Type := mkMetrics {
  final_value : Number.t;
  metrics_total_withdrawals : R;
  metrics_total_contributions : R;
  net_flow : R;
  metrics_total_rebalance_costs : Number.t;
  months_survived : nat;
  survived_full_period : bool;
  total_return : Number.t
}.

(** The variables of [simulate_portfolio_path] that live across months. *)
Record locals : Type := mkLocals {
  asset_values : Number.dict;
  new_asset_values : Number.dict;
  value : Number.t;
  current_withdrawal : R;
  withdrawals : R;
  contributions : R;
  rebalance_costs : Number.t;
  survived : nat;
  current_date : datetime;
  history : list row;
  rebalance_strategy : RebalanceStrategy
}.

Inductive loop_exit : Type :=
| Next (st : locals)
| Break (st : locals).

(** "Actualizar valores de activos con retornos": [np.exp] of an entry of the
    frame is a [float64]. *)
Definition apply_returns (asset_values : Number.dict) (month_returns : Py.dict)
  : Number.dict :=
  map (fun '(asset, value) =>
         if contains month_returns asset then
           let monthly_return := Py.get month_returns asset 0 in
           (asset,
            Number.mul value (Number.Float64 (NumPy.Finite (exp monthly_return))))
         else (asset, value))
      asset_values.

(** "Aplicar contribución periódica" *)
Definition apply_contribution (p : Params) (new_asset_values : Number.dict)
           (portfolio_value : Number.t) (total_contributions : R)
  : outcome (R * Number.dict * Number.t * R) :=
  let contribution_this_month := 0 in
  if contribution_enabled p then
    let contribution_this_month := periodic_contribution p in
    if ne contribution_this_month 0 then
      let portfolio_value :=
        Number.add portfolio_value (Number.PyFloat contribution_this_month) in
      let total_contributions := total_contributions + contribution_this_month in
      if Number.gt portfolio_value (Number.PyFloat 0) then
        new_asset_values <-
          for_each (fun '(asset, value) =>
                      share <-
                        Number.div value
                                   (Number.sub portfolio_value
                                               (Number.PyFloat contribution_this_month)) ;;
                      Ok (asset, Number.mul share portfolio_value))
                   new_asset_values ;;
        Ok (contribution_this_month, new_asset_values, portfolio_value,
            total_contributions)
      else
        Ok (contribution_this_month, new_asset_values, portfolio_value,
            total_contributions)
    else
      Ok (contribution_this_month, new_asset_values, portfolio_value,
          total_contributions)
  else
    Ok (contribution_this_month, new_asset_values, portfolio_value,
        total_contributions).

(** "Reducir proporcionalmente cada activo"; [portfolio_value] is the value
    already reduced by the withdrawal. *)
Definition reduce_proportionally (new_asset_values : Number.dict)
           (portfolio_value : Number.t) (monthly_withdrawal : R)
  : outcome Number.dict :=
  for_each (fun '(asset, value) =>
              fraction <-
                Number.div (Number.PyFloat monthly_withdrawal)
                           (Number.add portfolio_value
                                       (Number.PyFloat monthly_withdrawal)) ;;
              Ok (asset, Number.mul value (Number.sub (Number.PyFloat 1) fraction)))
           new_asset_values.

(** The [current_allocation] comprehension. *)
Definition current_weights (new_asset_values : Number.dict)
           (portfolio_value : Number.t) : outcome Number.dict :=
  for_each (fun '(asset, value) =>
              weight <- (if Number.gt portfolio_value (Number.PyFloat 0)
                         then Number.div value portfolio_value
                         else Ok (Number.PyFloat 0)) ;;
              Ok (asset, weight))
           new_asset_values.

(** The body of [for month in range(n_months)]. *)
Definition month_body (p : Params) (monthly_returns : returns_frame)
           (month : nat) (st : locals) : outcome loop_exit :=
  let allocation := allocation (portfolio_config p) in
  let withdrawal := adjust_withdrawal p month (current_withdrawal st) in
  let month_returns := nth month monthly_returns [] in
  let new_asset_values := apply_returns (asset_values st) month_returns in
  let portfolio_value := Number.sum (Number.values new_asset_values) in
  '(contribution_this_month, new_asset_values, portfolio_value, total_contributions) <-
    apply_contribution p new_asset_values portfolio_value (contributions st) ;;
  let monthly_withdrawal := total_monthly_withdrawal p month withdrawal in
  if Number.ge portfolio_value (Number.PyFloat monthly_withdrawal) then
    let portfolio_value :=
      Number.sub portfolio_value (Number.PyFloat monthly_withdrawal) in
    let total_withdrawals := withdrawals st + monthly_withdrawal in
    new_asset_values <-
      reduce_proportionally new_asset_values portfolio_value monthly_withdrawal ;;
    current_allocation <- current_weights new_asset_values portfolio_value ;;
    let '(rebalance_now, strategy) :=
      should_rebalance (rebalance_strategy st) current_allocation (current_date st)
                       portfolio_value in
    '(new_asset_values, portfolio_value, total_rebalance_costs) <-
      (if rebalance_now then
         '(new_asset_values, rebalance_cost) <-
           rebalance strategy new_asset_values portfolio_value ;;
         Ok (new_asset_values, Number.sub portfolio_value rebalance_cost,
             Number.add (rebalance_costs st) rebalance_cost)
       else Ok (new_asset_values, portfolio_value, rebalance_costs st)) ;;
    let asset_values := new_asset_values in
    let row :=
      mkRow (month + 1) portfolio_value monthly_withdrawal withdrawal
            contribution_this_month total_withdrawals total_contributions
            total_rebalance_costs
            (map (fun asset =>
                    ((asset ++ "_value")%string,
                     Number.get new_asset_values asset (Number.PyFloat 0)))
                 (keys allocation)) in
    Ok (Next (mkLocals asset_values new_asset_values portfolio_value withdrawal
                       total_withdrawals total_contributions total_rebalance_costs
                       (survived st)
                       (current_date st + timedelta_days 30)%Z
                       (history st ++ [row]) strategy))
  else
    let months_survived := month in
    let portfolio_value := Number.PyFloat 0 in
    let new_asset_values :=
      map (fun '(asset, _) => (asset, Number.PyFloat 0)) new_asset_values in
    Ok (Break (mkLocals (asset_values st) new_asset_values portfolio_value withdrawal
                        (withdrawals st) total_contributions
                        (rebalance_costs st) months_survived
                        (current_date st) (history st) (rebalance_strategy st))).

Fixpoint months_loop (p : Params) (monthly_returns : returns_frame)
         (months : list nat) (st : locals) : outcome loop_exit :=
  match months with
  | [] => Ok (Next st)
  | month :: rest =>
      r <- month_body p monthly_returns month st ;;
      match r with
      | Next st' => months_loop p monthly_returns rest st'
      | Break st' => Ok (Break st')
      end
  end.

Definition locals_of (r : loop_exit) : locals :=
  match r with
  | Next st => st
  | Break st => st
  end.

(** The variables as initialised before the loop. *)
Definition initial_locals (p : Params) (rebalance_strategy : RebalanceStrategy)
           (n_months : nat) : locals :=
  let allocation := allocation (portfolio_config p) in
  let portfolio_value := initial_capital p in
  let asset_values :=
    map (fun '(asset, weight) => (asset, Number.PyFloat (portfolio_value * weight)))
        allocation in
  mkLocals asset_values asset_values (Number.PyFloat portfolio_value)
           (withdrawal_amount p) 0 0 (Number.PyFloat 0) n_months datetime_2025_1_1 []
           rebalance_strategy.

(** "Calcular métricas finales" *)
Definition final_metrics (p : Params) (n_months : nat) (st : locals)
  : outcome metrics :=
  let net_flow := contributions st - withdrawals st in
  total_return <-
    (if Py.gt (initial_capital p) 0
     then Number.div (Number.sub (value st) (Number.PyFloat (initial_capital p)))
                     (Number.PyFloat (initial_capital p))
     else Ok (Number.PyFloat 0)) ;;
  Ok (mkMetrics (value st) (withdrawals st) (contributions st) net_flow
                (rebalance_costs st) (survived st)
                (survived st =? n_months)%nat total_return).

(** [simulate_portfolio_path]: the history, the metrics, and the strategy
    object as the call leaves it. *)
Definition simulate_portfolio_path (p : Params) (asset_stats : asset_statistics)
           (rebalance_strategy : RebalanceStrategy) (monthly_returns : returns_frame)
  : outcome (list row * metrics * RebalanceStrategy) :=
  let n_months := List.length monthly_returns in
  r <- months_loop p monthly_returns (seq 0 n_months)
                   (initial_locals p rebalance_strategy n_months) ;;
  let st := locals_of r in
  metrics <- final_metrics p n_months st ;;
  Ok (history st, metrics, Numeric.rebalance_strategy st).

End Numeric.

(** ** Where the two embeddings meet

    The numbers of the model on real numbers, read as numbers the simulator
    holds: a real [x] is either of the Python float [x] and the [float64]
    [x]. *)

Module Agreement.

Definition number (x : R) (a : Number.t) : Prop :=
  Number.float64 a = NumPy.Finite x.

Definition dicts (d : Py.dict) (nd : Number.dict) : Prop :=
  Forall2 (fun entry nentry =>
             fst entry = fst nentry /\ number (snd entry) (snd nentry))
          d nd.

Definition rows (r : History.row) (nr : Numeric.row) : Prop :=
  History.month r = Numeric.month nr
  /\ number (History.portfolio_value r) (Numeric.portfolio_value nr)
  /\ History.withdrawal r = Numeric.withdrawal nr
  /\ History.base_withdrawal r = Numeric.base_withdrawal nr
  /\ History.contribution r = Numeric.contribution nr
  /\ History.total_withdrawals r = Numeric.total_withdrawals nr
  /\ History.total_contributions r = Numeric.total_contributions nr
  /\ number (History.total_rebalance_costs r) (Numeric.total_rebalance_costs nr)
  /\ dicts (History.asset_columns r) (Numeric.asset_columns nr).

Definition locals (st : Locals) (nst : Numeric.locals) : Prop :=
  dicts (asset_values st) (Numeric.asset_values nst)
  /\ dicts (new_asset_values st) (Numeric.new_asset_values nst)
  /\ number (portfolio_value st) (Numeric.value nst)
  /\ withdrawal st = Numeric.current_withdrawal nst
  /\ total_withdrawals st = Numeric.withdrawals nst
  /\ total_contributions st = Numeric.contributions nst
  /\ number (total_rebalance_costs st) (Numeric.rebalance_costs nst)
  /\ months_survived st = Numeric.survived nst
  /\ current_date st = Numeric.current_date nst
  /\ Forall2 rows (history st) (Numeric.history nst)
  /\ rebalance_strategy st = Numeric.rebalance_strategy nst.

Definition exits (r : loop_exit) (nr : Numeric.loop_exit) : Prop :=
  match r, nr with
  | Next st, Numeric.Next nst => locals st nst
  | Break st, Numeric.Break nst => locals st nst
  | _, _ => False
  end.

Definition metrics (m : Metrics.t) (nm : Numeric.metrics) : Prop :=
  number (Metrics.final_value m) (Numeric.final_value nm)
  /\ Metrics.total_withdrawals m = Numeric.metrics_total_withdrawals nm
  /\ Metrics.total_contributions m = Numeric.metrics_total_contributions nm
  /\ Metrics.net_flow m = Numeric.net_flow nm
  /\ number (Metrics.total_rebalance_costs m) (Numeric.metrics_total_rebalance_costs nm)
  /\ Metrics.months_survived m = Numeric.months_survived nm
  /\ Metrics.survived_full_period m = Numeric.survived_full_period nm
  /\ number (Metrics.total_return m) (Numeric.total_return nm).

End Agreement.

(** ** Elapsed days *)

Module Calendar.

(** At least [days] whole days lie between [reference] and [date], a day
    being 86400000000 microseconds: what [(date - reference).days >= days]
    asks. *)
Definition days_elapsed (days : Z) (reference date : datetime) : Prop :=
  (reference + days * 86400000000 <= date)%Z.

(** The answers the specification gives to checks made one after the other
    at [dates], for an interval of [days] days, by an object whose reference
    date is [reference]: without a reference date the answer is [True]; with
    one it is [True] when at least [days] whole days lie between it and the
    date of the check; a check that answers [True] makes its date the
    reference date. *)
Fixpoint answers (days : Z) (reference : option datetime) (dates : list datetime)
  : list bool :=
  match dates with
  | [] => []
  | date :: rest =>
      match reference with
      | None => true :: answers days (Some date) rest
      | Some recorded =>
          if (recorded + days * 86400000000 <=? date)%Z
          then true :: answers days (Some date) rest
          else false :: answers days reference rest
      end
  end.

(** The reference date these checks leave. *)
Fixpoint reference_left (days : Z) (reference : option datetime)
         (dates : list datetime) : option datetime :=
  match dates with
  | [] => reference
  | date :: rest =>
      match reference with
      | None => reference_left days (Some date) rest
      | Some recorded =>
          if (recorded + days * 86400000000 <=? date)%Z
          then reference_left days (Some date) rest
          else reference_left days reference rest
      end
  end.

(** Calls of [should_rebalance] made one after the other on one object: the
    answers, and the object after the last call. *)
Fixpoint checks (self : RebalanceStrategy) (calls : list (dict * datetime * R))
  : list bool * RebalanceStrategy :=
  match calls with
  | [] => ([], self)
  | (current_allocation, date, portfolio_value) :: rest =>
      let '(answer, self) :=
        should_rebalance self current_allocation date portfolio_value in
      let '(later, self) := checks self rest in
      (answer :: later, self)
  end.

(** The dates of the calls. *)
Definition dates (calls : list (dict * datetime * R)) : list datetime :=
  map (fun call => snd (fst call)) calls.

End Calendar.

(** ** The strategy factory

    [create_rebalance_strategy] of [src/rebalance_strategies.py] reads a
    portfolio of the settings file.  The model types the entries it reads: the
    allocation is a [dict], the type and the frequency are strings, the
    threshold is a number; an entry the file does not have is [None]. *)

Module RebalanceFactory.

(** The [rebalance] block of a portfolio. *)
Record RebalanceSettings : Type := mkRebalanceSettings {
  rebalance_type : option string;
  rebalance_frequency : option string;
  rebalance_threshold : option R
}.

(** A portfolio of the settings file, as far as the factory reads it. *)
Record PortfolioSettings : Type := mkPortfolioSettings {
  settings_allocation : option dict;
  settings_rebalance : option RebalanceSettings
}.

Inductive exception : Type :=
| KeyError (key : string)
| ValueError (message : string).

Inductive result : Type :=
| Returns (strategy : RebalanceStrategy)
| Raises (e : exception).

(** [d.get(key, default)] on an entry that may be absent. *)
Definition get_or {A : Type} (entry : option A) (default : A) : A :=
  match entry with
  | Some value => value
  | None => default
  end.

Definition create_rebalance_strategy (portfolio_config : PortfolioSettings)
           (transaction_cost : R) : result :=
  match settings_allocation portfolio_config with
  | None => Raises (KeyError "allocation")
  | Some target_allocation =>
      match settings_rebalance portfolio_config with
      | None => Raises (KeyError "rebalance")
      | Some rebalance_config =>
          match rebalance_type rebalance_config with
          | None => Raises (KeyError "type")
          | Some type =>
              if String.eqb type "time" then
                let frequency :=
                  get_or (rebalance_frequency rebalance_config) "annual"%string in
                Returns (TimeBasedRebalance target_allocation frequency
                                            transaction_cost)
              else if String.eqb type "threshold" then
                let threshold := get_or (rebalance_threshold rebalance_config) 0.05 in
                Returns (ThresholdBasedRebalance target_allocation threshold
                                                 transaction_cost)
              else
                Raises (ValueError ("Tipo de rebalanceo desconocido: " ++ type))
          end
      end
  end.

End RebalanceFactory.

(** ** Summary tables

    [src/sensitivity_analysis.py] reduces the metrics table of a batch to
    summary statistics and lays the summaries out in comparison tables.  A
    metrics table is the list of its rows and has the eight columns
    [simulate_portfolio_path] reports, also when it has no row. *)

Module Pandas.

(** A number of a pandas reduction; [None] is [nan]. *)
Definition scalar : Type := option R.

(** [x * c] for a reduction [x]. *)
Definition times (x : scalar) (c : R) : scalar :=
  match x with
  | Some value => Some (value * c)
  | None => None
  end.

(** A boolean column counts [True] as 1 and [False] as 0. *)
Definition of_bool (b : bool) : R := if b then 1 else 0.

(** [Series.mean()]: [nan] for a column without entries. *)
Definition mean (column : list R) : scalar :=
  match column with
  | [] => None
  | _ :: _ => Some (sum column / INR (List.length column))
  end.

(** [Series.min()] and [Series.max()] *)
Definition min (column : list R) : scalar :=
  match column with
  | [] => None
  | x :: rest => Some (fold_left Rmin rest x)
  end.

Definition max (column : list R) : scalar :=
  match column with
  | [] => None
  | x :: rest => Some (fold_left Rmax rest x)
  end.

End Pandas.

Module SensitivityAnalysis.

(** A table cell: a name or a number. *)
Inductive cell : Type :=
| Text (s : string)
| Number (x : Pandas.scalar).

(** A row of a comparison table, as the dict it is built from. *)
Definition table_row : Type := list (string * cell).

(** The metrics tables by portfolio and scenario. *)
Definition results : Type := list (string * list (string * list Metrics.t)).

(** [d[key]] where [key in d]; [None] where it is not. *)
Fixpoint item {V : Type} (d : list (string * V)) (key : string) : option V :=
  match d with
  | [] => None
  | (k, v) :: rest => if String.eqb key k then Some v else item rest key
  end.

(** The reductions this development does not look into are left open. *)
Section Reductions.

Variable median : list R -> Pandas.scalar.
Variable std : list R -> Pandas.scalar.
Variable quantile : list R -> R -> Pandas.scalar.

Definition calculate_summary_statistics (metrics_df : list Metrics.t)
  : list (string * Pandas.scalar) :=
  let survived_full_period :=
    map (fun row => Pandas.of_bool (Metrics.survived_full_period row)) metrics_df in
  let final_value := map Metrics.final_value metrics_df in
  let months_survived :=
    map (fun row => INR (Metrics.months_survived row)) metrics_df in
  [ ("survival_rate"%string, Pandas.times (Pandas.mean survived_full_period) 100);
    ("mean_final_value"%string, Pandas.mean final_value);
    ("median_final_value"%string, median final_value);
    ("std_final_value"%string, std final_value);
    ("min_final_value"%string, Pandas.min final_value);
    ("max_final_value"%string, Pandas.max final_value);
    ("percentile_5"%string, quantile final_value 0.05);
    ("percentile_25"%string, quantile final_value 0.25);
    ("percentile_75"%string, quantile final_value 0.75);
    ("percentile_95"%string, quantile final_value 0.95);
    ("mean_months_survived"%string, Pandas.mean months_survived);
    ("mean_total_withdrawals"%string,
     Pandas.mean (map Metrics.total_withdrawals metrics_df));
    ("mean_total_rebalance_costs"%string,
     Pandas.mean (map Metrics.total_rebalance_costs metrics_df));
    ("mean_total_return"%string,
     Pandas.times (Pandas.mean (map Metrics.total_return metrics_df)) 100);
    ("mean_total_contributions"%string,
     Pandas.mean (map Metrics.total_contributions metrics_df));
    ("mean_net_flow"%string, Pandas.mean (map Metrics.net_flow metrics_df)) ].

(** [**stats] *)
Definition stats_cells (stats : list (string * Pandas.scalar)) : table_row :=
  map (fun '(key, value) => (key, Number value)) stats.

(** [compare_scenarios]: the rows of the table, in order. *)
Definition compare_scenarios (results_dict : results) : list table_row :=
  flat_map
    (fun '(portfolio_name, portfolio_results) =>
       map (fun '(scenario_name, metrics_df) =>
              ("portfolio"%string, Text portfolio_name)
                :: ("scenario"%string, Text scenario_name)
                :: stats_cells (calculate_summary_statistics metrics_df))
           portfolio_results)
    results_dict.

(** [compare_portfolios]: the rows of the table, in order. *)
Definition compare_portfolios (results_dict : results) (scenario : string)
  : list table_row :=
  flat_map
    (fun '(portfolio_name, portfolio_results) =>
       match item portfolio_results scenario with
       | Some metrics_df =>
           [ ("portfolio"%string, Text portfolio_name)
               :: stats_cells (calculate_summary_statistics metrics_df) ]
       | None => []
       end)
    results_dict.

End Reductions.

End SensitivityAnalysis.

(** ** What the summary tables are compared with *)

Module Reports.

Import SensitivityAnalysis.

(** The row says [text] in column [column]. *)
Definition says (column text : string) (row : table_row) : bool :=
  match item row column with
  | Some (Text s) => String.eqb s text
  | _ => false
  end.

(** The row without column [column]. *)
Definition without (column : string) (row : table_row) : table_row :=
  filter (fun entry => negb (String.eqb (fst entry) column)) row.

(** The number of trajectories of a metrics table that lasted [n_months]. *)
Definition lasted (n_months : nat) (metrics_df : list Metrics.t) : nat :=
  List.length
    (filter (fun row => (Metrics.months_survived row =? n_months)%nat) metrics_df).

(** Every portfolio lists a scenario once, as the keys of a dict. *)
Definition scenarios_once (results_dict : results) : Prop :=
  Forall (fun entry => NoDup (map fst (snd entry))) results_dict.

(** Some sample of [median], [std] and [quantile]: the properties do not
    depend on them. *)
Definition no_number (column : list R) : Pandas.scalar := None.
Definition no_quantile (column : list R) (q : R) : Pandas.scalar := None.

End Reports.

(** ** The withdrawals a trajectory is asked for *)

Module Schedule.

(** The base withdrawal of the month with index [month], counted from 0:
    the first amount, grown by the annual rate in proportion to the months
    gone by. *)
Definition base_withdrawal_in (p : Params) (month : nat) : R :=
  if apply_inflation p
  then withdrawal_amount p * Rpower (1 + inflation_rate p) (INR month / 12)
  else withdrawal_amount p.

(** [thirteenth_payment_months] lists the month numbered [month], counted
    from 1. *)
Definition listed (p : Params) (month : nat) : bool :=
  match thirteenth_payment_months p with
  | Some months => existsb (Z.eqb (Z.of_nat month)) months
  | None => false
  end.

(** The extra withdrawal of the month numbered [month], counted from 1. *)
Definition thirteenth_payment_in (p : Params) (month : nat) : R :=
  if thirteenth_payment_enabled p && listed p month then
    if apply_inflation p && (1 <? month)%nat
    then thirteenth_payment_amount p * Rpower (1 + inflation_rate p) (INR month / 12)
    else thirteenth_payment_amount p
  else 0.

(** A history row carries the withdrawals of its month. *)
Definition on_schedule (p : Params) (row : History.row) : Prop :=
  History.base_withdrawal row = base_withdrawal_in p (History.month row - 1)
  /\ History.withdrawal row
     = History.base_withdrawal row + thirteenth_payment_in p (History.month row).

End Schedule.


(* ================================================================== *)
(** * Part II: properties *)
(* ================================================================== *)

(** ** Python values *)

Section PyFacts.

Lemma gt_true (x y : R) : gt x y = true <-> x > y.
Proof. unfold gt. destruct (Rgt_dec x y); split; intros; try discriminate; auto; contradiction. Qed.

Lemma gt_false (x y : R) : gt x y = false <-> x <= y.
Proof.
  unfold gt. destruct (Rgt_dec x y); split; intros; try discriminate; auto; lra.
Qed.

Lemma ge_true (x y : R) : ge x y = true <-> x >= y.
Proof. unfold ge. destruct (Rge_dec x y); split; intros; try discriminate; auto; contradiction. Qed.

Lemma ge_false (x y : R) : ge x y = false <-> x < y.
Proof.
  unfold ge. destruct (Rge_dec x y); split; intros; try discriminate; auto; lra.
Qed.

Lemma ne_true (x y : R) : ne x y = true <-> x <> y.
Proof. unfold ne. destruct (Req_dec_T x y); split; intros; try discriminate; auto; contradiction. Qed.

Lemma ne_false (x y : R) : ne x y = false <-> x = y.
Proof. unfold ne. destruct (Req_dec_T x y); split; intros; try discriminate; auto; contradiction. Qed.

Lemma div_ok (x y : R) : y <> 0 -> div x y = Ok (x / y).
Proof. intros H. unfold div. destruct (Req_dec_T y 0); [contradiction | reflexivity]. Qed.

Lemma div_zero (x : R) : div x 0 = Raise DivisionByZero.
Proof. unfold div. destruct (Req_dec_T 0 0); [reflexivity | contradiction]. Qed.

Lemma fold_left_Rplus (xs : list R) (a : R) :
  fold_left Rplus xs a = a + fold_left Rplus xs 0.
Proof.
  revert a. induction xs as [| x xs IH]; intros a; simpl.
  - lra.
  - rewrite IH. rewrite (IH (0 + x)). lra.
Qed.

Lemma sum_nil : sum [] = 0.
Proof. reflexivity. Qed.

Lemma sum_cons (x : R) (xs : list R) : sum (x :: xs) = x + sum xs.
Proof. unfold sum. simpl. rewrite fold_left_Rplus. lra. Qed.

(** Scaling every value of a dict scales the sum of its values. *)
Lemma sum_values_scaled (f : R -> R) (c : R) (d : dict) :
  (forall v, f v = v * c) ->
  sum (values (map (fun '(asset, value) => (asset, f value)) d)) = sum (values d) * c.
Proof.
  intros Hf. unfold values. induction d as [| [a v] d IH]; simpl.
  - rewrite sum_nil. lra.
  - rewrite !sum_cons, IH, Hf. lra.
Qed.

(** A comprehension whose body cannot fault is a [map]. *)
Lemma for_each_ok {A B : Type} (f : A -> outcome B) (g : A -> B) (xs : list A) :
  (forall x, In x xs -> f x = Ok (g x)) -> for_each f xs = Ok (map g xs).
Proof.
  induction xs as [| x xs IH]; intros H; simpl.
  - reflexivity.
  - rewrite (H x (or_introl eq_refl)). simpl.
    rewrite IH by (intros y Hy; apply H; right; exact Hy). reflexivity.
Qed.

(** A comprehension faults when its body faults on the first item. *)
Lemma for_each_raise {A B : Type} (f : A -> outcome B) (e : fault) (x : A) (xs : list A) :
  f x = Raise e -> for_each f (x :: xs) = Raise e.
Proof. intros H. simpl. rewrite H. reflexivity. Qed.

End PyFacts.

(** ** Rebalancing strategies *)

Section StrategyFacts.

Lemma get_for_each_weights (current_values : dict) (portfolio_value : R) :
  exists current_allocation,
    for_each (fun '(asset, value) =>
                weight <- (if gt portfolio_value 0 then div value portfolio_value
                           else Ok 0) ;;
                Ok (asset, weight))
             current_values = Ok current_allocation
    /\ forall asset,
         get current_allocation asset 0
         = Spec.current_weight current_values portfolio_value asset.
Proof.
  unfold Spec.current_weight. destruct (gt portfolio_value 0) eqn:Hpos.
  - pose proof (proj1 (gt_true _ _) Hpos) as Hp.
    induction current_values as [| [a v] d [alloc [Hok Hget]]]; simpl.
    + exists []. split; [reflexivity |]. intros asset. simpl. lra.
    + rewrite div_ok by lra. simpl. rewrite Hok. simpl.
      exists ((a, v / portfolio_value) :: alloc). split; [reflexivity |].
      intros asset. specialize (Hget asset). simpl.
      destruct (String.eqb asset a); auto.
  - induction current_values as [| [a v] d [alloc [Hok Hget]]]; simpl.
    + exists []. split; reflexivity.
    + simpl in Hok. rewrite Hok. simpl. exists ((a, 0) :: alloc).
      split; [reflexivity |].
      intros asset. specialize (Hget asset). simpl.
      destruct (String.eqb asset a); auto.
Qed.

Lemma cost_fold_turnover (current_allocation current_values target : dict)
      (portfolio_value acc : R) :
  (forall asset, get current_allocation asset 0
                 = Spec.current_weight current_values portfolio_value asset) ->
  fold_left
    (fun total_change '(asset, target) =>
       let change := Rabs (target - get current_allocation asset 0) in
       total_change + change)
    target acc
  = acc + Spec.turnover target current_values portfolio_value.
Proof.
  intros Hget. revert acc. induction target as [| [a w] target IH]; intros acc; simpl.
  - lra.
  - rewrite IH, Hget. lra.
Qed.

(** [rebalance] cannot fault, and its result in closed form. *)
Lemma rebalance_closed_form (self : RebalanceStrategy) (current_values : dict)
      (portfolio_value : R) :
  let cost := Spec.rebalance_cost (target_allocation self) current_values
                                  portfolio_value (transaction_cost self) in
  rebalance self current_values portfolio_value
  = Ok (map (fun '(asset, target) => (asset, (portfolio_value - cost) * target))
            (target_allocation self),
        cost).
Proof.
  intros cost. unfold rebalance.
  destruct (get_for_each_weights current_values portfolio_value) as [alloc [Hok Hget]].
  rewrite Hok. simpl. unfold calculate_rebalance_cost.
  rewrite (cost_fold_turnover alloc current_values _ portfolio_value) by exact Hget.
  subst cost. unfold Spec.rebalance_cost. rewrite Rplus_0_l. reflexivity.
Qed.

Lemma sum_values_times (c : R) (d : dict) :
  sum (values (map (fun '(asset, target) => (asset, c * target)) d))
  = c * sum (values d).
Proof.
  unfold values. induction d as [| [a w] d IH]; simpl.
  - rewrite sum_nil. lra.
  - rewrite !sum_cons, IH. lra.
Qed.

(** The threshold loop answers [true] exactly when some target asset
    deviates by strictly more than the threshold. *)
Lemma threshold_loop_strict (items current_allocation : dict) (threshold : R) :
  threshold_loop items current_allocation threshold = true
  <-> exists item, In item items /\ Spec.deviation current_allocation item > threshold.
Proof.
  induction items as [| [a w] items IH]; simpl.
  - split; [discriminate | intros [item [[] _]]].
  - destruct (gt (Rabs (get current_allocation a 0 - w)) threshold) eqn:Hgt.
    + split; [| reflexivity]. intros _. exists (a, w). split; [left; reflexivity |].
      apply gt_true in Hgt. exact Hgt.
    + rewrite IH. apply gt_false in Hgt. split.
      * intros [item [Hin Hdev]]. exists item. split; [right; exact Hin | exact Hdev].
      * intros [item [[Heq | Hin] Hdev]].
        -- subst item. unfold Spec.deviation in Hdev. simpl in Hdev. lra.
        -- exists item. split; assumption.
Qed.

End StrategyFacts.

(** Tactics that settle the comparisons and absolute values of a goal whose
    numbers are concrete. *)
Ltac settle_abs :=
  repeat match goal with
         | |- context [Rabs ?x] =>
             first [ rewrite (Rabs_right x) by lra | rewrite (Rabs_left1 x) by lra ]
         end.

Ltac settle_cmp :=
  repeat match goal with
         | |- context [gt ?x ?y] =>
             first [ rewrite (proj2 (gt_true x y)) by lra
                   | rewrite (proj2 (gt_false x y)) by lra ]
         | |- context [ge ?x ?y] =>
             first [ rewrite (proj2 (ge_true x y)) by lra
                   | rewrite (proj2 (ge_false x y)) by lra ]
         | |- context [ne ?x ?y] =>
             first [ rewrite (proj2 (ne_true x y)) by lra
                   | rewrite (proj2 (ne_false x y)) by lra ]
         end.

(** C1, evaluated on the code.  With an even target allocation, a threshold
    of 0.25 and current weights 0.75 and 0.25, the maximum absolute deviation
    equals the threshold, so the trigger the specification describes fires;
    [ThresholdBasedRebalance.should_rebalance] answers [False], because it
    compares with a strict [>]. *)
Theorem threshold_boundary_does_not_trigger :
  Spec.max_deviation Fixtures.even_split Fixtures.drifted = 0.25
  /\ Spec.threshold_trigger Fixtures.even_split Fixtures.drifted 0.25 = true
  /\ fst (should_rebalance Fixtures.quarter_threshold Fixtures.drifted
                           datetime_2025_1_1 100000) = false.
Proof.
  assert (Hmax : Spec.max_deviation Fixtures.even_split Fixtures.drifted = 0.25).
  { unfold Spec.max_deviation, Spec.deviation. simpl. settle_abs.
    unfold Rmax. repeat destruct Rle_dec; lra. }
  split; [exact Hmax |]. split.
  - unfold Spec.threshold_trigger. rewrite Hmax. apply ge_true. lra.
  - unfold should_rebalance. simpl. settle_abs. settle_cmp. reflexivity.
Qed.

(** C3.  For a target allocation whose weights sum to 1, whatever the current
    per-asset values and the portfolio value, [rebalance] returns new values
    and a cost with: cost = portfolio_value * (turnover / 2) * transaction_cost
    for the turnover over the target assets, each new value equal to
    (portfolio_value - cost) * target_weight, and the new values and the cost
    adding up to the portfolio value. *)
Theorem rebalance_conserves_value (self : RebalanceStrategy) (current_values : dict)
        (portfolio_value : R) :
  sum (values (target_allocation self)) = 1 ->
  exists new_values cost,
    rebalance self current_values portfolio_value = Ok (new_values, cost)
    /\ cost = portfolio_value
              * (Spec.turnover (target_allocation self) current_values portfolio_value / 2)
              * transaction_cost self
    /\ new_values = map (fun '(asset, target_weight) =>
                           (asset, (portfolio_value - cost) * target_weight))
                        (target_allocation self)
    /\ sum (values new_values) + cost = portfolio_value.
Proof.
  intros Hone.
  pose proof (rebalance_closed_form self current_values portfolio_value) as H.
  cbv zeta in H. unfold Spec.rebalance_cost in H.
  eexists. eexists. split; [exact H |]. split; [reflexivity |]. split; [reflexivity |].
  rewrite sum_values_times, Hone. lra.
Qed.

Lemma stocks_bonds_sum : sum (values Fixtures.stocks_bonds) = 1.
Proof. unfold sum. simpl. lra. Qed.

Lemma rebalance_conserves_value_witness :
  sum (values (target_allocation Fixtures.test_strategy)) = 1
  /\ exists new_values cost,
       rebalance Fixtures.test_strategy Fixtures.test_values 100000
       = Ok (new_values, cost)
       /\ cost = 100000
                 * (Spec.turnover (target_allocation Fixtures.test_strategy)
                                  Fixtures.test_values 100000 / 2)
                 * transaction_cost Fixtures.test_strategy
       /\ new_values = map (fun '(asset, target_weight) =>
                              (asset, (100000 - cost) * target_weight))
                           (target_allocation Fixtures.test_strategy)
       /\ sum (values new_values) + cost = 100000.
Proof.
  split.
  - exact stocks_bonds_sum.
  - apply (rebalance_conserves_value Fixtures.test_strategy Fixtures.test_values 100000).
    exact stocks_bonds_sum.
Defined.

(** The day count of a difference of dates reaches [days] exactly when that
    many whole days lie between them. *)
Lemma days_between_elapsed (date reference days : Z) :
  (days_between date reference >=? days)%Z = true
  <-> Calendar.days_elapsed days reference date.
Proof.
  unfold days_between, microseconds_per_day, Calendar.days_elapsed.
  destruct (Z.geb_spec ((date - reference) / 86400000000) days) as [Hge | Hlt].
  - split; [intros _ | reflexivity].
    assert (H : (86400000000 * ((date - reference) / 86400000000)
                 <= date - reference)%Z)
      by (apply Z.mul_div_le; lia).
    nia.
  - split; [discriminate |]. intros H. exfalso.
    assert (Hq : (days <= (date - reference) / 86400000000)%Z)
      by (apply Z.div_le_lower_bound; lia).
    lia.
Qed.

(** A sequence of checks on a time-based object answers as the specification
    says, for the day count the object looks up. *)
Lemma checks_follow_interval (target : dict) (cost : R) (frequency : string)
      (calls : list (dict * datetime * R)) :
  forall last : option datetime,
    Calendar.checks (mkRebalanceStrategy target cost last (TimeBased frequency)) calls
    = (Calendar.answers (frequency_days_get frequency_days frequency 365) last
                        (Calendar.dates calls),
       mkRebalanceStrategy
         target cost
         (Calendar.reference_left (frequency_days_get frequency_days frequency 365) last
                                  (Calendar.dates calls))
         (TimeBased frequency)).
Proof.
  induction calls as [| [[current_allocation date] portfolio_value] calls IH];
    intros last; [reflexivity |].
  cbn [Calendar.checks Calendar.dates map fst snd Calendar.answers
       Calendar.reference_left].
  fold (Calendar.dates calls).
  unfold should_rebalance, TimeBased_should_rebalance, set_last_rebalance_date.
  cbn [kind last_rebalance_date target_allocation transaction_cost].
  destruct last as [recorded |].
  - assert (Hsame : (days_between date recorded
                     >=? frequency_days_get frequency_days frequency 365)%Z
                    = (recorded
                       + frequency_days_get frequency_days frequency 365 * 86400000000
                       <=? date)%Z).
    { destruct (recorded + _ * 86400000000 <=? date)%Z eqn:Hleb.
      - apply days_between_elapsed. apply Z.leb_le. exact Hleb.
      - apply not_true_is_false. intros H. apply days_between_elapsed in H.
        apply Z.leb_le in H. congruence. }
    rewrite Hsame.
    destruct (recorded + _ * 86400000000 <=? date)%Z; rewrite IH; reflexivity.
  - rewrite IH. reflexivity.
Qed.


(** Once a time-based strategy has a reference date it keeps having one. *)
Lemma reference_date_stays_set (self : RebalanceStrategy) (current_allocation : dict)
      (date : datetime) (portfolio_value : R) :
  last_rebalance_date self <> None ->
  last_rebalance_date (snd (should_rebalance self current_allocation date portfolio_value))
  <> None.
Proof.
  intros Hset. unfold should_rebalance, TimeBased_should_rebalance,
                 ThresholdBased_should_rebalance.
  destruct (kind self); [| exact Hset].
  destruct (last_rebalance_date self) eqn:Hlast; [| contradiction].
  destruct (_ >=? _)%Z; simpl; [discriminate | rewrite Hlast; discriminate].
Qed.

(** C10.  A time-based strategy built with a frequency other than "monthly",
    "quarterly" and "annual" is built all the same, and the interval its
    checks use is 365 days: without a reference date a check answers [True]
    and records the supplied date; with one it answers [True] exactly when at
    least 365 whole days lie between the reference date and the supplied
    date, and then records the supplied date, and otherwise leaves the object
    as it was.  Answer and reference date are those of the same strategy with
    frequency "annual", and along any sequence of calls on the newly built
    strategy the answers are those the specification gives for an interval of
    365 days. *)
Theorem unknown_frequency_defaults_to_annual
        (target : dict) (cost : R) (frequency : string) (last : option datetime)
        (current_allocation : dict) (date : datetime) (portfolio_value : R) :
  frequency <> "monthly"%string ->
  frequency <> "quarterly"%string ->
  frequency <> "annual"%string ->
  let given := mkRebalanceStrategy target cost last (TimeBased frequency) in
  let annual := mkRebalanceStrategy target cost last (TimeBased "annual") in
  let result := should_rebalance given current_allocation date portfolio_value in
  let updated := mkRebalanceStrategy target cost (Some date) (TimeBased frequency) in
  TimeBasedRebalance target frequency cost
  = mkRebalanceStrategy target cost None (TimeBased frequency)
  /\ frequency_days_get frequency_days frequency 365 = 365%Z
  /\ (last = None -> result = (true, updated))
  /\ (forall reference, last = Some reference ->
        (fst result = true <-> Calendar.days_elapsed 365 reference date))
  /\ (fst result = true -> snd result = updated)
  /\ (fst result = false -> snd result = given)
  /\ fst result
     = fst (should_rebalance annual current_allocation date portfolio_value)
  /\ last_rebalance_date (snd result)
     = last_rebalance_date
         (snd (should_rebalance annual current_allocation date portfolio_value))
  /\ (forall calls : list (dict * datetime * R),
        Calendar.checks (TimeBasedRebalance target frequency cost) calls
        = (Calendar.answers 365 None (Calendar.dates calls),
           mkRebalanceStrategy
             target cost (Calendar.reference_left 365 None (Calendar.dates calls))
             (TimeBased frequency))).
Proof.
  intros Hm Hq Ha given annual result updated. apply String.eqb_neq in Hm, Hq, Ha.
  assert (Hdays : frequency_days_get frequency_days frequency 365 = 365%Z).
  { simpl. rewrite Hm, Hq, Ha. reflexivity. }
  assert (Hcalls : forall calls : list (dict * datetime * R),
             Calendar.checks (TimeBasedRebalance target frequency cost) calls
             = (Calendar.answers 365 None (Calendar.dates calls),
                mkRebalanceStrategy
                  target cost
                  (Calendar.reference_left 365 None (Calendar.dates calls))
                  (TimeBased frequency))).
  { intros calls. unfold TimeBasedRebalance.
    rewrite checks_follow_interval, Hdays. reflexivity. }
  split; [reflexivity |]. split; [exact Hdays |].
  subst result given annual updated.
  unfold should_rebalance, TimeBased_should_rebalance, set_last_rebalance_date.
  cbn [kind last_rebalance_date target_allocation transaction_cost].
  rewrite Hdays.
  change (frequency_days_get frequency_days "annual" 365) with 365%Z.
  split; [intros ->; reflexivity |].
  split.
  { intros reference ->. split.
    - intros H. apply days_between_elapsed.
      destruct (_ >=? _)%Z; [reflexivity | discriminate H].
    - intros H. apply days_between_elapsed in H. rewrite H. reflexivity. }
  split.
  { destruct last as [reference |]; [| reflexivity].
    destruct (_ >=? _)%Z; [reflexivity | discriminate]. }
  split.
  { destruct last as [reference |]; [| discriminate].
    destruct (_ >=? _)%Z; [discriminate | reflexivity]. }
  destruct last as [reference |]; [| repeat split; try reflexivity; exact Hcalls].
  destruct (_ >=? _)%Z; repeat split; try reflexivity; exact Hcalls.
Qed.

Lemma unknown_frequency_defaults_to_annual_witness :
  fst (should_rebalance
         (mkRebalanceStrategy Fixtures.stocks_bonds 0.002 (Some datetime_2025_1_1)
                              (TimeBased "weekly"))
         Fixtures.stocks_bonds (datetime_2025_1_1 + 365 * 86400000000)%Z 100000)
  = true
  /\ fst (should_rebalance
            (mkRebalanceStrategy Fixtures.stocks_bonds 0.002 (Some datetime_2025_1_1)
                                 (TimeBased "weekly"))
            Fixtures.stocks_bonds (datetime_2025_1_1 + 364 * 86400000000)%Z 100000)
     <> true.
Proof.
  assert (Hm : "weekly"%string <> "monthly"%string) by discriminate.
  assert (Hq : "weekly"%string <> "quarterly"%string) by discriminate.
  assert (Ha : "weekly"%string <> "annual"%string) by discriminate.
  split.
  - pose proof (unknown_frequency_defaults_to_annual
                  Fixtures.stocks_bonds 0.002 "weekly" (Some datetime_2025_1_1)
                  Fixtures.stocks_bonds (datetime_2025_1_1 + 365 * 86400000000)%Z
                  100000 Hm Hq Ha)
      as H.
    cbv zeta in H. destruct H as [_ [_ [_ [Hiff _]]]].
    apply (Hiff datetime_2025_1_1 eq_refl). unfold Calendar.days_elapsed. lia.
  - pose proof (unknown_frequency_defaults_to_annual
                  Fixtures.stocks_bonds 0.002 "weekly" (Some datetime_2025_1_1)
                  Fixtures.stocks_bonds (datetime_2025_1_1 + 364 * 86400000000)%Z
                  100000 Hm Hq Ha)
      as H.
    cbv zeta in H. destruct H as [_ [_ [_ [Hiff _]]]].
    intros Htrue. apply (Hiff datetime_2025_1_1 eq_refl) in Htrue.
    unfold Calendar.days_elapsed in Htrue. lia.
Defined.

(** ** The path simulator: one month *)

Section MonthFacts.

Lemma should_rebalance_keeps_configuration (self : RebalanceStrategy)
      (current_allocation : dict) (date : datetime) (portfolio_value : R) :
  let self' := snd (should_rebalance self current_allocation date portfolio_value) in
  target_allocation self' = target_allocation self
  /\ transaction_cost self' = transaction_cost self
  /\ kind self' = kind self.
Proof.
  unfold should_rebalance, TimeBased_should_rebalance, ThresholdBased_should_rebalance.
  destruct (kind self) eqn:Hkind; simpl; [| auto].
  destruct (last_rebalance_date self); [destruct (_ >=? _)%Z |]; simpl; auto.
Qed.

Lemma current_weights_ok (new_asset_values : dict) (portfolio_value : R) :
  exists current_allocation,
    current_weights new_asset_values portfolio_value = Ok current_allocation.
Proof.
  destruct (get_for_each_weights new_asset_values portfolio_value) as [alloc [H _]].
  exists alloc. exact H.
Qed.

(** The proration of a withdrawal either divides by a non-zero base or has
    no asset to prorate over. *)
Lemma reduce_proportionally_inv (nv nv' : dict) (portfolio_value monthly_withdrawal : R) :
  reduce_proportionally nv portfolio_value monthly_withdrawal = Ok nv' ->
  (portfolio_value + monthly_withdrawal <> 0
   /\ nv' = map (fun '(asset, value) =>
                   (asset, value * (1 - monthly_withdrawal
                                        / (portfolio_value + monthly_withdrawal))))
                nv)
  \/ (nv = [] /\ nv' = []).
Proof.
  unfold reduce_proportionally. intros H.
  destruct nv as [| [a v] nv]; [right; simpl in H; split; congruence |].
  left. unfold div in H.
  destruct (Req_dec_T (portfolio_value + monthly_withdrawal) 0) as [Hz | Hnz].
  - simpl in H. discriminate.
  - split; [exact Hnz |].
    rewrite (for_each_ok _ (fun '(asset, value) =>
               (asset, value * (1 - monthly_withdrawal
                                    / (portfolio_value + monthly_withdrawal))))) in H.
    + congruence.
    + intros [a' v'] _. reflexivity.
Qed.

(** The same for the redistribution after a contribution. *)
Lemma redistribute_inv (nv nv' : dict) (base total : R) :
  for_each (fun '(asset, value) =>
              share <- div value base ;; Ok (asset, share * total)) nv = Ok nv' ->
  (base <> 0 /\ nv' = map (fun '(asset, value) => (asset, value / base * total)) nv)
  \/ (nv = [] /\ nv' = []).
Proof.
  intros H.
  destruct nv as [| [a v] nv]; [right; simpl in H; split; congruence |].
  left. destruct (Req_dec_T base 0) as [Hz | Hnz].
  - subst base. simpl in H. rewrite div_zero in H. simpl in H. discriminate.
  - split; [exact Hnz |].
    rewrite (for_each_ok _ (fun '(asset, value) => (asset, value / base * total))) in H.
    + congruence.
    + intros [a' v'] _. rewrite div_ok by exact Hnz. reflexivity.
Qed.

(** What [apply_contribution] returns when it returns. *)
Lemma apply_contribution_inv (p : Params) (nv nv1 : dict) (pv tc c pv1 tc1 : R) :
  apply_contribution p nv pv tc = Ok (c, nv1, pv1, tc1) ->
  (c = 0 /\ nv1 = nv /\ pv1 = pv /\ tc1 = tc
   /\ (contribution_enabled p = false \/ periodic_contribution p = 0))
  \/ (contribution_enabled p = true /\ c = periodic_contribution p /\ c <> 0
      /\ pv1 = pv + c /\ tc1 = tc + c
      /\ ((pv1 <= 0 /\ nv1 = nv)
          \/ (pv1 > 0 /\ pv1 - c <> 0
              /\ nv1 = map (fun '(asset, value) => (asset, value / (pv1 - c) * pv1)) nv)
          \/ (pv1 > 0 /\ nv = [] /\ nv1 = []))).
Proof.
  unfold apply_contribution. intros H.
  destruct (contribution_enabled p); [| left; inversion H; auto 10].
  destruct (ne (periodic_contribution p) 0) eqn:Hne.
  - right. apply ne_true in Hne.
    destruct (gt (pv + periodic_contribution p) 0) eqn:Hgt.
    + apply gt_true in Hgt.
      destruct (for_each _ nv) as [nv' |] eqn:Hfor; simpl in H; [| discriminate].
      inversion H; subst. repeat (split; [reflexivity || assumption |]).
      right. apply redistribute_inv in Hfor. destruct Hfor as [[Hb Hnv] | [Hnv Hnv']].
      * left. auto.
      * right. auto.
    + apply gt_false in Hgt. inversion H; subst.
      repeat (split; [reflexivity || assumption |]). left. auto.
  - left. apply ne_false in Hne. inversion H; subst. auto 10.
Qed.

Lemma adjust_withdrawal_nonneg (p : Params) (month : nat) (w : R) :
  0 <= w -> 0 <= adjust_withdrawal p month w.
Proof.
  intros Hw. unfold adjust_withdrawal.
  destruct (apply_inflation p && (0 <? month)%nat); [| exact Hw].
  assert (0 < Rpower (1 + inflation_rate p) (1 / 12)) by (unfold Rpower; apply exp_pos).
  apply Rmult_le_pos; lra.
Qed.

Lemma total_monthly_withdrawal_nonneg (p : Params) (month : nat) (w : R) :
  0 <= w -> 0 <= thirteenth_payment_amount p ->
  0 <= total_monthly_withdrawal p month w.
Proof.
  intros Hw Ht. unfold total_monthly_withdrawal.
  destruct (thirteenth_payment_enabled p && _); [| exact Hw].
  destruct (apply_inflation p && (0 <? month)%nat); [| lra].
  assert (0 < Rpower (1 + inflation_rate p) (INR (month + 1) / 12))
    by (unfold Rpower; apply exp_pos).
  assert (0 <= thirteenth_payment_amount p
               * Rpower (1 + inflation_rate p) (INR (month + 1) / 12))
    by (apply Rmult_le_pos; lra).
  lra.
Qed.

Lemma sum_values_zeroed (nv : dict) :
  sum (values (map (fun '(asset, _) => (asset, 0)) nv)) = 0.
Proof.
  unfold values. induction nv as [| [a v] nv IH]; simpl.
  - apply sum_nil.
  - rewrite sum_cons, IH. lra.
Qed.

Lemma values_zeroed (nv : dict) (asset : string) (value : R) :
  In (asset, value) (map (fun '(asset, _) => (asset, 0)) nv) -> value = 0.
Proof.
  induction nv as [| [a v] nv IH]; simpl; [tauto |].
  intros [Heq | Hin]; [congruence | auto].
Qed.

End MonthFacts.

(** Splits a hypothesis [month_body ... = Ok r] into the three ways the body
    returns: after a rebalance, without one, and by [break]. *)
Ltac open_month_body H :=
  unfold month_body in H;
  let c := fresh "c" in let nv1 := fresh "nv1" in
  let pv1 := fresh "pv1" in let tc1 := fresh "tc1" in
  let Hcontribution := fresh "Hcontribution" in
  let Hge := fresh "Hge" in
  let nv2 := fresh "nv2" in let Hreduce := fresh "Hreduce" in
  let alloc := fresh "alloc" in let Hweights := fresh "Hweights" in
  let go := fresh "go" in let self' := fresh "self'" in
  let Hcheck := fresh "Hcheck" in
  let nv3 := fresh "nv3" in let cost := fresh "cost" in
  let Hrebalance := fresh "Hrebalance" in
  destruct (apply_contribution _ _ _ _) as [[[[c nv1] pv1] tc1] |] eqn:Hcontribution;
  simpl in H; [| discriminate H];
  destruct (ge pv1 _) eqn:Hge;
  [ destruct (reduce_proportionally _ _ _) as [nv2 |] eqn:Hreduce;
    simpl in H; [| discriminate H];
    destruct (current_weights _ _) as [alloc |] eqn:Hweights;
    simpl in H; [| discriminate H];
    destruct (should_rebalance _ _ _ _) as [go self'] eqn:Hcheck;
    destruct go;
    [ destruct (rebalance _ _ _) as [[nv3 cost] |] eqn:Hrebalance;
      simpl in H; [| discriminate H]
    | simpl in H ]
  | ];
  inversion H; subst; clear H.

Section MonthPost.

(** A month that ends by [break]: what it leaves. *)
Lemma month_body_break (p : Params) (rows : returns_frame) (month : nat)
      (st st' : Locals) :
  month_body p rows month st = Ok (Break st') ->
  months_survived st' = month
  /\ portfolio_value st' = 0
  /\ (forall asset value, In (asset, value) (new_asset_values st') -> value = 0)
  /\ rebalance_strategy st' = rebalance_strategy st
  /\ total_rebalance_costs st' = total_rebalance_costs st
  /\ total_withdrawals st' = total_withdrawals st
  /\ history st' = history st.
Proof.
  intros H. open_month_body H. simpl.
  repeat (split; [reflexivity |]). split; [| auto].
  intros asset value. apply values_zeroed.
Qed.

(** After the contribution and the withdrawal of a month that is not
    left by [break], the per-asset values add up to the portfolio value. *)
Lemma withdrawal_keeps_sum (p : Params) (nv0 nv1 nv2 : dict) (tc c pv1 tc1 mw : R) :
  nv0 <> [] ->
  0 <= mw ->
  apply_contribution p nv0 (sum (values nv0)) tc = Ok (c, nv1, pv1, tc1) ->
  ge pv1 mw = true ->
  reduce_proportionally nv1 (pv1 - mw) mw = Ok nv2 ->
  pv1 - mw = sum (values nv2) /\ nv2 <> [].
Proof.
  intros Hne Hmw Hc Hge Hred.
  apply ge_true in Hge.
  apply reduce_proportionally_inv in Hred.
  apply apply_contribution_inv in Hc.
  assert (Hnv1 : nv1 <> [] /\ (pv1 = sum (values nv1) \/ pv1 <= 0)).
  { destruct Hc as [[_ [-> [-> _]]] | [_ [_ [_ [Hpv1 [_ Hc]]]]]]; [auto |].
    destruct Hc as [[Hle ->] | [[Hgt [Hbase ->]] | [_ [Hnil _]]]].
    - auto.
    - split; [intros Hmap; apply map_eq_nil in Hmap; contradiction |].
      left.
      rewrite (sum_values_scaled (fun value => value / (pv1 - c) * pv1)
                                 (/ (pv1 - c) * pv1))
        by (intros v; unfold Rdiv; ring).
      replace (sum (values nv0)) with (pv1 - c) by lra.
      field. exact Hbase.
    - contradiction. }
  destruct Hnv1 as [Hne1 Hcases].
  destruct Hred as [[Hbase ->] | [Hnil _]]; [| contradiction].
  split; [| intros Hmap; apply map_eq_nil in Hmap; contradiction].
  rewrite (sum_values_scaled (fun value => value * (1 - mw / (pv1 - mw + mw)))
                             (1 - mw / (pv1 - mw + mw)))
    by (intros v; reflexivity).
  destruct Hcases as [Hinv | Hle].
  - rewrite <- Hinv. field. exact Hbase.
  - exfalso. apply Hbase. lra.
Qed.

Lemma apply_returns_nonempty (asset_values month_returns : dict) :
  asset_values <> [] -> apply_returns asset_values month_returns <> [].
Proof.
  unfold apply_returns. intros Hne Hmap. apply map_eq_nil in Hmap. contradiction.
Qed.

Lemma weights_sum_nonempty (d : dict) : sum (values d) = 1 -> d <> [].
Proof. intros Hone ->. simpl in Hone. rewrite sum_nil in Hone. lra. Qed.

(** A month that falls through to the next: what it leaves. *)
Lemma month_body_next (p : Params) (rows : returns_frame) (month : nat)
      (st st' : Locals) :
  month_body p rows month st = Ok (Next st') ->
  asset_values st <> [] ->
  0 <= withdrawal st ->
  0 <= thirteenth_payment_amount p ->
  sum (values (target_allocation (rebalance_strategy st))) = 1 ->
  portfolio_value st' = sum (values (new_asset_values st'))
  /\ asset_values st' = new_asset_values st'
  /\ asset_values st' <> []
  /\ months_survived st' = months_survived st
  /\ List.length (history st') = S (List.length (history st))
  /\ 0 <= withdrawal st'
  /\ target_allocation (rebalance_strategy st')
     = target_allocation (rebalance_strategy st).
Proof.
  intros H Hne Hw Ht Hone.
  pose proof (total_monthly_withdrawal_nonneg p month _
                (adjust_withdrawal_nonneg p month _ Hw) Ht) as Hmw.
  pose proof (adjust_withdrawal_nonneg p month _ Hw) as Hw'.
  pose proof (apply_returns_nonempty _ (nth month rows []) Hne) as Hne0.
  open_month_body H; simpl;
    destruct (withdrawal_keeps_sum _ _ _ _ _ _ _ _ _ Hne0 Hmw Hcontribution Hge Hreduce)
      as [Hsum Hne2];
    pose proof (should_rebalance_keeps_configuration
                  (rebalance_strategy st) alloc (current_date st)
                  (pv1 - total_monthly_withdrawal p month
                           (adjust_withdrawal p month (withdrawal st)))) as Hkeep;
    rewrite Hcheck in Hkeep; simpl in Hkeep; destruct Hkeep as [Htarget _].
  - rewrite rebalance_closed_form in Hrebalance. inversion Hrebalance; subst.
    rewrite sum_values_times, Htarget, Hone.
    repeat split; try reflexivity; try assumption; try lra.
    + intros Hmap. apply map_eq_nil in Hmap.
      apply (weights_sum_nonempty _ Hone). congruence.
    + rewrite length_app. simpl. lia.
  - repeat split; try reflexivity; try assumption.
    rewrite length_app. simpl. lia.
Qed.

End MonthPost.

(** ** The path simulator: the loop *)

Section LoopFacts.

Variable p : Params.
Variable rows : returns_frame.

Lemma months_loop_app (l1 l2 : list nat) (st : Locals) :
  months_loop p rows (l1 ++ l2) st
  = (r <- months_loop p rows l1 st ;;
     match r with
     | Next st' => months_loop p rows l2 st'
     | Break st' => Ok (Break st')
     end).
Proof.
  revert st. induction l1 as [| month l1 IH]; intros st; simpl.
  - reflexivity.
  - destruct (month_body p rows month st) as [[st' | st'] |]; simpl; auto.
Qed.

(** A month in which the portfolio cannot pay the withdrawal ends the loop. *)
Lemma month_body_ruin (month : nat) (st : Locals) (nv1 : dict) (c pv1 tc1 : R) :
  let nv0 := apply_returns (asset_values st) (nth month rows []) in
  let w := adjust_withdrawal p month (withdrawal st) in
  apply_contribution p nv0 (sum (values nv0)) (total_contributions st)
  = Ok (c, nv1, pv1, tc1) ->
  pv1 < total_monthly_withdrawal p month w ->
  month_body p rows month st
  = Ok (Break (mkLocals (asset_values st)
                        (map (fun '(asset, _) => (asset, 0)) nv1) 0 w
                        (total_withdrawals st) tc1 (total_rebalance_costs st)
                        month (current_date st) (history st)
                        (rebalance_strategy st))).
Proof.
  intros nv0 w Hc Hlt. unfold month_body. fold nv0. rewrite Hc. simpl.
  fold w. rewrite (proj2 (ge_false _ _) Hlt). reflexivity.
Qed.

(** A month in which a non-zero portfolio can pay the withdrawal runs to its
    end; what it costs is the withdrawal and, if the strategy charges for it
    and something is left, a rebalance. *)
Lemma month_body_progress (month : nat) (st : Locals) (nv1 : dict) (c pv1 tc1 : R) :
  let nv0 := apply_returns (asset_values st) (nth month rows []) in
  let w := adjust_withdrawal p month (withdrawal st) in
  let mw := total_monthly_withdrawal p month w in
  apply_contribution p nv0 (sum (values nv0)) (total_contributions st)
  = Ok (c, nv1, pv1, tc1) ->
  pv1 >= mw ->
  pv1 <> 0 ->
  exists st',
    month_body p rows month st = Ok (Next st')
    /\ withdrawal st' = w
    /\ transaction_cost (rebalance_strategy st')
       = transaction_cost (rebalance_strategy st)
    /\ ((transaction_cost (rebalance_strategy st) = 0 \/ pv1 = mw) ->
        portfolio_value st' = pv1 - mw).
Proof.
  intros nv0 w mw Hc Hge Hnz. unfold month_body. fold nv0. rewrite Hc. simpl.
  fold w. fold mw.
  rewrite (proj2 (ge_true _ _) Hge).
  unfold reduce_proportionally.
  rewrite (for_each_ok _ (fun '(asset, value) =>
             (asset, value * (1 - mw / (pv1 - mw + mw)))));
    [| intros [a v] _; rewrite div_ok by lra; reflexivity].
  simpl.
  match goal with
  | |- context [current_weights ?nv ?pv] =>
      destruct (current_weights_ok nv pv) as [alloc Halloc]; rewrite Halloc
  end.
  simpl.
  match goal with
  | |- context [should_rebalance ?s ?a ?d ?v] =>
      pose proof (should_rebalance_keeps_configuration s a d v) as Hkeep;
      destruct (should_rebalance s a d v) as [go self']
  end.
  simpl in Hkeep. destruct Hkeep as [_ [Hcost _]].
  destruct go.
  - rewrite rebalance_closed_form. simpl. eexists. split; [reflexivity |]. simpl.
    split; [reflexivity |]. split; [exact Hcost |].
    unfold Spec.rebalance_cost. rewrite Hcost.
    intros [Hfree | Hall]; [rewrite Hfree | rewrite Hall]; lra.
  - simpl. eexists. split; [reflexivity |]. simpl. auto.
Qed.

(** A month in which the withdrawal leaves the divisor of its proration at
    zero faults, as soon as there is an asset to prorate over. *)
Lemma month_body_withdrawal_fault (month : nat) (st : Locals) (nv1 : dict)
      (c pv1 tc1 : R) :
  let nv0 := apply_returns (asset_values st) (nth month rows []) in
  let w := adjust_withdrawal p month (withdrawal st) in
  let mw := total_monthly_withdrawal p month w in
  apply_contribution p nv0 (sum (values nv0)) (total_contributions st)
  = Ok (c, nv1, pv1, tc1) ->
  pv1 >= mw ->
  pv1 = 0 ->
  nv1 <> [] ->
  month_body p rows month st = Raise DivisionByZero.
Proof.
  intros nv0 w mw Hc Hge Hz Hne. unfold month_body. fold nv0. rewrite Hc. simpl.
  fold w. fold mw. rewrite (proj2 (ge_true _ _) Hge).
  destruct nv1 as [| [a v] nv1]; [contradiction |].
  unfold reduce_proportionally.
  rewrite (for_each_raise _ DivisionByZero); [reflexivity |].
  replace (pv1 - mw + mw) with 0 by lra. rewrite div_zero. reflexivity.
Qed.

(** Log-returns that are all zero leave the values as they are. *)
Lemma apply_returns_zero (asset_values month_returns : dict) :
  Spec.all_zero month_returns ->
  sum (values (apply_returns asset_values month_returns)) = sum (values asset_values).
Proof.
  intros Hzero.
  assert (Hget : forall asset, get month_returns asset 0 = 0).
  { intros asset. induction month_returns as [| [k v] row IH]; simpl; [reflexivity |].
    destruct (String.eqb asset k).
    - apply (Hzero k v). left. reflexivity.
    - apply IH. intros a' v' Hin. apply (Hzero a' v'). right. exact Hin. }
  unfold apply_returns, values.
  induction asset_values as [| [a v] d IH]; simpl; [reflexivity |].
  destruct (contains month_returns a); simpl; rewrite !sum_cons, IH; [| reflexivity].
  rewrite Hget, exp_0. lra.
Qed.

(** The invariant of the loop.  From a trajectory on course after [m]
    months, the loop over the next [len] months either keeps it on course or
    leaves it ruined, in a month it names. *)
Lemma months_loop_invariant (n len : nat) :
  0 <= thirteenth_payment_amount p ->
  forall (m : nat) (st : Locals) (r : loop_exit),
    Spec.on_course n m st ->
    months_loop p rows (seq m len) st = Ok r ->
    match r with
    | Next st' => Spec.on_course n (m + len) st'
    | Break st' =>
        Spec.ruined st' /\ (m <= months_survived st' < m + len)%nat
    end.
Proof.
  intros Ht. induction len as [| len IH]; intros m st r Hst Hloop; simpl in Hloop.
  - injection Hloop as <-. rewrite Nat.add_0_r. exact Hst.
  - destruct Hst as [Hpv [Hsame [Hne [Hsurv [Hlen [Hw Hone]]]]]].
    destruct (month_body p rows m st) as [[st1 | st1] |] eqn:Hbody;
      simpl in Hloop; [| | discriminate].
    + destruct (month_body_next _ _ _ _ _ Hbody Hne Hw Ht Hone)
        as [Hpv1 [Hsame1 [Hne1 [Hsurv1 [Hlen1 [Hw1 Htarget1]]]]]].
      assert (Hst1 : Spec.on_course n (S m) st1).
      { unfold Spec.on_course. rewrite Htarget1.
        repeat split; try assumption; congruence. }
      specialize (IH (S m) st1 r Hst1 Hloop).
      destruct r as [st' | st'].
      * replace (m + S len)%nat with (S m + len)%nat by lia. exact IH.
      * destruct IH as [Hruin Hrange]. split; [exact Hruin | lia].
    + injection Hloop as <-.
      destruct (month_body_break _ _ _ _ _ Hbody)
        as [Hm [Hzero [Hall [_ [_ [_ Hhist]]]]]].
      split; [| lia]. unfold Spec.ruined. repeat split; try assumption.
      rewrite Hhist, Hm. exact Hlen.
Qed.

End LoopFacts.

Lemma initial_locals_on_course (p : Params) (strategy : RebalanceStrategy) (n : nat) :
  sum (values (allocation (portfolio_config p))) = 1 ->
  sum (values (target_allocation strategy)) = 1 ->
  0 <= withdrawal_amount p ->
  Spec.on_course n 0 (initial_locals p strategy n).
Proof.
  intros Halloc Htarget Hw. unfold Spec.on_course, initial_locals. simpl.
  repeat split; try assumption; try reflexivity.
  - rewrite sum_values_times, Halloc. lra.
  - intros Hmap. apply map_eq_nil in Hmap.
    apply (weights_sum_nonempty _ Halloc). exact Hmap.
Qed.

Lemma all_zero_sum (d : dict) : Spec.all_zero d -> sum (values d) = 0.
Proof.
  unfold values. induction d as [| [a v] d IH]; intros Hzero; simpl.
  - apply sum_nil.
  - rewrite sum_cons, IH.
    + rewrite (Hzero a v) by (left; reflexivity). lra.
    + intros a' v' Hin. apply (Hzero a' v'). right. exact Hin.
Qed.

(** The month-boundary invariant, on the runs in which no division meets a
    zero divisor.  With allocation and target weights that sum to 1 and
    withdrawal amounts that are not negative, at the end of every month of
    such a run the tracked portfolio value is the sum of the per-asset values;
    and once ruin has been declared, every per-asset value is zero, the
    history stops at the last month survived, and running the loop over more
    months changes nothing. *)
Lemma month_boundary_invariant (p : Params) (strategy : RebalanceStrategy)
        (rows : returns_frame) (k : nat) (st : Locals) :
  sum (values (allocation (portfolio_config p))) = 1 ->
  sum (values (target_allocation strategy)) = 1 ->
  0 <= withdrawal_amount p ->
  0 <= thirteenth_payment_amount p ->
  (k <= List.length rows)%nat ->
  run_months p strategy rows k = Ok st ->
  portfolio_value st = sum (values (new_asset_values st))
  /\ (months_survived st <> List.length rows ->
      Spec.all_zero (new_asset_values st)
      /\ portfolio_value st = 0
      /\ (months_survived st < k)%nat
      /\ List.length (history st) = months_survived st
      /\ forall k', (k <= k')%nat -> run_months p strategy rows k' = Ok st).
Proof.
  intros Halloc Htarget Hw Ht Hk Hrun. unfold run_months in Hrun.
  destruct (months_loop p rows (seq 0 k) _) as [r |] eqn:Hloop;
    simpl in Hrun; [| discriminate].
  injection Hrun as <-.
  pose proof (months_loop_invariant p rows (List.length rows) k Ht 0 _ r
                (initial_locals_on_course p strategy _ Halloc Htarget Hw) Hloop)
    as Hinv.
  destruct r as [st' | st']; simpl.
  - destruct Hinv as [Hpv [_ [_ [Hsurv _]]]]. split; [exact Hpv |].
    intros Hruin. contradiction.
  - destruct Hinv as [[Hzero [Hall Hlen]] Hrange]. split.
    + rewrite (all_zero_sum _ Hall). exact Hzero.
    + intros _. repeat split; try assumption; try lia.
      intros k' Hk'. unfold run_months.
      replace k' with (k + (k' - k))%nat by lia.
      rewrite seq_app, months_loop_app, Hloop. reflexivity.
Qed.

(** ** The ruin scenario *)

Section RuinScenario.

Let p := Fixtures.ruin_params.
Let rows := Fixtures.zero_returns 60.

Lemma zero_returns_all_zero (n k : nat) :
  Spec.all_zero (nth k (Fixtures.zero_returns n) []).
Proof.
  unfold Fixtures.zero_returns.
  destruct (nth_in_or_default k (repeat Fixtures.zero_row n) []) as [Hin | ->].
  - apply repeat_spec in Hin. rewrite Hin. intros a v [H | [H | []]]; congruence.
  - intros a v [].
Qed.

Lemma ruin_scenario_step (k : nat) (st : Locals) :
  (k < 50)%nat ->
  Fixtures.ruin_course k st ->
  exists st', month_body p rows k st = Ok (Next st') /\ Fixtures.ruin_course (S k) st'.
Proof.
  intros Hk [Hsum [Hne [Hw [Hfree [Hone Hsurv]]]]].
  assert (HINR : INR k <= 49).
  { rewrite INR_IZR_INZ. apply IZR_le. lia. }
  pose proof (apply_returns_zero (asset_values st) (nth k rows [])
                                 (zero_returns_all_zero 60 k)) as Hreturns.
  destruct (month_body_progress p rows k st
              (apply_returns (asset_values st) (nth k rows []))
              0 (sum (values (apply_returns (asset_values st) (nth k rows []))))
              (total_contributions st))
    as [st' [Hbody [Hw' [Hcost Hpv]]]].
  - reflexivity.
  - rewrite Hreturns, Hsum. unfold adjust_withdrawal, total_monthly_withdrawal.
    simpl. rewrite Hw. lra.
  - rewrite Hreturns, Hsum. lra.
  - exists st'. split; [exact Hbody |].
    assert (H0 : 0 <= withdrawal st) by lra.
    assert (Ht : 0 <= thirteenth_payment_amount p) by (simpl; lra).
    destruct (month_body_next _ _ _ _ _ Hbody Hne H0 Ht Hone)
      as [Hpv' [Hsame [Hne' [Hsurv' [_ [_ Htarget]]]]]].
    unfold Fixtures.ruin_course.
    rewrite Hsame, <- Hpv', (Hpv (or_introl Hfree)), Hreturns, Hsum.
    rewrite <- Hsame, Hw', Hcost, Htarget, Hsurv', S_INR.
    unfold adjust_withdrawal, total_monthly_withdrawal. simpl. rewrite Hw.
    repeat split; try assumption; lra.
Qed.

Lemma ruin_scenario_last (st : Locals) :
  Fixtures.ruin_course 50 st ->
  exists st',
    month_body p rows 50 st = Ok (Break st')
    /\ months_survived st' = 50%nat /\ portfolio_value st' = 0.
Proof.
  intros [Hsum [Hne [Hw [Hfree [Hone Hsurv]]]]].
  pose proof (apply_returns_zero (asset_values st) (nth 50 rows [])
                                 (zero_returns_all_zero 60 50)) as Hreturns.
  eexists. split.
  - apply month_body_ruin with (c := 0) (pv1 := sum (values (asset_values st))).
    + unfold apply_contribution. change (contribution_enabled p) with false.
      cbv iota. rewrite Hreturns. reflexivity.
    + rewrite Hsum. unfold adjust_withdrawal, total_monthly_withdrawal. simpl.
      rewrite Hw. lra.
  - split; reflexivity.
Qed.

Lemma ruin_scenario_loop (j : nat) :
  forall (k : nat) (st : Locals),
    (k + j = 50)%nat ->
    Fixtures.ruin_course k st ->
    exists st',
      months_loop p rows (seq k (60 - k)) st = Ok (Break st')
      /\ months_survived st' = 50%nat /\ portfolio_value st' = 0.
Proof.
  induction j as [| j IH]; intros k st Hk Hst.
  - assert (k = 50)%nat by lia. subst k.
    destruct (ruin_scenario_last st Hst) as [st' [Hbody Hpost]].
    exists st'. split; [| exact Hpost].
    change (seq 50 (60 - 50)) with (50%nat :: seq 51 9). simpl.
    rewrite Hbody. reflexivity.
  - destruct (ruin_scenario_step k st) as [st1 [Hbody Hst1]]; [lia | exact Hst |].
    destruct (IH (S k) st1) as [st' [Hloop Hpost]]; [lia | exact Hst1 |].
    exists st'. split; [| exact Hpost].
    replace (60 - k)%nat with (S (60 - S k)) by lia. simpl seq. simpl months_loop.
    rewrite Hbody. simpl. exact Hloop.
Qed.

Lemma ruin_scenario_start (last : option datetime) (kind : variant) :
  Fixtures.ruin_course
    0 (initial_locals p (mkRebalanceStrategy Fixtures.stocks_bonds 0 last kind) 60).
Proof.
  unfold Fixtures.ruin_course, initial_locals. simpl.
  repeat split; try reflexivity.
  - unfold sum. simpl. lra.
  - discriminate.
  - apply stocks_bonds_sum.
Qed.

Lemma ruin_scenario_run (last : option datetime) (kind : variant) :
  exists st,
    run_months p (mkRebalanceStrategy Fixtures.stocks_bonds 0 last kind) rows 60 = Ok st
    /\ months_survived st = 50%nat /\ portfolio_value st = 0.
Proof.
  destruct (ruin_scenario_loop 50 0 _ eq_refl (ruin_scenario_start last kind))
    as [st [Hloop Hpost]].
  exists st. split; [| exact Hpost].
  unfold run_months. change (List.length rows) with 60%nat.
  change (seq 0 60) with (seq 0 (60 - 0)). rewrite Hloop. reflexivity.
Qed.

End RuinScenario.

(** C8.  In the ruin scenario (100000 at 60/40, all log-returns 0, 2000 a
    month, no inflation adjustment, no contribution, a strategy of either kind
    that charges nothing, 60 months) [simulate_portfolio_path] returns
    months_survived = 50, survived_full_period = false and final_value = 0.
    In general, a month in which the portfolio value is below the month's
    withdrawal ends the loop there: months_survived is that month, every
    per-asset value is zero, and neither the strategy nor the rebalance costs
    nor the history are touched. *)
Theorem ruin_month_ends_trajectory :
  (forall (last : option datetime) (kind : variant) (asset_stats : asset_statistics),
      exists history metrics strategy,
        simulate_portfolio_path
          Fixtures.ruin_params asset_stats
          (mkRebalanceStrategy Fixtures.stocks_bonds 0 last kind)
          (Fixtures.zero_returns 60)
        = Ok (history, metrics, strategy)
        /\ Metrics.months_survived metrics = 50%nat
        /\ Metrics.survived_full_period metrics = false
        /\ Metrics.final_value metrics = 0)
  /\ (forall (p : Params) (rows : returns_frame) (month : nat) (rest : list nat)
             (st : Locals) (nv1 : dict) (c pv1 tc1 : R),
         let nv0 := apply_returns (asset_values st) (nth month rows []) in
         let w := adjust_withdrawal p month (withdrawal st) in
         apply_contribution p nv0 (sum (values nv0)) (total_contributions st)
         = Ok (c, nv1, pv1, tc1) ->
         pv1 < total_monthly_withdrawal p month w ->
         exists st',
           months_loop p rows (month :: rest) st = Ok (Break st')
           /\ months_survived st' = month
           /\ Spec.all_zero (new_asset_values st')
           /\ portfolio_value st' = 0
           /\ rebalance_strategy st' = rebalance_strategy st
           /\ total_rebalance_costs st' = total_rebalance_costs st
           /\ history st' = history st).
Proof.
  split.
  - intros last kind asset_stats.
    destruct (ruin_scenario_run last kind) as [st [Hrun [Hsurv Hpv]]].
    unfold simulate_portfolio_path.
    replace (List.length (Fixtures.zero_returns 60)) with 60%nat by reflexivity.
    rewrite Hrun. simpl. unfold final_metrics. simpl.
    rewrite (proj2 (gt_true 100000 0)) by lra. rewrite div_ok by lra. simpl.
    eexists. eexists. eexists. split; [reflexivity |]. simpl.
    rewrite Hsurv. repeat split. exact Hpv.
  - intros p rows month rest st nv1 c pv1 tc1 nv0 w Hc Hlt.
    pose proof (month_body_ruin p rows month st nv1 c pv1 tc1 Hc Hlt) as Hbody.
    destruct (month_body_break _ _ _ _ _ Hbody)
      as [Hm [Hzero [Hall [Hstrategy [Hcosts [_ Hhist]]]]]].
    eexists. split.
    + simpl. rewrite Hbody. reflexivity.
    + repeat split; assumption.
Qed.

(** ** The contribution step *)

Section ContributionFacts.

Variable p : Params.
Hypothesis Henabled : contribution_enabled p = true.

Lemma apply_contribution_nothing (nv : dict) (pv tc : R) :
  periodic_contribution p = 0 ->
  apply_contribution p nv pv tc = Ok (0, nv, pv, tc).
Proof.
  intros Hzero. unfold apply_contribution. rewrite Henabled, Hzero.
  rewrite (proj2 (ne_false 0 0)) by reflexivity. reflexivity.
Qed.

Lemma apply_contribution_keeps_values (nv : dict) (pv tc : R) :
  periodic_contribution p <> 0 ->
  pv + periodic_contribution p <= 0 ->
  apply_contribution p nv pv tc
  = Ok (periodic_contribution p, nv, pv + periodic_contribution p,
        tc + periodic_contribution p).
Proof.
  intros Hnz Hle. unfold apply_contribution. rewrite Henabled.
  rewrite (proj2 (ne_true _ _) Hnz), (proj2 (gt_false _ _) Hle). reflexivity.
Qed.

Lemma apply_contribution_redistributes (nv : dict) (pv tc : R) :
  periodic_contribution p <> 0 ->
  pv + periodic_contribution p > 0 ->
  pv <> 0 ->
  apply_contribution p nv pv tc
  = Ok (periodic_contribution p,
        map (fun '(asset, value) =>
               (asset, value / pv * (pv + periodic_contribution p))) nv,
        pv + periodic_contribution p, tc + periodic_contribution p).
Proof.
  intros Hnz Hgt Hpv. unfold apply_contribution. rewrite Henabled.
  rewrite (proj2 (ne_true _ _) Hnz), (proj2 (gt_true _ _) Hgt).
  rewrite (for_each_ok _ (fun '(asset, value) =>
             (asset, value / pv * (pv + periodic_contribution p)))).
  - reflexivity.
  - intros [a v] _. rewrite div_ok by lra. simpl.
    replace (pv + periodic_contribution p - periodic_contribution p) with pv by lra.
    reflexivity.
Qed.

Lemma apply_contribution_faults (nv : dict) (pv tc : R) :
  periodic_contribution p <> 0 ->
  pv + periodic_contribution p > 0 ->
  pv = 0 ->
  nv <> [] ->
  apply_contribution p nv pv tc = Raise DivisionByZero.
Proof.
  intros Hnz Hgt Hpv Hne. unfold apply_contribution. rewrite Henabled.
  rewrite (proj2 (ne_true _ _) Hnz), (proj2 (gt_true _ _) Hgt).
  destruct nv as [| [a v] nv]; [contradiction |].
  rewrite (for_each_raise _ DivisionByZero); [reflexivity |].
  replace (pv + periodic_contribution p - periodic_contribution p) with 0 by lra.
  rewrite div_zero. reflexivity.
Qed.

End ContributionFacts.

(** C5, as the code has it.  With contributions enabled: a zero amount
    changes nothing; a non-zero amount is added to the portfolio value and to
    the running total of contributions, and then, if the new total is
    positive and the total before the contribution is not zero, every asset's
    value becomes its share of the old total times the new total, while if
    the new total is zero or negative the per-asset values stay as they
    were. *)
Theorem contribution_step_by_design (p : Params) (nv : dict) (pv tc : R) :
  contribution_enabled p = true ->
  let amount := periodic_contribution p in
  (amount = 0 -> apply_contribution p nv pv tc = Ok (0, nv, pv, tc))
  /\ (amount <> 0 -> pv + amount > 0 -> pv <> 0 ->
      apply_contribution p nv pv tc
      = Ok (amount,
            map (fun '(asset, value) => (asset, value / pv * (pv + amount))) nv,
            pv + amount, tc + amount))
  /\ (amount <> 0 -> pv + amount <= 0 ->
      apply_contribution p nv pv tc = Ok (amount, nv, pv + amount, tc + amount)).
Proof.
  intros Henabled amount. subst amount. split; [| split].
  - apply apply_contribution_nothing. exact Henabled.
  - apply apply_contribution_redistributes. exact Henabled.
  - apply apply_contribution_keeps_values. exact Henabled.
Qed.

Lemma contribution_step_by_design_witness :
  contribution_enabled (Fixtures.contributing 500 0) = true
  /\ apply_contribution (Fixtures.contributing 500 0) Fixtures.split_values 1000 0
     = Ok (500,
           map (fun '(asset, value) => (asset, value / 1000 * (1000 + 500)))
               Fixtures.split_values,
           1000 + 500, 0 + 500).
Proof.
  split; [reflexivity |].
  apply (contribution_step_by_design (Fixtures.contributing 500 0)
                                     Fixtures.split_values 1000 0 eq_refl);
    simpl; lra.
Defined.

(** C5 as stated fails on the code.  A contribution of -1500 on a portfolio
    of 1000 leaves the per-asset values at 600 and 400, where a proportional
    redistribution of the new total of -500 would make them -300 and -200. *)
Lemma contribution_not_redistributed :
  ~ Spec.contribution_claim (Fixtures.contributing (-1500) 0)
                            Fixtures.split_values 1000 0.
Proof.
  unfold Spec.contribution_claim, Spec.contribution_step. cbv zeta.
  rewrite apply_contribution_keeps_values; try reflexivity; simpl; try lra.
  rewrite (proj2 (ne_true 1000 0)) by lra. simpl.
  intros H. injection H as H _. lra.
Qed.

(** ** Divisions by zero in the prorations *)

Lemma month_body_contribution_fault (p : Params) (rows : returns_frame) (month : nat)
      (st : Locals) (e : fault) :
  let nv0 := apply_returns (asset_values st) (nth month rows []) in
  apply_contribution p nv0 (sum (values nv0)) (total_contributions st) = Raise e ->
  month_body p rows month st = Raise e.
Proof. intros nv0 Hc. unfold month_body. fold nv0. rewrite Hc. reflexivity. Qed.

Lemma initial_values_sum (amount withdrawal : R) (strategy : RebalanceStrategy)
      (n k : nat) :
  let st := initial_locals (Fixtures.contributing amount withdrawal) strategy n in
  sum (values (apply_returns (asset_values st) (nth k (Fixtures.zero_returns n) [])))
  = 1000
  /\ apply_returns (asset_values st) (nth k (Fixtures.zero_returns n) []) <> [].
Proof.
  intros st. split.
  - rewrite apply_returns_zero by apply zero_returns_all_zero.
    unfold sum. simpl. lra.
  - apply apply_returns_nonempty. discriminate.
Qed.

(** A tax of the whole portfolio with nothing withdrawn: the withdrawal is
    prorated over a total of zero. *)
Lemma withdrawal_proration_fault (strategy : RebalanceStrategy)
      (asset_stats : asset_statistics) :
  simulate_portfolio_path (Fixtures.contributing (-1000) 0) asset_stats strategy
                          (Fixtures.zero_returns 1)
  = Raise DivisionByZero.
Proof.
  set (p := Fixtures.contributing (-1000) 0).
  set (rows := Fixtures.zero_returns 1).
  set (st := initial_locals p strategy 1).
  destruct (initial_values_sum (-1000) 0 strategy 1 0) as [Hsum Hne].
  fold p st rows in Hsum, Hne.
  assert (Hbody : month_body p rows 0 st = Raise DivisionByZero).
  { eapply month_body_withdrawal_fault.
    - apply apply_contribution_keeps_values; [reflexivity | simpl; lra |].
      rewrite Hsum. simpl. lra.
    - rewrite Hsum. unfold adjust_withdrawal, total_monthly_withdrawal. simpl. lra.
    - rewrite Hsum. simpl. lra.
    - exact Hne. }
  unfold simulate_portfolio_path, run_months. fold rows.
  change (List.length rows) with 1%nat. fold p st. simpl months_loop.
  rewrite Hbody. reflexivity.
Qed.

(** A contribution in the month after the withdrawal emptied the portfolio:
    the new total is spread over shares of a total of zero. *)
Lemma contribution_proration_fault (cost : R) (last : option datetime) (kind : variant)
      (asset_stats : asset_statistics) :
  simulate_portfolio_path (Fixtures.contributing 100 1100) asset_stats
                          (mkRebalanceStrategy Fixtures.stocks_bonds cost last kind)
                          (Fixtures.zero_returns 2)
  = Raise DivisionByZero.
Proof.
  set (p := Fixtures.contributing 100 1100).
  set (rows := Fixtures.zero_returns 2).
  set (strategy := mkRebalanceStrategy Fixtures.stocks_bonds cost last kind).
  set (st := initial_locals p strategy 2).
  destruct (initial_values_sum 100 1100 strategy 2 0) as [Hsum Hne].
  fold p st rows in Hsum, Hne.
  pose proof (apply_contribution_redistributes
                p eq_refl (apply_returns (asset_values st) (nth 0 rows []))
                (sum (values (apply_returns (asset_values st) (nth 0 rows []))))
                (total_contributions st)) as Hc.
  rewrite Hsum in Hc.
  assert (Hamount : periodic_contribution p = 100) by reflexivity.
  rewrite Hamount in Hc.
  specialize (Hc ltac:(lra) ltac:(lra) ltac:(lra)).
  rewrite <- Hsum in Hc at 1.
  destruct (month_body_progress p rows 0 st _ _ _ _ Hc)
    as [st1 [Hbody [_ [_ Hpv]]]].
  { unfold adjust_withdrawal, total_monthly_withdrawal. simpl. lra. }
  { lra. }
  destruct (month_body_next p rows 0 st st1 Hbody)
    as [Hpv1 [Hsame [Hne1 _]]].
  { discriminate. }
  { simpl. lra. }
  { simpl. lra. }
  { apply stocks_bonds_sum. }
  assert (Hzero : portfolio_value st1 = 0).
  { assert (Hmw : total_monthly_withdrawal
                     p 0 (adjust_withdrawal p 0 (withdrawal st)) = 1100).
    { unfold adjust_withdrawal, total_monthly_withdrawal. simpl. lra. }
    rewrite Hpv; rewrite Hmw; [lra | right; lra]. }
  assert (Hbody1 : month_body p rows 1 st1 = Raise DivisionByZero).
  { apply month_body_contribution_fault.
    apply apply_contribution_faults; [reflexivity | simpl; lra | | |].
    - rewrite apply_returns_zero by apply zero_returns_all_zero.
      rewrite Hsame, <- Hpv1, Hzero. simpl. lra.
    - rewrite apply_returns_zero by apply zero_returns_all_zero.
      rewrite Hsame, <- Hpv1. exact Hzero.
    - apply apply_returns_nonempty. exact Hne1. }
  unfold simulate_portfolio_path, run_months. fold rows.
  change (List.length rows) with 2%nat. fold p strategy st. simpl months_loop.
  rewrite Hbody. simpl. rewrite Hbody1. reflexivity.
Qed.

(** C6, evaluated on the code.  Two trajectories on which a proration divides
    by zero: the withdrawal's, when a negative contribution of the whole
    portfolio meets a withdrawal of 0; and the contribution's, in the month
    after a withdrawal of exactly the portfolio value. *)
Theorem proration_divides_by_zero :
  (forall (strategy : RebalanceStrategy) (asset_stats : asset_statistics),
      simulate_portfolio_path (Fixtures.contributing (-1000) 0) asset_stats strategy
                              (Fixtures.zero_returns 1)
      = Raise DivisionByZero)
  /\ (forall (cost : R) (last : option datetime) (kind : variant)
             (asset_stats : asset_statistics),
         simulate_portfolio_path
           (Fixtures.contributing 100 1100) asset_stats
           (mkRebalanceStrategy Fixtures.stocks_bonds cost last kind)
           (Fixtures.zero_returns 2)
         = Raise DivisionByZero).
Proof.
  split.
  - exact withdrawal_proration_fault.
  - exact contribution_proration_fault.
Qed.

Lemma month_boundary_invariant_witness :
  exists st,
    run_months Fixtures.ruin_params
               (mkRebalanceStrategy Fixtures.stocks_bonds 0 None (TimeBased "annual"))
               (Fixtures.zero_returns 60) 60 = Ok st
    /\ portfolio_value st = sum (values (new_asset_values st))
    /\ Spec.all_zero (new_asset_values st).
Proof.
  destruct (ruin_scenario_run None (TimeBased "annual")) as [st [Hrun [Hsurv Hpv]]].
  exists st. split; [exact Hrun |].
  destruct (month_boundary_invariant
              Fixtures.ruin_params
              (mkRebalanceStrategy Fixtures.stocks_bonds 0 None (TimeBased "annual"))
              (Fixtures.zero_returns 60) 60 st)
    as [Hsum Hruin].
  - exact stocks_bonds_sum.
  - exact stocks_bonds_sum.
  - simpl. lra.
  - simpl. lra.
  - simpl. lia.
  - exact Hrun.
  - split; [exact Hsum |]. apply Hruin. rewrite Hsurv. simpl. lia.
Defined.

(** ** A trajectory on which a proration yields [nan] *)

Section NanTrajectory.

Let p := Fixtures.contributing (-1000) 0.
Let strategy := ThresholdBasedRebalance Fixtures.stocks_bonds 0.7 0.002.
Let rows := Fixtures.zero_returns 1.

Let held : Number.dict :=
  [("stocks"%string, Number.Float64 (NumPy.Finite 600));
   ("bonds"%string, Number.Float64 (NumPy.Finite 400))].

Let lost : Number.dict :=
  [("stocks"%string, Number.Float64 NumPy.NaN);
   ("bonds"%string, Number.Float64 NumPy.NaN)].

Let nan_row : Numeric.row :=
  Numeric.mkRow 1 (Number.Float64 (NumPy.Finite 0)) 0 0 (-1000) 0 (-1000)
                (Number.PyFloat 0)
                [("stocks_value"%string, Number.Float64 NumPy.NaN);
                 ("bonds_value"%string, Number.Float64 NumPy.NaN)].

Lemma nan_month_returns :
  Numeric.apply_returns (Numeric.asset_values (Numeric.initial_locals p strategy 1))
                        (nth 0 rows [])
  = held.
Proof.
  unfold held. cbn. rewrite exp_0. repeat f_equal; lra.
Qed.

Lemma nan_month_total : Number.sum (Number.values held) = Number.Float64 (NumPy.Finite 1000).
Proof. unfold held. cbn. repeat f_equal. lra. Qed.

Lemma nan_month_contribution :
  Numeric.apply_contribution p held (Number.Float64 (NumPy.Finite 1000)) 0
  = Ok (-1000, held, Number.Float64 (NumPy.Finite 0), -1000).
Proof.
  unfold Numeric.apply_contribution.
  change (contribution_enabled p) with true.
  change (periodic_contribution p) with (-1000). cbv beta iota zeta.
  rewrite (proj2 (ne_true (-1000) 0)) by lra.
  unfold Number.gt, Number.add. cbn [Number.float64 NumPy.add NumPy.greater].
  rewrite (proj2 (gt_false (1000 + -1000) 0)) by lra.
  repeat f_equal; lra.
Qed.

Lemma nan_month_withdrawal :
  total_monthly_withdrawal p 0 (adjust_withdrawal p 0 (withdrawal_amount p)) = 0.
Proof. reflexivity. Qed.

Lemma nan_month_proration :
  Numeric.reduce_proportionally held (Number.Float64 (NumPy.Finite 0)) 0 = Ok lost.
Proof.
  unfold Numeric.reduce_proportionally, held, lost.
  cbn [for_each bind Number.div Number.add Number.sub Number.mul Number.float64
       NumPy.add NumPy.subtract NumPy.negative NumPy.multiply NumPy.divide].
  rewrite (proj2 (ne_false (0 + 0) 0)) by lra.
  rewrite (proj2 (ne_false 0 0)) by reflexivity.
  reflexivity.
Qed.

Lemma nan_month_weights :
  Numeric.current_weights lost (Number.Float64 (NumPy.Finite 0))
  = Ok [("stocks"%string, Number.PyFloat 0); ("bonds"%string, Number.PyFloat 0)].
Proof.
  unfold Numeric.current_weights, lost, Number.gt.
  cbn [for_each bind Number.float64 NumPy.greater].
  rewrite (proj2 (gt_false 0 0)) by lra. reflexivity.
Qed.

Lemma nan_month_check :
  Numeric.should_rebalance
    strategy [("stocks"%string, Number.PyFloat 0); ("bonds"%string, Number.PyFloat 0)]
    datetime_2025_1_1 (Number.Float64 (NumPy.Finite 0))
  = (false, strategy).
Proof.
  unfold Numeric.should_rebalance, strategy, ThresholdBasedRebalance,
    Fixtures.stocks_bonds.
  cbn [kind target_allocation Numeric.threshold_loop Number.get String.eqb Ascii.eqb
       Bool.eqb Number.sub Number.abs].
  unfold Number.gt. cbn [Number.float64 NumPy.greater].
  settle_abs. settle_cmp. reflexivity.
Qed.

Lemma nan_month :
  Numeric.month_body p rows 0 (Numeric.initial_locals p strategy 1)
  = Ok (Numeric.Next
          (Numeric.mkLocals lost lost (Number.Float64 (NumPy.Finite 0)) 0 0 (-1000)
                            (Number.PyFloat 0) 1
                            (datetime_2025_1_1 + timedelta_days 30)%Z [nan_row]
                            strategy)).
Proof.
  unfold Numeric.month_body.
  rewrite nan_month_returns, nan_month_total.
  change (Numeric.contributions (Numeric.initial_locals p strategy 1)) with 0.
  rewrite nan_month_contribution. cbn [bind].
  change (Numeric.current_withdrawal (Numeric.initial_locals p strategy 1))
    with (withdrawal_amount p).
  rewrite nan_month_withdrawal.
  unfold Number.ge, Number.sub at 1 2 3.
  cbn [Number.float64 NumPy.greater_equal NumPy.subtract NumPy.negative NumPy.add].
  rewrite (proj2 (ge_true 0 0)) by lra.
  replace (0 + - 0) with 0 by lra.
  rewrite nan_month_proration. cbn [bind].
  rewrite nan_month_weights. cbn [bind].
  change (Numeric.rebalance_strategy (Numeric.initial_locals p strategy 1))
    with strategy.
  change (Numeric.current_date (Numeric.initial_locals p strategy 1))
    with datetime_2025_1_1.
  rewrite nan_month_check. cbn [bind].
  unfold nan_row, lost. cbn. repeat f_equal; lra.
Qed.

Lemma nan_path :
  exists metrics,
    Numeric.simulate_portfolio_path p Fixtures.flat_stats strategy rows
    = Ok ([nan_row], metrics, strategy)
    /\ Numeric.months_survived metrics = 1%nat
    /\ Numeric.survived_full_period metrics = true
    /\ Numeric.final_value metrics = Number.Float64 (NumPy.Finite 0).
Proof.
  unfold Numeric.simulate_portfolio_path.
  change (List.length rows) with 1%nat. cbn [seq Numeric.months_loop].
  rewrite nan_month. cbn [bind Numeric.locals_of].
  unfold Numeric.final_metrics.
  change (initial_capital p) with 1000.
  rewrite (proj2 (gt_true 1000 0)) by lra.
  cbn [Numeric.value Number.sub Number.div Number.float64 NumPy.subtract
       NumPy.negative NumPy.add NumPy.divide].
  rewrite (proj2 (ne_true 1000 0)) by lra.
  cbn [bind]. eexists. split; [reflexivity |].
  cbn. repeat split.
Qed.

End NanTrajectory.

(** C4, evaluated on the code.  1000 at 60/40, a monthly contribution of -1000
    and nothing withdrawn, one month of zero log-returns, a threshold strategy
    that does not trigger: the contribution leaves a portfolio value of 0,
    which passes the ruin check, and the proration of the withdrawal divides
    0 by 0.  The values of the month are NumPy numbers, so the division yields
    [nan] and the month runs to its end: its row records a portfolio value of
    0 beside per-asset values that are [nan], whose sum is [nan], and the
    trajectory is reported as having survived.  On Python floats the same
    division raises. *)
Theorem month_boundary_invariant_lost_to_nan :
  (exists row metrics,
      Numeric.simulate_portfolio_path
        (Fixtures.contributing (-1000) 0) Fixtures.flat_stats
        (ThresholdBasedRebalance Fixtures.stocks_bonds 0.7 0.002)
        (Fixtures.zero_returns 1)
      = Ok ([row], metrics, ThresholdBasedRebalance Fixtures.stocks_bonds 0.7 0.002)
      /\ Numeric.month row = 1%nat
      /\ Numeric.portfolio_value row = Number.Float64 (NumPy.Finite 0)
      /\ Numeric.asset_columns row
         = [("stocks_value"%string, Number.Float64 NumPy.NaN);
            ("bonds_value"%string, Number.Float64 NumPy.NaN)]
      /\ Number.sum (Number.values (Numeric.asset_columns row))
         = Number.Float64 NumPy.NaN
      /\ Number.sum (Number.values (Numeric.asset_columns row))
         <> Numeric.portfolio_value row
      /\ Numeric.months_survived metrics = 1%nat
      /\ Numeric.survived_full_period metrics = true
      /\ Numeric.final_value metrics = Number.Float64 (NumPy.Finite 0))
  /\ simulate_portfolio_path
       (Fixtures.contributing (-1000) 0) Fixtures.flat_stats
       (ThresholdBasedRebalance Fixtures.stocks_bonds 0.7 0.002)
       (Fixtures.zero_returns 1)
     = Raise DivisionByZero.
Proof.
  split.
  - destruct nan_path as [metrics [Hpath [Hmonths [Hfull Hfinal]]]].
    eexists. exists metrics. split; [exact Hpath |].
    cbn. repeat split; try assumption. discriminate.
  - apply withdrawal_proration_fault.
Qed.

(** ** Where the two embeddings meet *)

Section ModelsAgree.

Import Agreement.

Lemma number_exact (x : R) (a : Number.t) :
  number x a -> a = Number.PyFloat x \/ a = Number.Float64 (NumPy.Finite x).
Proof.
  unfold number. destruct a as [y | v]; simpl; intros H.
  - left. injection H as ->. reflexivity.
  - right. rewrite H. reflexivity.
Qed.

Ltac exact_numbers :=
  repeat match goal with
         | H : number _ _ |- _ =>
             apply number_exact in H; destruct H as [-> | ->]
         end.

Lemma number_py (x : R) : number x (Number.PyFloat x).
Proof. reflexivity. Qed.

Lemma number_add (x y : R) (a b : Number.t) :
  number x a -> number y b -> number (x + y) (Number.add a b).
Proof. intros Ha Hb. exact_numbers; reflexivity. Qed.

Lemma number_sub (x y : R) (a b : Number.t) :
  number x a -> number y b -> number (x - y) (Number.sub a b).
Proof. intros Ha Hb. exact_numbers; reflexivity. Qed.

Lemma number_mul (x y : R) (a b : Number.t) :
  number x a -> number y b -> number (x * y) (Number.mul a b).
Proof. intros Ha Hb. exact_numbers; reflexivity. Qed.

Lemma number_abs (x : R) (a : Number.t) :
  number x a -> number (Rabs x) (Number.abs a).
Proof. intros Ha. exact_numbers; reflexivity. Qed.

Lemma number_gt (x y : R) (a b : Number.t) :
  number x a -> number y b -> Number.gt a b = Py.gt x y.
Proof. intros Ha Hb. exact_numbers; reflexivity. Qed.

Lemma number_ge (x y : R) (a b : Number.t) :
  number x a -> number y b -> Number.ge a b = Py.ge x y.
Proof. intros Ha Hb. exact_numbers; reflexivity. Qed.

Lemma number_div (x y q : R) (a b : Number.t) :
  number x a -> number y b -> Py.div x y = Ok q ->
  exists c, Number.div a b = Ok c /\ number q c.
Proof.
  intros Ha Hb Hq. unfold Py.div in Hq.
  destruct (Req_dec_T y 0) as [Hzero | Hnz]; [discriminate |]. injection Hq as <-.
  exact_numbers; simpl.
  - rewrite div_ok by exact Hnz. simpl. eexists. split; reflexivity.
  - rewrite (proj2 (ne_true y 0)) by exact Hnz. eexists. split; reflexivity.
  - rewrite (proj2 (ne_true y 0)) by exact Hnz. eexists. split; reflexivity.
  - rewrite (proj2 (ne_true y 0)) by exact Hnz. eexists. split; reflexivity.
Qed.

Lemma dicts_get (d : Py.dict) (nd : Number.dict) (key : string) (x : R) (a : Number.t) :
  dicts d nd -> number x a -> number (Py.get d key x) (Number.get nd key a).
Proof.
  intros Hd Ha. induction Hd as [| [k v] [nk nv] d nd [Hk Hv] _ IH]; [exact Ha |].
  simpl in Hk, Hv. subst nk. simpl. destruct (String.eqb key k); assumption.
Qed.

Lemma dicts_keys (d : Py.dict) (nd : Number.dict) :
  dicts d nd -> map fst nd = map fst d.
Proof.
  induction 1 as [| [k v] [nk nv] d nd [Hk _] _ IH]; [reflexivity |].
  simpl in *. congruence.
Qed.

Lemma dicts_sum (d : Py.dict) (nd : Number.dict) :
  dicts d nd -> number (Py.sum (Py.values d)) (Number.sum (Number.values nd)).
Proof.
  unfold Py.sum, Number.sum, Py.values, Number.values.
  assert (H : forall x a, number x a -> dicts d nd ->
                number (fold_left Rplus (map snd d) x)
                       (fold_left Number.add (map snd nd) a)).
  { intros x a Ha Hd. revert x a Ha.
    induction Hd as [| [k v] [nk nv] d nd [_ Hv] _ IH]; intros x a Ha; [exact Ha |].
    simpl in *. apply IH. apply number_add; assumption. }
  intros Hd. apply H; [reflexivity | exact Hd].
Qed.

Lemma dicts_nil_iff (d : Py.dict) (nd : Number.dict) :
  dicts d nd -> (d = [] <-> nd = []).
Proof. intros H. destruct H; split; intros; congruence. Qed.

(** Loops and comprehensions that agree entry by entry. *)
Lemma for_each_agree {A B NA NB : Type} (f : A -> outcome B) (nf : NA -> outcome NB)
      (RA : A -> NA -> Prop) (RB : B -> NB -> Prop) :
  (forall a na b, RA a na -> f a = Ok b -> exists nb, nf na = Ok nb /\ RB b nb) ->
  forall xs nxs ys,
    Forall2 RA xs nxs -> for_each f xs = Ok ys ->
    exists nys, for_each nf nxs = Ok nys /\ Forall2 RB ys nys.
Proof.
  intros Hf xs nxs ys Hxs. revert ys.
  induction Hxs as [| a na xs nxs Ha _ IH]; intros ys H.
  - simpl in H. injection H as <-. exists []. split; [reflexivity | constructor].
  - simpl in H. destruct (f a) as [b |] eqn:Hb; simpl in H; [| discriminate].
    destruct (for_each f xs) as [bs |] eqn:Hbs; simpl in H; [| discriminate].
    injection H as <-.
    destruct (Hf a na b Ha Hb) as [nb [Hnb Hrel]].
    destruct (IH bs eq_refl) as [nbs [Hnbs Hrels]].
    exists (nb :: nbs). simpl. rewrite Hnb. simpl. rewrite Hnbs. simpl.
    split; [reflexivity | constructor; assumption].
Qed.

Lemma map_agree {A B NA NB : Type} (f : A -> B) (nf : NA -> NB)
      (RA : A -> NA -> Prop) (RB : B -> NB -> Prop) :
  (forall a na, RA a na -> RB (f a) (nf na)) ->
  forall xs nxs, Forall2 RA xs nxs -> Forall2 RB (map f xs) (map nf nxs).
Proof.
  intros Hf xs nxs H. induction H; simpl; constructor; auto.
Qed.

Lemma apply_returns_agree (av : Py.dict) (nav : Number.dict) (month_returns : Py.dict) :
  dicts av nav ->
  dicts (apply_returns av month_returns) (Numeric.apply_returns nav month_returns).
Proof.
  intros H. unfold apply_returns, Numeric.apply_returns.
  apply (map_agree _ _ _ _) with (2 := H).
  intros [a v] [na nv] [Ha Hv]. simpl in Ha, Hv. subst na.
  destruct (contains month_returns a); split; simpl; try reflexivity; try assumption.
  apply number_mul; [exact Hv | reflexivity].
Qed.

Lemma weights_agree (nv : Py.dict) (nnv : Number.dict) (pv : R) (npv : Number.t)
      (alloc : Py.dict) :
  dicts nv nnv -> number pv npv ->
  for_each (fun '(asset, value) =>
              weight <- (if Py.gt pv 0 then Py.div value pv else Ok 0) ;;
              Ok (asset, weight))
           nv
  = Ok alloc ->
  exists nalloc,
    for_each (fun '(asset, value) =>
                weight <- (if Number.gt npv (Number.PyFloat 0)
                           then Number.div value npv
                           else Ok (Number.PyFloat 0)) ;;
                Ok (asset, weight))
             nnv
    = Ok nalloc
    /\ dicts alloc nalloc.
Proof.
  intros Hnv Hpv H.
  apply (for_each_agree _ _ _ _) with (2 := Hnv) (3 := H).
  intros [a v] [na nva] [b w] [Ha Hv] Hb. simpl in Ha, Hv. subst na.
  rewrite (number_gt pv 0 npv (Number.PyFloat 0) Hpv (number_py 0)).
  destruct (Py.gt pv 0).
  - destruct (Py.div v pv) as [q |] eqn:Hq; simpl in Hb; [| discriminate].
    injection Hb as <- <-.
    destruct (number_div v pv q nva npv Hv Hpv Hq) as [c [Hc Hqc]].
    rewrite Hc. cbn [bind]. eexists. split; [reflexivity |]. split; [reflexivity | exact Hqc].
  - simpl in Hb. injection Hb as <- <-. simpl.
    eexists. split; [reflexivity |]. split; reflexivity.
Qed.

Lemma apply_contribution_agree (p : Params) (nv nv1 : Py.dict) (nnv : Number.dict)
      (pv pv1 tc c tc1 : R) (npv : Number.t) :
  dicts nv nnv -> number pv npv ->
  apply_contribution p nv pv tc = Ok (c, nv1, pv1, tc1) ->
  exists nnv1 npv1,
    Numeric.apply_contribution p nnv npv tc = Ok (c, nnv1, npv1, tc1)
    /\ dicts nv1 nnv1 /\ number pv1 npv1.
Proof.
  intros Hnv Hpv H. unfold apply_contribution in H. unfold Numeric.apply_contribution.
  destruct (contribution_enabled p).
  - destruct (ne (periodic_contribution p) 0).
    + assert (Hnew : number (pv + periodic_contribution p)
                            (Number.add npv (Number.PyFloat (periodic_contribution p))))
        by (apply number_add; [exact Hpv | reflexivity]).
      rewrite (number_gt _ 0 _ (Number.PyFloat 0) Hnew (number_py 0)).
      destruct (Py.gt (pv + periodic_contribution p) 0).
      * destruct (for_each _ nv) as [nv' |] eqn:Hloop; simpl in H; [| discriminate].
        injection H as <- <- <- <-.
        assert (Hloop' : exists nnv',
                   for_each
                     (fun '(asset, value) =>
                        share <-
                          Number.div value
                            (Number.sub
                               (Number.add npv
                                           (Number.PyFloat (periodic_contribution p)))
                               (Number.PyFloat (periodic_contribution p))) ;;
                        Ok (asset,
                            Number.mul share
                              (Number.add npv
                                          (Number.PyFloat (periodic_contribution p)))))
                     nnv
                   = Ok nnv'
                   /\ dicts nv' nnv').
        { apply (for_each_agree _ _ _ _) with (2 := Hnv) (3 := Hloop).
          intros [a v] [na nva] [b w] [Ha Hv] Hb. simpl in Ha, Hv. subst na.
          destruct (Py.div v _) as [q |] eqn:Hq; simpl in Hb; [| discriminate].
          injection Hb as <- <-.
          destruct (number_div _ _ q nva _ Hv
                               (number_sub _ _ _ _ Hnew (number_py _)) Hq)
            as [share [Hshare Hq']].
          rewrite Hshare. cbn [bind]. eexists. split; [reflexivity |].
          split; [reflexivity |]. cbn [snd]. apply number_mul; assumption. }
        destruct Hloop' as [nnv' [Hloop' Hrel]].
        rewrite Hloop'. simpl. eexists. eexists. split; [reflexivity |].
        split; assumption.
      * injection H as <- <- <- <-. eexists. eexists. split; [reflexivity |].
        split; assumption.
    + injection H as <- <- <- <-. eexists. eexists. split; [reflexivity |].
      split; assumption.
  - injection H as <- <- <- <-. eexists. eexists. split; [reflexivity |].
    split; assumption.
Qed.

Lemma reduce_proportionally_agree (nv nv' : Py.dict) (nnv : Number.dict)
      (pv mw : R) (npv : Number.t) :
  dicts nv nnv -> number pv npv ->
  reduce_proportionally nv pv mw = Ok nv' ->
  exists nnv', Numeric.reduce_proportionally nnv npv mw = Ok nnv' /\ dicts nv' nnv'.
Proof.
  intros Hnv Hpv H. unfold reduce_proportionally in H.
  unfold Numeric.reduce_proportionally.
  apply (for_each_agree _ _ _ _) with (2 := Hnv) (3 := H).
  intros [a v] [na nva] [b w] [Ha Hv] Hb. simpl in Ha, Hv. subst na.
  destruct (Py.div mw (pv + mw)) as [q |] eqn:Hq; simpl in Hb; [| discriminate].
  injection Hb as <- <-.
  destruct (number_div mw (pv + mw) q (Number.PyFloat mw)
                       (Number.add npv (Number.PyFloat mw)) (number_py mw)
                       (number_add _ _ _ _ Hpv (number_py mw)) Hq)
    as [fraction [Hfraction Hq']].
  rewrite Hfraction. cbn [bind]. eexists. split; [reflexivity |].
  split; [reflexivity |]. cbn [snd].
  apply number_mul; [exact Hv |]. apply number_sub; [reflexivity | exact Hq'].
Qed.

Lemma threshold_loop_agree (items alloc : Py.dict) (nalloc : Number.dict)
      (threshold : R) :
  dicts alloc nalloc ->
  Numeric.threshold_loop items nalloc threshold = threshold_loop items alloc threshold.
Proof.
  intros Halloc. induction items as [| [a w] items IH]; [reflexivity |].
  cbn [Numeric.threshold_loop threshold_loop].
  rewrite (number_gt (Rabs (Py.get alloc a 0 - w)) threshold _ (Number.PyFloat threshold)).
  - rewrite IH. reflexivity.
  - apply number_abs. apply number_sub; [| reflexivity].
    apply dicts_get; [exact Halloc | reflexivity].
  - reflexivity.
Qed.

Lemma should_rebalance_agree (self : RebalanceStrategy) (alloc : Py.dict)
      (nalloc : Number.dict) (date : datetime) (pv : R) (npv : Number.t) :
  dicts alloc nalloc ->
  Numeric.should_rebalance self nalloc date npv = should_rebalance self alloc date pv.
Proof.
  intros Halloc. unfold Numeric.should_rebalance, should_rebalance,
                   TimeBased_should_rebalance, ThresholdBased_should_rebalance.
  destruct (kind self); [reflexivity |].
  rewrite (threshold_loop_agree _ alloc nalloc _ Halloc). reflexivity.
Qed.

Lemma calculate_rebalance_cost_agree (self : RebalanceStrategy) (target alloc : Py.dict)
      (nalloc : Number.dict) (pv : R) (npv : Number.t) :
  dicts alloc nalloc -> number pv npv ->
  exists cost,
    Numeric.calculate_rebalance_cost self target nalloc npv = Ok cost
    /\ number (calculate_rebalance_cost self target alloc pv) cost.
Proof.
  intros Halloc Hpv. unfold Numeric.calculate_rebalance_cost, calculate_rebalance_cost.
  match goal with
  | |- context [fold_left ?NF target (Number.PyFloat 0)] => set (nstep := NF)
  end.
  match goal with
  | |- context [fold_left ?F target 0] => set (step := F)
  end.
  assert (Hfold : forall x a, number x a ->
                    number (fold_left step target x) (fold_left nstep target a)).
  { induction target as [| [asset w] target IH]; intros x a Ha; [exact Ha |].
    cbn [fold_left]. apply IH. unfold step, nstep. cbv beta iota.
    apply number_add; [exact Ha |].
    apply number_abs. apply number_sub; [reflexivity |].
    apply dicts_get; [exact Halloc | reflexivity]. }
  specialize (Hfold 0 (Number.PyFloat 0) (number_py 0)).
  destruct (number_div _ 2 (fold_left step target 0 / 2) _ (Number.PyFloat 2) Hfold
                       (number_py 2))
    as [half [Hhalf Hq]].
  { apply div_ok. lra. }
  rewrite Hhalf. cbn [bind]. eexists. split; [reflexivity |].
  apply number_mul; [| reflexivity]. apply number_mul; assumption.
Qed.

Lemma scaled_targets_agree (target : Py.dict) (x : R) (a : Number.t) :
  number x a ->
  dicts (map (fun '(asset, weight) => (asset, x * weight)) target)
        (map (fun '(asset, weight) => (asset, Number.mul a (Number.PyFloat weight)))
             target).
Proof.
  intros Ha. unfold dicts. induction target as [| [asset w] target IH];
    cbn [map]; constructor; [| exact IH].
  split; [reflexivity |]. cbn [snd]. apply number_mul; [exact Ha | reflexivity].
Qed.

Lemma rebalance_agree (self : RebalanceStrategy) (cv nv : Py.dict) (ncv : Number.dict)
      (pv cost : R) (npv : Number.t) :
  dicts cv ncv -> number pv npv ->
  rebalance self cv pv = Ok (nv, cost) ->
  exists nnv ncost,
    Numeric.rebalance self ncv npv = Ok (nnv, ncost)
    /\ dicts nv nnv /\ number cost ncost.
Proof.
  intros Hcv Hpv H. unfold rebalance in H. unfold Numeric.rebalance.
  destruct (for_each _ cv) as [alloc |] eqn:Halloc; simpl in H; [| discriminate].
  injection H as <- <-.
  destruct (weights_agree cv ncv pv npv alloc Hcv Hpv Halloc) as [nalloc [Hn Hrel]].
  rewrite Hn. simpl.
  destruct (calculate_rebalance_cost_agree self (target_allocation self) alloc nalloc
                                           pv npv Hrel Hpv)
    as [ncost [Hcost Hnumber]].
  rewrite Hcost. cbn [bind]. eexists. eexists. split; [reflexivity |].
  split; [| exact Hnumber].
  apply scaled_targets_agree. apply number_sub; assumption.
Qed.

Lemma asset_columns_agree (nv : Py.dict) (nnv : Number.dict) (assets : list string) :
  dicts nv nnv ->
  dicts (map (fun asset => ((asset ++ "_value")%string, Py.get nv asset 0)) assets)
        (map (fun asset =>
                ((asset ++ "_value")%string,
                 Number.get nnv asset (Number.PyFloat 0)))
             assets).
Proof.
  intros Hnv. unfold dicts. induction assets as [| asset assets IH];
    cbn [map]; constructor; [| exact IH].
  split; [reflexivity |]. cbn [snd]. apply dicts_get; [exact Hnv | reflexivity].
Qed.

Lemma zeroed_agree (nv : Py.dict) (nnv : Number.dict) :
  dicts nv nnv ->
  dicts (map (fun '(asset, _) => (asset, 0)) nv)
        (map (fun '(asset, _) => (asset, Number.PyFloat 0)) nnv).
Proof.
  intros H. apply (map_agree _ _ _ _) with (2 := H).
  intros [a v] [na nva] [Ha _]. simpl in Ha. subst na. split; reflexivity.
Qed.

(** A month that returns in the model on real numbers returns the same
    numbers on the numbers the simulator holds. *)
Lemma month_body_agree (p : Params) (rows : returns_frame) (month : nat)
      (st : Locals) (nst : Numeric.locals) (r : loop_exit) :
  locals st nst ->
  month_body p rows month st = Ok r ->
  exists nr, Numeric.month_body p rows month nst = Ok nr /\ exits r nr.
Proof.
  intros [Hav [Hnav [Hpv [Hw [Htw [Htc [Hcosts [Hsurv [Hdate [Hhist Hstrategy]]]]]]]]]] H.
  unfold Numeric.month_body. rewrite <- Hw, <- Htc, <- Htw, <- Hdate, <- Hstrategy.
  pose proof (apply_returns_agree _ _ (nth month rows []) Hav) as Hreturns.
  pose proof (dicts_sum _ _ Hreturns) as Hsum.
  open_month_body H;
    destruct (apply_contribution_agree p _ _ _ _ _ _ _ _ _ Hreturns Hsum Hcontribution)
      as [nnv1 [npv1 [Hc' [Hd1 Hn1]]]];
    rewrite Hc'; cbn [bind];
    rewrite (number_ge _ _ _ _ Hn1 (number_py _)), Hge.
  - destruct (reduce_proportionally_agree
                _ _ _ _ _ _ Hd1 (number_sub _ _ _ _ Hn1 (number_py _)) Hreduce)
      as [nnv2 [Hreduce' Hd2]].
    rewrite Hreduce'. cbn [bind].
    unfold current_weights in Hweights. unfold Numeric.current_weights.
    destruct (weights_agree _ _ _ _ _ Hd2 (number_sub _ _ _ _ Hn1 (number_py _))
                            Hweights)
      as [nalloc [Hweights' Hrel]].
    rewrite Hweights'. cbn [bind].
    match type of Hcheck with
    | should_rebalance _ _ _ ?v = _ =>
        rewrite (should_rebalance_agree _ _ _ _ v _ Hrel), Hcheck
    end.
    destruct (rebalance_agree _ _ _ _ _ _ _ Hd2
                              (number_sub _ _ _ _ Hn1 (number_py _)) Hrebalance)
      as [nnv3 [ncost [Hrebalance' [Hd3 Hncost]]]].
    rewrite Hrebalance'. cbn [bind].
    eexists. split; [reflexivity |].
    unfold exits, locals. cbn.
    repeat split; try assumption; try reflexivity.
    + apply number_sub; [| exact Hncost]. apply number_sub; [exact Hn1 | reflexivity].
    + apply number_add; assumption.
    + apply Forall2_app; [exact Hhist |]. constructor; [| constructor].
      unfold Agreement.rows. cbn. repeat split; try reflexivity.
      * apply number_sub; [| exact Hncost]. apply number_sub; [exact Hn1 | reflexivity].
      * apply number_add; assumption.
      * apply asset_columns_agree. exact Hd3.
  - destruct (reduce_proportionally_agree
                _ _ _ _ _ _ Hd1 (number_sub _ _ _ _ Hn1 (number_py _)) Hreduce)
      as [nnv2 [Hreduce' Hd2]].
    rewrite Hreduce'. cbn [bind].
    unfold current_weights in Hweights. unfold Numeric.current_weights.
    destruct (weights_agree _ _ _ _ _ Hd2 (number_sub _ _ _ _ Hn1 (number_py _))
                            Hweights)
      as [nalloc [Hweights' Hrel]].
    rewrite Hweights'. cbn [bind].
    match type of Hcheck with
    | should_rebalance _ _ _ ?v = _ =>
        rewrite (should_rebalance_agree _ _ _ _ v _ Hrel), Hcheck
    end.
    cbn [bind].
    eexists. split; [reflexivity |].
    unfold exits, locals. cbn.
    repeat split; try assumption; try reflexivity.
    + apply number_sub; [exact Hn1 | reflexivity].
    + apply Forall2_app; [exact Hhist |]. constructor; [| constructor].
      unfold Agreement.rows. cbn. repeat split; try reflexivity; try assumption.
      * apply number_sub; [exact Hn1 | reflexivity].
      * apply asset_columns_agree. exact Hd2.
  - eexists. split; [reflexivity |].
    unfold exits, locals. cbn.
    repeat split; try assumption; try reflexivity.
    apply zeroed_agree. exact Hd1.
Qed.

Lemma months_loop_agree (p : Params) (rows : returns_frame) (months : list nat) :
  forall (st : Locals) (nst : Numeric.locals) (r : loop_exit),
    locals st nst ->
    months_loop p rows months st = Ok r ->
    exists nr, Numeric.months_loop p rows months nst = Ok nr /\ exits r nr.
Proof.
  induction months as [| month months IH]; intros st nst r Hst H.
  - simpl in H. injection H as <-. exists (Numeric.Next nst). split; [reflexivity |].
    exact Hst.
  - simpl in H. destruct (month_body p rows month st) as [r1 |] eqn:Hbody;
      simpl in H; [| discriminate].
    destruct (month_body_agree p rows month st nst r1 Hst Hbody) as [nr1 [Hn Hrel]].
    cbn [Numeric.months_loop]. rewrite Hn. cbn [bind].
    destruct r1 as [st1 | st1]; destruct nr1 as [nst1 | nst1];
      try contradiction.
    + apply (IH st1 nst1 r Hrel H).
    + injection H as <-. exists (Numeric.Break nst1). split; [reflexivity | exact Hrel].
Qed.

Lemma initial_locals_agree (p : Params) (strategy : RebalanceStrategy) (n : nat) :
  locals (initial_locals p strategy n) (Numeric.initial_locals p strategy n).
Proof.
  unfold locals, initial_locals, Numeric.initial_locals. cbn.
  assert (Hvalues : dicts
                      (map (fun '(asset, weight) => (asset, initial_capital p * weight))
                           (allocation (portfolio_config p)))
                      (map (fun '(asset, weight) =>
                              (asset, Number.PyFloat (initial_capital p * weight)))
                           (allocation (portfolio_config p)))).
  { unfold dicts. induction (allocation (portfolio_config p)) as [| [a w] l IH];
      cbn [map]; constructor; [| exact IH]. split; reflexivity. }
  repeat split; try assumption; try reflexivity. constructor.
Qed.

(** A trajectory that returns in the model on real numbers returns on the
    numbers the simulator holds, with the same history and the same metrics:
    whether its values are Python floats or NumPy numbers makes a difference
    only where the model on real numbers stops at a zero divisor. *)
Lemma simulate_portfolio_path_agree (p : Params) (asset_stats : asset_statistics)
      (strategy strategy' : RebalanceStrategy) (monthly_returns : returns_frame)
      (history : list History.row) (m : Metrics.t) :
  simulate_portfolio_path p asset_stats strategy monthly_returns
  = Ok (history, m, strategy') ->
  exists nhistory nm,
    Numeric.simulate_portfolio_path p asset_stats strategy monthly_returns
    = Ok (nhistory, nm, strategy')
    /\ Forall2 rows history nhistory
    /\ metrics m nm.
Proof.
  unfold simulate_portfolio_path, run_months, Numeric.simulate_portfolio_path. intros H.
  destruct (months_loop p monthly_returns _ _) as [r |] eqn:Hloop;
    simpl in H; [| discriminate].
  destruct (months_loop_agree p monthly_returns _ _ _ r
                              (initial_locals_agree p strategy _) Hloop)
    as [nr [Hn Hrel]].
  rewrite Hn. cbn [bind].
  assert (Hst : locals (locals_of r) (Numeric.locals_of nr)).
  { destruct r, nr; simpl in Hrel; try contradiction; exact Hrel. }
  destruct Hst
    as [_ [_ [Hpv [_ [Htw [Htc [Hcosts [Hsurv [_ [Hhist Hstrategy]]]]]]]]]].
  unfold final_metrics in H. unfold Numeric.final_metrics.
  destruct (Py.gt (initial_capital p) 0).
  - destruct (Py.div _ (initial_capital p)) as [q |] eqn:Hq; simpl in H; [| discriminate].
    injection H as <- <- <-.
    destruct (number_div _ _ q _ (Number.PyFloat (initial_capital p))
                         (number_sub _ _ _ _ Hpv (number_py _)) (number_py _) Hq)
      as [nq [Hnq Hrelq]].
    rewrite Hnq. cbn [bind]. rewrite <- Hstrategy.
    eexists. eexists. split; [reflexivity |]. split; [exact Hhist |].
    unfold metrics. cbn. repeat split; try assumption; congruence.
  - simpl in H. injection H as <- <- <-. cbn [bind]. rewrite <- Hstrategy.
    eexists. eexists. split; [reflexivity |]. split; [exact Hhist |].
    unfold metrics. cbn. repeat split; try assumption; try reflexivity; congruence.
Qed.

End ModelsAgree.

(** ** The strategy object along a trajectory *)

Section StrategyAlongPath.

Lemma evolves_refl (self : RebalanceStrategy) : Spec.evolves self self.
Proof. unfold Spec.evolves. auto 10. Qed.

Lemma evolves_trans (s1 s2 s3 : RebalanceStrategy) :
  Spec.evolves s1 s2 -> Spec.evolves s2 s3 -> Spec.evolves s1 s3.
Proof.
  intros [Ht1 [Hc1 [Hk1 [Hth1 Hl1]]]] [Ht2 [Hc2 [Hk2 [Hth2 Hl2]]]].
  unfold Spec.evolves. repeat split; try congruence.
  - intros threshold Hkind. rewrite <- (Hth1 threshold Hkind).
    apply (Hth2 threshold). congruence.
  - auto.
Qed.

Lemma should_rebalance_evolves (self : RebalanceStrategy) (current_allocation : dict)
      (date : datetime) (portfolio_value : R) :
  Spec.evolves self (snd (should_rebalance self current_allocation date portfolio_value)).
Proof.
  destruct (should_rebalance_keeps_configuration self current_allocation date
                                                 portfolio_value) as [Ht [Hc Hk]].
  unfold Spec.evolves. repeat split; try assumption.
  - intros threshold Hkind. unfold should_rebalance. rewrite Hkind. reflexivity.
  - apply reference_date_stays_set.
Qed.

(** The strategy a month leaves is the one its check left, or the one it
    found when the month was left by [break]. *)
Lemma month_body_strategy (p : Params) (rows : returns_frame) (month : nat)
      (st : Locals) (r : loop_exit) :
  month_body p rows month st = Ok r ->
  match r with
  | Next st' =>
      exists current_allocation portfolio_value,
        rebalance_strategy st'
        = snd (should_rebalance (rebalance_strategy st) current_allocation
                                (current_date st) portfolio_value)
  | Break st' => rebalance_strategy st' = rebalance_strategy st
  end.
Proof.
  intros H. open_month_body H; simpl.
  - eexists. eexists. rewrite Hcheck. reflexivity.
  - eexists. eexists. rewrite Hcheck. reflexivity.
  - reflexivity.
Qed.

Lemma months_loop_evolves (p : Params) (rows : returns_frame) (months : list nat) :
  forall (st : Locals) (r : loop_exit),
    months_loop p rows months st = Ok r ->
    Spec.evolves (rebalance_strategy st) (rebalance_strategy (locals_of r)).
Proof.
  induction months as [| month months IH]; intros st r Hloop; simpl in Hloop.
  - injection Hloop as <-. apply evolves_refl.
  - destruct (month_body p rows month st) as [[st1 | st1] |] eqn:Hbody;
      simpl in Hloop; [| | discriminate].
    + apply month_body_strategy in Hbody. destruct Hbody as [alloc [pv Hs]].
      apply evolves_trans with (rebalance_strategy st1).
      * rewrite Hs. apply should_rebalance_evolves.
      * apply IH. exact Hloop.
    + injection Hloop as <-. apply month_body_strategy in Hbody.
      simpl. rewrite Hbody. apply evolves_refl.
Qed.

Lemma simulate_portfolio_path_evolves (p : Params) (asset_stats : asset_statistics)
      (strategy strategy' : RebalanceStrategy) (rows : returns_frame)
      (history : list History.row) (metrics : Metrics.t) :
  simulate_portfolio_path p asset_stats strategy rows = Ok (history, metrics, strategy') ->
  Spec.evolves strategy strategy'.
Proof.
  unfold simulate_portfolio_path, run_months. intros H.
  destruct (months_loop p rows _ _) as [r |] eqn:Hloop; simpl in H; [| discriminate].
  destruct (final_metrics p _ _) as [m |]; simpl in H; [| discriminate].
  injection H as _ _ <-.
  apply (months_loop_evolves _ _ _ _ _ Hloop).
Qed.

Lemma final_metrics_ok (p : Params) (n_months : nat) (st : Locals) :
  exists metrics,
    final_metrics p n_months st = Ok metrics
    /\ Metrics.months_survived metrics = months_survived st
    /\ Metrics.final_value metrics = portfolio_value st.
Proof.
  unfold final_metrics. destruct (gt (initial_capital p) 0) eqn:Hpos.
  - apply gt_true in Hpos. rewrite div_ok by lra. simpl. eexists.
    split; [reflexivity |]. split; reflexivity.
  - simpl. eexists. split; [reflexivity |]. split; reflexivity.
Qed.

End StrategyAlongPath.

(** ** The batch driver *)

Section BatchFacts.

Variable rng : Type.
Variable seeded : Z -> rng.
Variable normal : R -> R -> nat -> rng -> list R * rng.
Variable p : Params.
Variable asset_stats : asset_statistics.
Variable n_months : nat.
Variable random_seed : option Z.

Lemma bind_ok {A : Type} (m : outcome A) : bind m Ok = m.
Proof. destruct m; reflexivity. Qed.

Lemma iterations_loop_app (l1 l2 : list nat) (b : Batch rng) :
  iterations_loop rng seeded normal p asset_stats n_months random_seed (l1 ++ l2) b
  = (b' <- iterations_loop rng seeded normal p asset_stats n_months random_seed l1 b ;;
     iterations_loop rng seeded normal p asset_stats n_months random_seed l2 b').
Proof.
  revert b. induction l1 as [| i l1 IH]; intros b; simpl.
  - reflexivity.
  - destruct (iteration_body rng seeded normal p asset_stats n_months random_seed i b);
      simpl; auto.
Qed.

Lemma iteration_body_evolves (i : nat) (b b' : Batch rng) :
  iteration_body rng seeded normal p asset_stats n_months random_seed i b = Ok b' ->
  Spec.evolves (strategy_object b) (strategy_object b').
Proof.
  unfold iteration_body. intros H.
  destruct (generate_monthly_returns _ _ _ _ _ _ _) as [[rows g] |];
    simpl in H; [| discriminate].
  destruct (simulate_portfolio_path _ _ _ _) as [[[history metrics] strategy'] |] eqn:Hsim;
    simpl in H; [| discriminate].
  injection H as <-. simpl.
  apply (simulate_portfolio_path_evolves _ _ _ _ _ _ _ Hsim).
Qed.

Lemma iterations_loop_evolves (iterations : list nat) :
  forall b b' : Batch rng,
    iterations_loop rng seeded normal p asset_stats n_months random_seed iterations b
    = Ok b' ->
    Spec.evolves (strategy_object b) (strategy_object b').
Proof.
  induction iterations as [| i iterations IH]; intros b b' H; simpl in H.
  - injection H as <-. apply evolves_refl.
  - destruct (iteration_body _ _ _ _ _ _ _ i b) as [b1 |] eqn:Hbody;
      simpl in H; [| discriminate].
    apply evolves_trans with (strategy_object b1).
    + apply (iteration_body_evolves _ _ _ Hbody).
    + apply IH. exact H.
Qed.

(** With a base seed that is set and not zero every iteration seeds the
    generator, so the state the generator is found in does not matter. *)
Lemma iteration_body_seeded (seed : Z) (i : nat) (b1 b2 : Batch rng) :
  random_seed = Some seed ->
  seed <> 0%Z ->
  Spec.same_tables b1 b2 ->
  iteration_body rng seeded normal p asset_stats n_months random_seed i b1
  = iteration_body rng seeded normal p asset_stats n_months random_seed i b2.
Proof.
  intros -> Hnz [Hh [Hm Hs]]. unfold iteration_body, iteration_seed.
  apply Z.eqb_neq in Hnz. rewrite Hnz. unfold generate_monthly_returns.
  destruct (np_random_seed rng seeded _) as [g |]; simpl; [| reflexivity].
  rewrite Hh, Hm, Hs. reflexivity.
Qed.

Lemma iterations_loop_seeded (seed : Z) (iterations : list nat) :
  random_seed = Some seed ->
  seed <> 0%Z ->
  forall b1 b2 : Batch rng,
    Spec.same_tables b1 b2 ->
    Spec.same_result
      (iterations_loop rng seeded normal p asset_stats n_months random_seed iterations b1)
      (iterations_loop rng seeded normal p asset_stats n_months random_seed iterations b2).
Proof.
  intros Hseed Hnz. induction iterations as [| i iterations IH]; intros b1 b2 Hsame.
  - simpl. exact Hsame.
  - simpl. rewrite (iteration_body_seeded seed i b1 b2 Hseed Hnz Hsame).
    destruct (iteration_body _ _ _ _ _ _ _ i b2) as [b |]; simpl.
    + apply IH. repeat split.
    + reflexivity.
Qed.

End BatchFacts.

Lemma run_iterations_step (rng : Type) (seeded : Z -> rng)
      (normal : R -> R -> nat -> rng -> list R * rng) (p : Params)
      (asset_stats : asset_statistics) (strategy : RebalanceStrategy)
      (n_months : nat) (random_seed : option Z) (g : rng) (k : nat) :
  run_iterations rng seeded normal p asset_stats strategy n_months random_seed g (S k)
  = (b <- run_iterations rng seeded normal p asset_stats strategy n_months
                         random_seed g k ;;
     iteration_body rng seeded normal p (with_cash p asset_stats) n_months
                    random_seed k b).
Proof.
  unfold run_iterations. rewrite seq_S, iterations_loop_app. simpl.
  destruct (iterations_loop _ _ _ _ _ _ _ (seq 0 k) _) as [b |]; simpl;
    [apply bind_ok | reflexivity].
Qed.

(** What the batch driver does with the strategy object.  A batch threads one
    object through its iterations: iteration 0 finds the object the caller
    passed, iteration k + 1 finds the object as the trajectory of iteration k
    left it.  Along the batch the object keeps its configuration, a
    threshold-based object is never changed, and a reference date that is set
    stays set. *)
Lemma strategy_object_is_shared (rng : Type) (seeded : Z -> rng)
        (normal : R -> R -> nat -> rng -> list R * rng) (p : Params)
        (asset_stats : asset_statistics) (strategy : RebalanceStrategy)
        (n_months : nat) (random_seed : option Z) (g : rng) :
  let batch_before :=
    run_iterations rng seeded normal p asset_stats strategy n_months random_seed g in
  batch_before 0%nat = Ok (mkBatch [] [] strategy g)
  /\ (forall (k : nat) (b : Batch rng) (rows : returns_frame) (g' : rng),
         batch_before k = Ok b ->
         generate_monthly_returns rng seeded normal (with_cash p asset_stats) n_months
                                  (iteration_seed random_seed k) (generator b)
         = Ok (rows, g') ->
         batch_before (S k)
         = ('(history, metrics, strategy') <-
              simulate_portfolio_path p (with_cash p asset_stats)
                                      (strategy_object b) rows ;;
            Ok (mkBatch (all_histories b ++ [(history, (k + 1)%nat)])
                        (all_metrics b ++ [metrics]) strategy' g')))
  /\ (forall (k : nat) (b : Batch rng),
         batch_before k = Ok b -> Spec.evolves strategy (strategy_object b)).
Proof.
  intros batch_before. subst batch_before. split; [reflexivity |]. split.
  - intros k b rows g' Hk Hgen. rewrite run_iterations_step, Hk. simpl.
    unfold iteration_body. rewrite Hgen. reflexivity.
  - intros k b Hk. unfold run_iterations in Hk.
    apply iterations_loop_evolves in Hk. exact Hk.
Qed.

(** *** The draws *)

Lemma np_random_normal_ok (rng : Type) (normal : R -> R -> nat -> rng -> list R * rng)
      (loc scale : R) (size : nat) (g : rng) :
  0 <= scale -> np_random_normal rng normal loc scale size g = Ok (normal loc scale size g).
Proof.
  intros H. unfold np_random_normal.
  destruct (ge scale 0) eqn:Hge; [reflexivity |]. apply ge_false in Hge. lra.
Qed.

Lemma np_random_normal_refused (rng : Type)
      (normal : R -> R -> nat -> rng -> list R * rng)
      (loc scale : R) (size : nat) (g : rng) :
  scale < 0 -> np_random_normal rng normal loc scale size g = Raise NegativeScale.
Proof.
  intros H. unfold np_random_normal.
  destruct (ge scale 0) eqn:Hge; [| reflexivity]. apply ge_true in Hge. lra.
Qed.

(** A monthly deviation has the sign of the annual one. *)
Lemma monthly_scale_sign (std_annual : R) :
  (0 <= std_annual -> 0 <= std_annual / sqrt 12)
  /\ (std_annual < 0 -> std_annual / sqrt 12 < 0).
Proof.
  assert (Hroot : 0 < sqrt 12) by (apply sqrt_lt_R0; lra).
  split; intros H.
  - apply Rmult_le_pos; [exact H |]. left. apply Rinv_0_lt_compat. exact Hroot.
  - unfold Rdiv. rewrite <- (Rmult_0_l (/ sqrt 12)).
    apply Rmult_lt_compat_r; [apply Rinv_0_lt_compat; exact Hroot | exact H].
Qed.

(** *** A batch of two iterations over one month *)

Section LeakExample.

Let strategy := TimeBasedRebalance Fixtures.stocks_bonds "monthly" 0.002.
Let rows : returns_frame := [[("stocks"%string, 0 / 12); ("bonds"%string, 0 / 12)]].

Lemma leak_example_returns (g : unit) :
  generate_monthly_returns unit (fun _ => tt) Fixtures.mean_draws
                           (with_cash Fixtures.ruin_params Fixtures.flat_stats) 1
                           (iteration_seed (Some 42%Z) 0) g
  = Ok (rows, tt).
Proof.
  change (with_cash Fixtures.ruin_params Fixtures.flat_stats) with Fixtures.flat_stats.
  unfold generate_monthly_returns, Fixtures.flat_stats.
  change (iteration_seed (Some 42%Z) 0) with (Some 42%Z).
  cbn [bind draw_columns String.eqb Ascii.eqb Bool.eqb mean_return std_dev app].
  match goal with
  | |- context [np_random_seed ?rng ?seeded ?seed] =>
      change (np_random_seed rng seeded seed) with (Ok tt : outcome unit)
  end.
  cbn [bind].
  rewrite np_random_normal_ok by (apply monthly_scale_sign; lra).
  cbn [bind Fixtures.mean_draws].
  rewrite np_random_normal_ok by (apply monthly_scale_sign; lra).
  reflexivity.
Qed.

Lemma leak_example_path :
  exists history metrics strategy',
    simulate_portfolio_path Fixtures.ruin_params
                            (with_cash Fixtures.ruin_params Fixtures.flat_stats)
                            strategy rows
    = Ok (history, metrics, strategy')
    /\ last_rebalance_date strategy' = Some datetime_2025_1_1.
Proof.
  set (p := Fixtures.ruin_params).
  set (st := initial_locals p strategy 1).
  assert (Hzero : Spec.all_zero (nth 0 rows [])).
  { intros a v [H | [H | []]]; injection H as _ <-; lra. }
  pose proof (apply_returns_zero (asset_values st) (nth 0 rows []) Hzero) as Hreturns.
  assert (Hsum : sum (values (asset_values st)) = 100000).
  { unfold sum. simpl. lra. }
  destruct (month_body_progress p rows 0 st
              (apply_returns (asset_values st) (nth 0 rows []))
              0 (sum (values (apply_returns (asset_values st) (nth 0 rows []))))
              (total_contributions st))
    as [st1 [Hbody _]].
  - reflexivity.
  - rewrite Hreturns, Hsum. unfold adjust_withdrawal, total_monthly_withdrawal.
    simpl. lra.
  - rewrite Hreturns, Hsum. lra.
  - destruct (final_metrics_ok p 1 st1) as [metrics [Hmetrics _]].
    exists (history st1), metrics, (rebalance_strategy st1). split.
    + unfold simulate_portfolio_path, run_months.
      change (List.length rows) with 1%nat. fold p st. simpl months_loop.
      rewrite Hbody. simpl. rewrite Hmetrics. reflexivity.
    + apply month_body_strategy in Hbody. destruct Hbody as [alloc [pv ->]].
      reflexivity.
Qed.

Lemma leak_example_batch :
  exists b,
    run_iterations unit (fun _ => tt) Fixtures.mean_draws Fixtures.ruin_params
                   Fixtures.flat_stats strategy 1 (Some 42%Z) tt 1
    = Ok b
    /\ last_rebalance_date (strategy_object b) = Some datetime_2025_1_1.
Proof.
  destruct leak_example_path as [history [metrics [strategy' [Hpath Hlast]]]].
  eexists. split.
  - rewrite run_iterations_step. simpl bind. unfold iteration_body.
    simpl generator. rewrite leak_example_returns. simpl bind.
    simpl strategy_object. rewrite Hpath. reflexivity.
  - exact Hlast.
Qed.

End LeakExample.

(** C2, evaluated on the code.  In a batch of two one-month iterations with a
    monthly time-based strategy, the second iteration finds the object of the
    first, with the reference date the first trajectory recorded.  Its
    trajectory starts again on 2025-01-01, so its first check, whatever the
    allocation, answers [False] where a newly built strategy answers [True]:
    the second trajectory is not rebalanced in its first month. *)
Theorem second_iteration_finds_reference_date :
  ~ Spec.starts_unset
      (run_iterations unit (fun _ => tt) Fixtures.mean_draws Fixtures.ruin_params
                      Fixtures.flat_stats
                      (TimeBasedRebalance Fixtures.stocks_bonds "monthly" 0.002)
                      1 (Some 42%Z) tt)
      2
  /\ exists b,
      run_iterations unit (fun _ => tt) Fixtures.mean_draws Fixtures.ruin_params
                     Fixtures.flat_stats
                     (TimeBasedRebalance Fixtures.stocks_bonds "monthly" 0.002)
                     1 (Some 42%Z) tt 1
      = Ok b
      /\ strategy_object b
         = mkRebalanceStrategy Fixtures.stocks_bonds 0.002 (Some datetime_2025_1_1)
                               (TimeBased "monthly")
      /\ forall (current_allocation : dict) (portfolio_value : R),
          should_rebalance (strategy_object b) current_allocation
                           datetime_2025_1_1 portfolio_value
          = (false, strategy_object b)
          /\ fst (should_rebalance
                    (TimeBasedRebalance Fixtures.stocks_bonds "monthly" 0.002)
                    current_allocation datetime_2025_1_1 portfolio_value)
             = true.
Proof.
  destruct leak_example_batch as [b [Hrun Hlast]].
  split.
  - intros Hclaim. specialize (Hclaim 1%nat b ltac:(lia) Hrun). congruence.
  - exists b. split; [exact Hrun |].
    assert (Hobject : strategy_object b
                      = mkRebalanceStrategy Fixtures.stocks_bonds 0.002
                                            (Some datetime_2025_1_1)
                                            (TimeBased "monthly")).
    { pose proof Hrun as Hevolves. unfold run_iterations in Hevolves.
      apply iterations_loop_evolves in Hevolves.
      destruct Hevolves as [Htarget [Hcost [Hkind _]]].
      simpl in Htarget, Hcost, Hkind.
      destruct (strategy_object b) as [target cost last kind].
      simpl in *. subst. reflexivity. }
    split; [exact Hobject |].
    intros current_allocation portfolio_value. rewrite Hobject.
    unfold should_rebalance, TimeBased_should_rebalance.
    cbn [kind last_rebalance_date].
    assert (Hdays : (days_between datetime_2025_1_1 datetime_2025_1_1
                     >=? frequency_days_get frequency_days "monthly" 365)%Z = false).
    { apply not_true_is_false. intros H.
      apply days_between_elapsed in H. unfold Calendar.days_elapsed in H.
      change (frequency_days_get frequency_days "monthly" 365) with 30%Z in H. lia. }
    rewrite Hdays. split; reflexivity.
Qed.

(** ** Seeds *)

Lemma iteration_seed_set (seed : Z) (i : nat) :
  seed <> 0%Z -> iteration_seed (Some seed) i = Some (seed + Z.of_nat i)%Z.
Proof. intros H. unfold iteration_seed. apply Z.eqb_neq in H. rewrite H. reflexivity. Qed.

Lemma iteration_seed_unset (i : nat) : iteration_seed None i = None.
Proof. reflexivity. Qed.

(** Two runs with the same parameters and a base seed that is set and not
    zero end alike, whatever state they find the generator in. *)
Lemma seeded_runs_agree (rng : Type) (seeded : Z -> rng)
      (normal : R -> R -> nat -> rng -> list R * rng) (p : Params)
      (asset_stats : asset_statistics) (strategy : RebalanceStrategy)
      (n_months n_iterations : nat) (seed : Z) (g1 g2 : rng) :
  seed <> 0%Z ->
  Spec.same_result
    (monte_carlo_simulation rng seeded normal p asset_stats strategy n_months
                            n_iterations (Some seed) g1)
    (monte_carlo_simulation rng seeded normal p asset_stats strategy n_months
                            n_iterations (Some seed) g2).
Proof.
  intros Hnz. unfold monte_carlo_simulation, run_iterations.
  apply iterations_loop_seeded with (seed := seed); auto.
  repeat split.
Qed.

(** C9, evaluated on the code.  With a base seed of 0 no iteration is seeded:
    [random_seed + i if random_seed else None] takes the seed 0 for an unset
    one, where [generate_monthly_returns] itself tests [is not None].  The
    returns of an iteration then depend on the state the generator is found
    in. *)
Theorem zero_base_seed_is_dropped :
  (forall i : nat,
      iteration_seed (Some 0%Z) i = None
      /\ iteration_seed (Some 0%Z) i <> Some (0 + Z.of_nat i)%Z)
  /\ generate_monthly_returns Z (fun seed => seed) Fixtures.counting_draws
                              Fixtures.flat_stats 1 (iteration_seed (Some 0%Z) 0) 1%Z
     <> generate_monthly_returns Z (fun seed => seed) Fixtures.counting_draws
                                 Fixtures.flat_stats 1 (iteration_seed (Some 0%Z) 0) 2%Z
  /\ generate_monthly_returns Z (fun seed => seed) Fixtures.counting_draws
                              Fixtures.flat_stats 1 (Some 0%Z) 1%Z
     = generate_monthly_returns Z (fun seed => seed) Fixtures.counting_draws
                                Fixtures.flat_stats 1 (Some 0%Z) 2%Z.
Proof.
  split; [| split].
  - intros i. split; [reflexivity | discriminate].
  - change (iteration_seed (Some 0%Z) 0) with (@None Z).
    unfold generate_monthly_returns, Fixtures.flat_stats.
    cbn [bind draw_columns String.eqb Ascii.eqb Bool.eqb mean_return std_dev app].
    repeat (rewrite np_random_normal_ok by (apply monthly_scale_sign; lra);
            cbn [bind Fixtures.counting_draws]).
    simpl. intros H. injection H as H _. lra.
  - reflexivity.
Qed.

(* ================================================================== *)
(** * Part III: further properties of the code *)
(* ================================================================== *)

(** ** Rebalancing strategies *)

Lemma threshold_loop_ext (items current other : dict) (threshold : R) :
  (forall asset weight, In (asset, weight) items -> get other asset 0 = get current asset 0) ->
  threshold_loop items other threshold = threshold_loop items current threshold.
Proof.
  induction items as [| [a w] items IH]; intros Hagree; simpl; [reflexivity |].
  rewrite (Hagree a w) by (left; reflexivity).
  rewrite IH by (intros a' w' Hin; apply (Hagree a' w'); right; exact Hin).
  reflexivity.
Qed.

(** X1.  The threshold check answers [True] exactly when some asset of the
    target allocation deviates from its target weight by strictly more than
    the threshold, an asset the current allocation does not list counting
    with weight 0.  It leaves the strategy object as it is, and its answer
    depends neither on the date, nor on the portfolio value, nor on assets
    that are held without being in the target allocation. *)
Theorem threshold_check_is_strict_and_pure
        (target : dict) (cost : R) (last : option datetime) (threshold : R)
        (current_allocation : dict) (date : datetime) (portfolio_value : R) :
  let self := mkRebalanceStrategy target cost last (ThresholdBased threshold) in
  (fst (should_rebalance self current_allocation date portfolio_value) = true
   <-> exists asset weight,
         In (asset, weight) target
         /\ Rabs (get current_allocation asset 0 - weight) > threshold)
  /\ snd (should_rebalance self current_allocation date portfolio_value) = self
  /\ (forall (other : dict) (date' : datetime) (portfolio_value' : R),
         (forall asset weight,
             In (asset, weight) target ->
             get other asset 0 = get current_allocation asset 0) ->
         fst (should_rebalance self other date' portfolio_value')
         = fst (should_rebalance self current_allocation date portfolio_value)).
Proof.
  intros self. subst self. unfold should_rebalance, ThresholdBased_should_rebalance.
  simpl. split; [| split].
  - rewrite threshold_loop_strict. split.
    + intros [[a w] [Hin Hdev]]. exists a, w. split; assumption.
    + intros [a [w [Hin Hdev]]]. exists (a, w). split; assumption.
  - reflexivity.
  - intros other date' pv' Hagree. apply threshold_loop_ext. exact Hagree.
Qed.

Lemma get_scaled (d : dict) (c : R) (asset : string) (weight : R) :
  NoDup (keys d) ->
  In (asset, weight) d ->
  get (map (fun '(asset, weight) => (asset, c * weight)) d) asset 0 = c * weight.
Proof.
  unfold keys. induction d as [| [k v] d IH]; intros Hnodup Hin; simpl in *; [tauto |].
  inversion Hnodup as [| k' ks Hnotin Hrest]; subst.
  destruct Hin as [Heq | Hin].
  - injection Heq as -> ->. rewrite String.eqb_refl. reflexivity.
  - destruct (String.eqb asset k) eqn:Hk.
    + apply String.eqb_eq in Hk. subst k. exfalso. apply Hnotin.
      apply (in_map fst) in Hin. exact Hin.
    + apply IH; assumption.
Qed.

Lemma turnover_at_target (items held : dict) (V : R) :
  V > 0 ->
  (forall asset weight, In (asset, weight) items -> get held asset 0 = V * weight) ->
  Spec.turnover items held V = 0.
Proof.
  intros HV Hheld. induction items as [| [a w] items IH]; simpl; [reflexivity |].
  rewrite IH by (intros a' w' Hin; apply (Hheld a' w'); right; exact Hin).
  unfold Spec.current_weight. rewrite (proj2 (gt_true V 0)) by exact HV.
  rewrite (Hheld a w) by (left; reflexivity).
  replace (w - V * w / V) with 0 by (field; lra).
  rewrite Rabs_R0. lra.
Qed.

(** X2.  Rebalancing a portfolio that already sits at its target weights
    costs nothing and returns the same per-asset values; so rebalancing twice
    in a row charges once: the values [rebalance] returns, rebalanced again on
    what is left after the cost, come back unchanged at cost 0. *)
Theorem rebalance_at_target_is_free (self : RebalanceStrategy) (V : R) :
  NoDup (keys (target_allocation self)) ->
  V > 0 ->
  let at_target :=
    map (fun '(asset, weight) => (asset, V * weight)) (target_allocation self) in
  rebalance self at_target V = Ok (at_target, 0)
  /\ (forall (current_values : dict) (portfolio_value : R) (new_values : dict) (cost : R),
         rebalance self current_values portfolio_value = Ok (new_values, cost) ->
         portfolio_value - cost = V ->
         rebalance self new_values V = Ok (new_values, 0)).
Proof.
  intros Hnodup HV at_target.
  assert (Hfree : rebalance self at_target V = Ok (at_target, 0)).
  { rewrite rebalance_closed_form. unfold Spec.rebalance_cost.
    rewrite (turnover_at_target (target_allocation self) at_target V HV)
      by (intros a w Hin; apply get_scaled; assumption).
    replace (V * (0 / 2) * transaction_cost self) with 0 by lra.
    rewrite Rminus_0_r. reflexivity. }
  split; [exact Hfree |].
  intros current_values portfolio_value new_values cost Hfirst Hleft.
  rewrite rebalance_closed_form in Hfirst. injection Hfirst as Hnew Hcost.
  rewrite Hcost, Hleft in Hnew. subst new_values. exact Hfree.
Qed.

Lemma stocks_bonds_keys : NoDup (keys Fixtures.stocks_bonds).
Proof.
  unfold keys. simpl. repeat constructor; simpl; intuition discriminate.
Qed.

Lemma rebalance_at_target_is_free_witness :
  rebalance Fixtures.test_strategy
            (map (fun '(asset, weight) => (asset, 100000 * weight))
                 (target_allocation Fixtures.test_strategy))
            100000
  = Ok (map (fun '(asset, weight) => (asset, 100000 * weight))
            (target_allocation Fixtures.test_strategy), 0).
Proof.
  apply (rebalance_at_target_is_free Fixtures.test_strategy 100000).
  - exact stocks_bonds_keys.
  - lra.
Defined.

Section CostBounds.

Lemma get_nonneg (d : dict) (key : string) :
  (forall asset value, In (asset, value) d -> 0 <= value) -> 0 <= get d key 0.
Proof.
  induction d as [| [k v] d IH]; intros Hpos; simpl; [lra |].
  destruct (String.eqb key k).
  - apply (Hpos k v). left. reflexivity.
  - apply IH. intros a' v' Hin. apply (Hpos a' v'). right. exact Hin.
Qed.

Lemma sum_map_cons {A : Type} (f : A -> R) (x : A) (xs : list A) :
  sum (map f (x :: xs)) = f x + sum (map f xs).
Proof. simpl. apply sum_cons. Qed.

(** Over keys without repetition, a dict of non-negative values gives at most
    the sum of its values. *)
Lemma sum_get_le (d : dict) :
  (forall asset value, In (asset, value) d -> 0 <= value) ->
  forall ks : list string,
    NoDup ks -> sum (map (fun k => get d k 0) ks) <= sum (values d).
Proof.
  unfold values. induction d as [| [k0 v0] d IH]; intros Hpos ks Hnodup.
  - assert (Hzero : sum (map (fun k => get [] k 0) ks) = 0).
    { clear Hnodup. induction ks as [| k ks IHks]; [apply sum_nil |].
      rewrite sum_map_cons, IHks. simpl. lra. }
    rewrite Hzero. simpl. rewrite sum_nil. lra.
  - assert (Hpos' : forall asset value, In (asset, value) d -> 0 <= value)
      by (intros a' v' Hin; apply (Hpos a' v'); right; exact Hin).
    assert (Hv0 : 0 <= v0) by (apply (Hpos k0 v0); left; reflexivity).
    simpl map at 2. rewrite sum_cons.
    assert (Hsplit : forall ks : list string,
               NoDup ks ->
               sum (map (fun k => get ((k0, v0) :: d) k 0) ks)
               <= (if existsb (String.eqb k0) ks then v0 else 0)
                  + sum (map (fun k => get d k 0) ks)
               /\ (existsb (String.eqb k0) ks = false ->
                   sum (map (fun k => get ((k0, v0) :: d) k 0) ks)
                   = sum (map (fun k => get d k 0) ks))).
    { clear ks Hnodup. induction ks as [| k ks IHks]; intros Hnodup.
      - simpl. rewrite sum_nil. split; [lra | reflexivity].
      - inversion Hnodup as [| k' ks' Hnotin Hrest]; subst.
        destruct (IHks Hrest) as [Hle Heq].
        rewrite !sum_map_cons.
        change (get ((k0, v0) :: d) k 0)
          with (if String.eqb k k0 then v0 else get d k 0).
        change (existsb (String.eqb k0) (k :: ks))
          with (String.eqb k0 k || existsb (String.eqb k0) ks).
        rewrite (String.eqb_sym k0 k).
        destruct (String.eqb k k0) eqn:Hk; cbv beta iota delta [orb].
        + apply String.eqb_eq in Hk. subst k0.
          assert (Hfalse : existsb (String.eqb k) ks = false).
          { destruct (existsb (String.eqb k) ks) eqn:He; [| reflexivity].
            apply existsb_exists in He. destruct He as [x [Hin Hx]].
            apply String.eqb_eq in Hx. subst x. contradiction. }
          rewrite (Heq Hfalse). split; [| discriminate].
          pose proof (get_nonneg d k Hpos'). lra.
        + split; [lra |]. intros Hfalse. rewrite (Heq Hfalse). reflexivity. }
    destruct (Hsplit ks Hnodup) as [Hle _].
    specialize (IH Hpos' ks Hnodup).
    destruct (existsb (String.eqb k0) ks); lra.
Qed.

Lemma turnover_bounds (target held : dict) (V : R) :
  V > 0 ->
  (forall asset weight, In (asset, weight) target -> 0 <= weight) ->
  (forall asset value, In (asset, value) held -> 0 <= value) ->
  0 <= Spec.turnover target held V
  <= sum (values target) + sum (map (fun k => get held k 0) (keys target)) / V.
Proof.
  intros HV Hw Hheld. unfold values, keys.
  induction target as [| [a w] target IH]; simpl.
  - rewrite sum_nil. unfold Rdiv. rewrite Rmult_0_l. lra.
  - assert (IH' := IH (fun a' w' Hin => Hw a' w' (or_intror Hin))).
    rewrite !sum_cons.
    assert (H0w : 0 <= w) by (apply (Hw a w); left; reflexivity).
    pose proof (get_nonneg held a Hheld) as Hg.
    unfold Spec.current_weight. rewrite (proj2 (gt_true V 0)) by exact HV.
    assert (Hc : 0 <= get held a 0 / V).
    { apply Rmult_le_pos; [exact Hg |]. left. apply Rinv_0_lt_compat. lra. }
    assert (Habs : 0 <= Rabs (w - get held a 0 / V) <= w + get held a 0 / V).
    { split; [apply Rabs_pos |]. unfold Rabs. destruct Rcase_abs; lra. }
    replace ((get held a 0 + sum (map (fun k => get held k 0) (map fst target))) / V)
      with (get held a 0 / V + sum (map (fun k => get held k 0) (map fst target)) / V)
      by (field; lra).
    lra.
Qed.

End CostBounds.

(** X3.  For a portfolio worth [portfolio_value] > 0, held in non-negative
    amounts that add up to that value, a target allocation over distinct
    assets with non-negative weights that sum to 1 and a transaction cost rate
    that is not negative, the cost of a rebalance lies between 0 and
    portfolio_value * transaction_cost; with a rate of at most 1 no asset ends
    with a negative value. *)
Theorem rebalance_cost_is_bounded (self : RebalanceStrategy) (current_values : dict)
        (portfolio_value : R) :
  NoDup (keys (target_allocation self)) ->
  (forall asset weight, In (asset, weight) (target_allocation self) -> 0 <= weight) ->
  sum (values (target_allocation self)) = 1 ->
  (forall asset value, In (asset, value) current_values -> 0 <= value) ->
  sum (values current_values) = portfolio_value ->
  portfolio_value > 0 ->
  0 <= transaction_cost self ->
  exists new_values cost,
    rebalance self current_values portfolio_value = Ok (new_values, cost)
    /\ 0 <= cost <= portfolio_value * transaction_cost self
    /\ (transaction_cost self <= 1 ->
        forall asset value, In (asset, value) new_values -> 0 <= value).
Proof.
  intros Hnodup Hw Hone Hheld Hsum HV Htc.
  rewrite rebalance_closed_form. cbv zeta.
  eexists. eexists. split; [reflexivity |].
  destruct (turnover_bounds (target_allocation self) current_values portfolio_value
                            HV Hw Hheld) as [Hlo Hhi].
  pose proof (sum_get_le current_values Hheld (keys (target_allocation self)) Hnodup)
    as Hget.
  rewrite Hsum in Hget. rewrite Hone in Hhi.
  assert (Hturn : Spec.turnover (target_allocation self) current_values portfolio_value
                  <= 2).
  { assert (sum (map (fun k => get current_values k 0) (keys (target_allocation self)))
            / portfolio_value <= 1).
    { apply Rmult_le_reg_r with portfolio_value; [lra |].
      unfold Rdiv. rewrite Rmult_assoc, Rinv_l by lra. lra. }
    lra. }
  set (T := Spec.turnover (target_allocation self) current_values portfolio_value) in *.
  assert (Hcost : 0 <= Spec.rebalance_cost (target_allocation self) current_values
                         portfolio_value (transaction_cost self)
                  <= portfolio_value * transaction_cost self).
  { unfold Spec.rebalance_cost. fold T. split.
    - apply Rmult_le_pos; [apply Rmult_le_pos |]; lra.
    - assert (portfolio_value * (T / 2) <= portfolio_value * 1)
        by (apply Rmult_le_compat_l; lra).
      apply Rmult_le_compat_r; lra. }
  split; [exact Hcost |].
  intros Hrate asset value Hin. apply in_map_iff in Hin.
  destruct Hin as [[a w] [Heq Hin]]. injection Heq as _ <-.
  apply Rmult_le_pos; [| apply (Hw a w Hin)].
  assert (portfolio_value * transaction_cost self <= portfolio_value * 1)
    by (apply Rmult_le_compat_l; lra).
  lra.
Qed.

Lemma rebalance_cost_is_bounded_witness :
  exists new_values cost,
    rebalance Fixtures.test_strategy Fixtures.test_values 100000 = Ok (new_values, cost)
    /\ 0 <= cost <= 100000 * transaction_cost Fixtures.test_strategy
    /\ (transaction_cost Fixtures.test_strategy <= 1 ->
        forall asset value, In (asset, value) new_values -> 0 <= value).
Proof.
  apply (rebalance_cost_is_bounded Fixtures.test_strategy Fixtures.test_values 100000).
  - exact stocks_bonds_keys.
  - intros asset weight [H | [H | []]]; injection H as _ <-; lra.
  - exact stocks_bonds_sum.
  - intros asset value [H | [H | []]]; injection H as _ <-; lra.
  - unfold sum. simpl. lra.
  - lra.
  - simpl. lra.
Defined.

(** ** The books of a trajectory *)

Section Bookkeeping.

Variable p : Params.
Variable rows : returns_frame.

Lemma apply_contribution_books (nv nv1 : dict) (pv tc c pv1 tc1 : R) :
  apply_contribution p nv pv tc = Ok (c, nv1, pv1, tc1) ->
  c = Trajectory.monthly_contribution p /\ pv1 = pv + c /\ tc1 = tc + c.
Proof.
  intros H. apply apply_contribution_inv in H. unfold Trajectory.monthly_contribution.
  destruct H as [[-> [_ [-> [-> [Hoff | Hzero]]]]] | [Hon [-> [_ [-> [-> _]]]]]].
  - rewrite Hoff. repeat split; lra.
  - rewrite Hzero. destruct (contribution_enabled p); repeat split; lra.
  - rewrite Hon. repeat split; lra.
Qed.

(** What one month writes into the books. *)
Lemma month_body_books (month : nat) (st : Locals) (r : loop_exit) :
  month_body p rows month st = Ok r ->
  match r with
  | Next st' =>
      exists row,
        history st' = history st ++ [row]
        /\ History.month row = (month + 1)%nat
        /\ History.withdrawal row
           = total_monthly_withdrawal p month (adjust_withdrawal p month (withdrawal st))
        /\ History.contribution row = Trajectory.monthly_contribution p
        /\ History.portfolio_value row = portfolio_value st'
        /\ History.total_withdrawals row = total_withdrawals st'
        /\ total_withdrawals st' = total_withdrawals st + History.withdrawal row
        /\ total_contributions st' = total_contributions st + History.contribution row
        /\ months_survived st' = months_survived st
        /\ current_date st' = (current_date st + timedelta_days 30)%Z
        /\ portfolio_value st'
           = sum (values (apply_returns (asset_values st) (nth month rows [])))
             + History.contribution row - History.withdrawal row
             - (total_rebalance_costs st' - total_rebalance_costs st)
  | Break st' =>
      months_survived st' = month
      /\ history st' = history st
      /\ portfolio_value st' = 0
      /\ total_withdrawals st' = total_withdrawals st
      /\ total_contributions st'
         = total_contributions st + Trajectory.monthly_contribution p
      /\ current_date st' = current_date st
  end.
Proof.
  intros H. open_month_body H;
    destruct (apply_contribution_books _ _ _ _ _ _ _ Hcontribution) as [Hc [Hpv Htc]];
    simpl.
  - rewrite rebalance_closed_form in Hrebalance. injection Hrebalance as _ <-.
    eexists. split; [reflexivity |]. simpl. rewrite Hpv, Htc, <- Hc.
    repeat split; try reflexivity; lra.
  - eexists. split; [reflexivity |]. simpl. rewrite Hpv, Htc, <- Hc.
    repeat split; try reflexivity; lra.
  - rewrite Htc, <- Hc. repeat split; reflexivity.
Qed.

Lemma map_snoc {A B : Type} (f : A -> B) (xs : list A) (x : A) :
  map f (xs ++ [x]) = map f xs ++ [f x].
Proof. rewrite map_app. reflexivity. Qed.

Lemma sum_snoc (xs : list R) (x : R) : sum (xs ++ [x]) = sum xs + x.
Proof.
  unfold sum. rewrite fold_left_app. simpl. reflexivity.
Qed.

(** The books are kept by the loop. *)
Lemma months_loop_books (n len : nat) :
  forall (m : nat) (st : Locals) (r : loop_exit),
    Trajectory.recorded n m st ->
    months_loop p rows (seq m len) st = Ok r ->
    match r with
    | Next st' => Trajectory.recorded n (m + len) st'
    | Break st' =>
        Trajectory.stopped p st' /\ (m <= months_survived st' < m + len)%nat
    end.
Proof.
  induction len as [| len IH]; intros m st r Hst Hloop; simpl in Hloop.
  - injection Hloop as <-. rewrite Nat.add_0_r. exact Hst.
  - destruct Hst as [Hsurv [Hlabels [Htw [Htc Hdate]]]].
    destruct (month_body p rows m st) as [[st1 | st1] |] eqn:Hbody;
      simpl in Hloop; [| | discriminate].
    + pose proof (month_body_books _ _ _ Hbody) as Hbooks. simpl in Hbooks.
      destruct Hbooks
        as [row [Hhist [Hmonth [_ [_ [_ [_ [Htw1 [Htc1 [Hsurv1 [Hdate1 _]]]]]]]]]]].
      assert (Hst1 : Trajectory.recorded n (S m) st1).
      { unfold Trajectory.recorded. rewrite Hhist, !map_snoc, !sum_snoc.
        rewrite Hmonth, Hlabels, Htw1, Htc1, Hsurv1, Hdate1, Hdate, <- Htw, <- Htc.
        repeat split; try reflexivity; try assumption.
        - rewrite seq_S. f_equal. f_equal. lia.
        - unfold timedelta_days, microseconds_per_day. lia. }
      specialize (IH (S m) st1 r Hst1 Hloop).
      destruct r as [st' | st'].
      * replace (m + S len)%nat with (S m + len)%nat by lia. exact IH.
      * destruct IH as [Hstop Hrange]. split; [exact Hstop | lia].
    + injection Hloop as <-.
      pose proof (month_body_books _ _ _ Hbody) as Hbooks. simpl in Hbooks.
      destruct Hbooks as [Hm [Hhist [Hzero [Htw1 [Htc1 _]]]]].
      split; [| lia]. unfold Trajectory.stopped.
      rewrite Hhist, Hm, Htw1, Htc1, <- Htw, <- Htc.
      repeat split; try reflexivity; assumption.
Qed.

Lemma initial_locals_recorded (strategy : RebalanceStrategy) (n : nat) :
  Trajectory.recorded n 0 (initial_locals p strategy n).
Proof.
  unfold Trajectory.recorded, initial_locals. simpl.
  repeat split; try reflexivity.
Qed.

End Bookkeeping.

(** What [simulate_portfolio_path] returns, in terms of the loop. *)
Lemma simulate_portfolio_path_inv (p : Params) (asset_stats : asset_statistics)
      (strategy strategy' : RebalanceStrategy) (rows : returns_frame)
      (history : list History.row) (metrics : Metrics.t) :
  simulate_portfolio_path p asset_stats strategy rows = Ok (history, metrics, strategy') ->
  exists r,
    months_loop p rows (seq 0 (List.length rows))
                (initial_locals p strategy (List.length rows)) = Ok r
    /\ history = Simulation.history (locals_of r)
    /\ strategy' = rebalance_strategy (locals_of r)
    /\ Metrics.months_survived metrics = months_survived (locals_of r)
    /\ Metrics.survived_full_period metrics
       = (months_survived (locals_of r) =? List.length rows)%nat
    /\ Metrics.final_value metrics = portfolio_value (locals_of r)
    /\ Metrics.total_withdrawals metrics = total_withdrawals (locals_of r)
    /\ Metrics.total_contributions metrics = total_contributions (locals_of r)
    /\ Metrics.total_rebalance_costs metrics = total_rebalance_costs (locals_of r)
    /\ Metrics.net_flow metrics
       = total_contributions (locals_of r) - total_withdrawals (locals_of r).
Proof.
  unfold simulate_portfolio_path, run_months. intros H.
  destruct (months_loop p rows _ _) as [r |] eqn:Hloop; simpl in H; [| discriminate].
  unfold final_metrics in H.
  destruct (if gt (initial_capital p) 0 then _ else _) as [total_return |];
    simpl in H; [| discriminate].
  injection H as <- <- <-. exists r. simpl. repeat split; reflexivity.
Qed.

(** X4.  In every run of [simulate_portfolio_path] that returns, the history
    has one row per month survived, labelled 1, 2, ... in order;
    months_survived never exceeds the number of months of the returns frame;
    survived_full_period is true exactly when the history has a row for every
    month; and a trajectory that did not survive ends with final_value 0. *)
Theorem history_matches_months_survived
        (p : Params) (asset_stats : asset_statistics)
        (strategy strategy' : RebalanceStrategy) (rows : returns_frame)
        (history : list History.row) (metrics : Metrics.t) :
  simulate_portfolio_path p asset_stats strategy rows = Ok (history, metrics, strategy') ->
  List.length history = Metrics.months_survived metrics
  /\ map History.month history = seq 1 (Metrics.months_survived metrics)
  /\ (Metrics.months_survived metrics <= List.length rows)%nat
  /\ (Metrics.survived_full_period metrics = true
      <-> List.length history = List.length rows)
  /\ (Metrics.survived_full_period metrics = false -> Metrics.final_value metrics = 0).
Proof.
  intros H. apply simulate_portfolio_path_inv in H.
  destruct H as [r [Hloop [-> [_ [Hsurv [Hfull [Hfinal _]]]]]]].
  pose proof (months_loop_books p rows (List.length rows) (List.length rows) 0
                (initial_locals p strategy (List.length rows)) r
                (initial_locals_recorded p strategy _) Hloop) as Hbooks.
  rewrite Hsurv, Hfull, Hfinal.
  destruct r as [st | st]; simpl in *.
  - destruct Hbooks as [Hn [Hlabels _]].
    assert (Hlen : List.length (Simulation.history st) = List.length rows).
    { rewrite <- (length_map History.month), Hlabels, length_seq. reflexivity. }
    rewrite Hn, Hlen, Nat.eqb_refl.
    repeat split; try reflexivity; try assumption; try lia; try discriminate.
  - destruct Hbooks as [[Hlabels [_ [_ Hzero]]] Hrange].
    assert (Hlen : List.length (Simulation.history st) = months_survived st).
    { rewrite <- (length_map History.month), Hlabels, length_seq. reflexivity. }
    rewrite Hlen.
    assert (Hne : (months_survived st =? List.length rows)%nat = false)
      by (apply Nat.eqb_neq; lia).
    rewrite Hne. repeat split; try assumption; try lia; try discriminate.
    intros _. exact Hzero.
Qed.

(** The ruin scenario as a run of [simulate_portfolio_path]. *)
Lemma ruin_scenario_path (last : option datetime) (kind : variant)
      (asset_stats : asset_statistics) :
  exists history metrics strategy',
    simulate_portfolio_path Fixtures.ruin_params asset_stats
                            (mkRebalanceStrategy Fixtures.stocks_bonds 0 last kind)
                            (Fixtures.zero_returns 60)
    = Ok (history, metrics, strategy').
Proof.
  destruct (ruin_scenario_run last kind) as [st [Hrun _]].
  destruct (final_metrics_ok Fixtures.ruin_params 60 st) as [metrics [Hmetrics _]].
  exists (Simulation.history st), metrics, (rebalance_strategy st).
  unfold simulate_portfolio_path.
  replace (List.length (Fixtures.zero_returns 60)) with 60%nat by reflexivity.
  rewrite Hrun. simpl. rewrite Hmetrics. reflexivity.
Qed.

Lemma history_matches_months_survived_witness :
  exists history metrics strategy',
    simulate_portfolio_path Fixtures.ruin_params Fixtures.flat_stats
                            (mkRebalanceStrategy Fixtures.stocks_bonds 0 None
                                                 (TimeBased "annual"))
                            (Fixtures.zero_returns 60)
    = Ok (history, metrics, strategy')
    /\ List.length history = Metrics.months_survived metrics.
Proof.
  destruct (ruin_scenario_path None (TimeBased "annual") Fixtures.flat_stats)
    as [history [metrics [strategy' Hpath]]].
  exists history, metrics, strategy'. split; [exact Hpath |].
  apply (history_matches_months_survived _ _ _ _ _ _ _ Hpath).
Defined.

(** X5.  In every run that returns, total_withdrawals is the sum of the
    history's withdrawal column and net_flow is total_contributions minus
    that sum.  total_contributions is the sum of the contribution column when
    the trajectory survived; when it did not, it is that sum plus one more
    monthly contribution, booked in the month of the ruin, which has no
    row. *)
Theorem totals_match_history
        (p : Params) (asset_stats : asset_statistics)
        (strategy strategy' : RebalanceStrategy) (rows : returns_frame)
        (history : list History.row) (metrics : Metrics.t) :
  simulate_portfolio_path p asset_stats strategy rows = Ok (history, metrics, strategy') ->
  Metrics.total_withdrawals metrics = sum (map History.withdrawal history)
  /\ Metrics.net_flow metrics
     = Metrics.total_contributions metrics - sum (map History.withdrawal history)
  /\ (Metrics.survived_full_period metrics = true ->
      Metrics.total_contributions metrics = sum (map History.contribution history))
  /\ (Metrics.survived_full_period metrics = false ->
      Metrics.total_contributions metrics
      = sum (map History.contribution history) + Trajectory.monthly_contribution p)
  /\ Forall (fun row => History.contribution row = Trajectory.monthly_contribution p)
            history.
Proof.
  intros H. apply simulate_portfolio_path_inv in H.
  destruct H as [r [Hloop [-> [_ [_ [Hfull [_ [Htw [Htc [_ Hnet]]]]]]]]]].
  pose proof (months_loop_books p rows (List.length rows) (List.length rows) 0
                (initial_locals p strategy (List.length rows)) r
                (initial_locals_recorded p strategy _) Hloop) as Hbooks.
  assert (Hrows : Forall (fun row => History.contribution row
                                     = Trajectory.monthly_contribution p)
                         (Simulation.history (locals_of r))).
  { clear - Hloop.
    assert (Hgen : forall months st r,
               Forall (fun row => History.contribution row
                                  = Trajectory.monthly_contribution p)
                      (Simulation.history st) ->
               months_loop p rows months st = Ok r ->
               Forall (fun row => History.contribution row
                                  = Trajectory.monthly_contribution p)
                      (Simulation.history (locals_of r))).
    { induction months as [| month months IH]; intros st r0 Hst H0; simpl in H0.
      - injection H0 as <-. exact Hst.
      - destruct (month_body p rows month st) as [[st1 | st1] |] eqn:Hbody;
          simpl in H0; [| | discriminate].
        + apply (IH st1 r0); [| exact H0].
          pose proof (month_body_books _ _ _ _ _ Hbody) as Hb. simpl in Hb.
          destruct Hb as [row [Hhist [_ [_ [Hc _]]]]].
          rewrite Hhist. apply Forall_app. split; [exact Hst |].
          constructor; [exact Hc | constructor].
        + injection H0 as <-.
          pose proof (month_body_books _ _ _ _ _ Hbody) as Hb. simpl in Hb.
          destruct Hb as [_ [Hhist _]]. simpl. rewrite Hhist. exact Hst. }
    apply (Hgen _ (initial_locals p strategy (List.length rows)) _
                (Forall_nil _) Hloop). }
  rewrite Hfull, Htw, Htc, Hnet.
  destruct r as [st | st]; simpl in *.
  - destruct Hbooks as [Hn [_ [Hw [Hc _]]]]. rewrite Hn, Nat.eqb_refl, <- Hw.
    repeat split; try assumption; try reflexivity; try discriminate;
      try (intros _; assumption).
  - destruct Hbooks as [[_ [Hw [Hc _]]] Hrange].
    assert (Hne : (months_survived st =? List.length rows)%nat = false)
      by (apply Nat.eqb_neq; lia).
    rewrite Hne, <- Hw. repeat split; try assumption; try reflexivity; try discriminate;
      try (intros _; assumption).
Qed.

Lemma totals_match_history_witness :
  exists history metrics strategy',
    simulate_portfolio_path Fixtures.ruin_params Fixtures.flat_stats
                            (mkRebalanceStrategy Fixtures.stocks_bonds 0 None
                                                 (TimeBased "annual"))
                            (Fixtures.zero_returns 60)
    = Ok (history, metrics, strategy')
    /\ Metrics.total_withdrawals metrics = sum (map History.withdrawal history).
Proof.
  destruct (ruin_scenario_path None (TimeBased "annual") Fixtures.flat_stats)
    as [history [metrics [strategy' Hpath]]].
  exists history, metrics, strategy'. split; [exact Hpath |].
  apply (totals_match_history _ _ _ _ _ _ _ Hpath).
Defined.

(** X6.  A month that runs to its end changes the portfolio value, counted
    from the total of the per-asset values after the month's returns, by
    exactly what it books: plus the contribution, minus the withdrawal, minus
    the rebalance cost. *)
Theorem month_accounts_balance (p : Params) (rows : returns_frame) (month : nat)
        (st st' : Locals) :
  month_body p rows month st = Ok (Next st') ->
  portfolio_value st'
  = sum (values (apply_returns (asset_values st) (nth month rows [])))
    + (total_contributions st' - total_contributions st)
    - (total_withdrawals st' - total_withdrawals st)
    - (total_rebalance_costs st' - total_rebalance_costs st).
Proof.
  intros H. pose proof (month_body_books _ _ _ _ _ H) as Hbooks. simpl in Hbooks.
  destruct Hbooks as [row [_ [_ [_ [_ [_ [_ [Htw [Htc [_ [_ Hpv]]]]]]]]]]].
  rewrite Hpv, Htw, Htc. lra.
Qed.

Lemma month_accounts_balance_witness :
  exists st',
    month_body Fixtures.ruin_params (Fixtures.zero_returns 60) 0
               (initial_locals Fixtures.ruin_params Fixtures.test_strategy 60)
    = Ok (Next st')
    /\ portfolio_value st'
       = sum (values (apply_returns
                        (asset_values
                           (initial_locals Fixtures.ruin_params Fixtures.test_strategy 60))
                        (nth 0 (Fixtures.zero_returns 60) [])))
         + (total_contributions st' - 0) - (total_withdrawals st' - 0)
         - (total_rebalance_costs st' - 0).
Proof.
  set (st := initial_locals Fixtures.ruin_params Fixtures.test_strategy 60).
  assert (Hreturns : sum (values (apply_returns (asset_values st)
                                    (nth 0 (Fixtures.zero_returns 60) [])))
                     = 100000).
  { rewrite apply_returns_zero by apply zero_returns_all_zero.
    unfold sum. simpl. lra. }
  destruct (month_body_progress Fixtures.ruin_params (Fixtures.zero_returns 60) 0 st
              (apply_returns (asset_values st) (nth 0 (Fixtures.zero_returns 60) []))
              0 (sum (values (apply_returns (asset_values st)
                                (nth 0 (Fixtures.zero_returns 60) []))))
              (total_contributions st))
    as [st' [Hbody _]].
  - reflexivity.
  - rewrite Hreturns. unfold adjust_withdrawal, total_monthly_withdrawal. simpl. lra.
  - rewrite Hreturns. lra.
  - exists st'. split; [exact Hbody |].
    apply (month_accounts_balance _ _ _ _ _ Hbody).
Defined.

(** ** Drawing down a portfolio that earns nothing *)

Section Drawdown.

Variable p : Params.
Variable rows : returns_frame.
Hypothesis Hcontribution : contribution_enabled p = false.
Hypothesis Hinflation : apply_inflation p = false.
Hypothesis Hextra : thirteenth_payment_enabled p = false.
Hypothesis Hflat : forall i, Spec.all_zero (nth i rows []).







End Drawdown.




(** ** The calendar of a time-based strategy *)

Section Cadence.

Lemma cadence_bounds (frequency : string) :
  let days := frequency_days_get frequency_days frequency 365 in
  let steps := Trajectory.cadence frequency in
  (1 <= steps /\ 30 * (steps - 1) < days <= 30 * steps)%Z.
Proof.
  unfold Trajectory.cadence. simpl.
  destruct (String.eqb frequency "monthly"); [vm_compute; intuition discriminate |].
  destruct (String.eqb frequency "quarterly"); [vm_compute; intuition discriminate |].
  destruct (String.eqb frequency "annual"); vm_compute; intuition discriminate.
Qed.

Lemma days_between_steps (a b : Z) :
  days_between (datetime_2025_1_1 + timedelta_days a)%Z
               (datetime_2025_1_1 + timedelta_days b)%Z = (a - b)%Z.
Proof.
  unfold days_between, timedelta_days.
  replace (datetime_2025_1_1 + a * microseconds_per_day
           - (datetime_2025_1_1 + b * microseconds_per_day))%Z
    with ((a - b) * microseconds_per_day)%Z by ring.
  apply Z.div_mul. unfold microseconds_per_day. lia.
Qed.

(** The check of month [k] (counted from 0) on a strategy whose reference
    date is the one [k] months leave. *)
Lemma check_on_schedule (self : RebalanceStrategy) (frequency : string) (k : nat)
      (current_allocation : dict) (portfolio_value : R) :
  kind self = TimeBased frequency ->
  last_rebalance_date self = Trajectory.reference_after frequency k ->
  last_rebalance_date
    (snd (should_rebalance self current_allocation
                           (datetime_2025_1_1 + timedelta_days (30 * Z.of_nat k))%Z
                           portfolio_value))
  = Trajectory.reference_after frequency (S k).
Proof.
  intros Hkind Hlast. unfold should_rebalance. rewrite Hkind.
  unfold TimeBased_should_rebalance. rewrite Hlast.
  destruct (cadence_bounds frequency) as [HN [Hlo Hhi]].
  set (N := Trajectory.cadence frequency) in *.
  set (D := frequency_days_get frequency_days frequency 365) in *.
  destruct k as [| j]; cbv beta iota delta [Trajectory.reference_after]; fold N.
  - cbn [snd last_rebalance_date set_last_rebalance_date]. f_equal.
    change (Z.of_nat 0) with 0%Z. rewrite Z.div_0_l by lia.
    unfold timedelta_days. lia.
  - rewrite days_between_steps.
    pose proof (Z.div_mod (Z.of_nat j) N ltac:(lia)) as Hdm.
    pose proof (Z.mod_pos_bound (Z.of_nat j) N ltac:(lia)) as Hmod.
    set (q := (Z.of_nat j / N)%Z) in *.
    set (r := (Z.of_nat j mod N)%Z) in *.
    assert (HS : Z.of_nat (S j) = (N * q + (r + 1))%Z) by lia.
    destruct (Z.geb_spec (30 * Z.of_nat (S j) - 30 * (N * q)) D) as [Hge | Hlt];
      cbn [snd last_rebalance_date set_last_rebalance_date].
    + assert (Hr : (r + 1 = N)%Z) by lia.
      assert (Hq : (Z.of_nat (S j) / N = q + 1)%Z).
      { symmetry. apply (Z.div_unique _ _ _ 0); lia. }
      rewrite Hq. f_equal. unfold timedelta_days. lia.
    + rewrite Hlast. cbv beta iota delta [Trajectory.reference_after]. fold N q.
      assert (Hq : (Z.of_nat (S j) / N = q)%Z).
      { symmetry. apply (Z.div_unique _ _ _ (r + 1)); lia. }
      rewrite Hq. reflexivity.
Qed.

Variable p : Params.
Variable rows : returns_frame.
Variable frequency : string.

Lemma months_loop_schedule (n len : nat) :
  forall (m : nat) (st : Locals) (r : loop_exit),
    Trajectory.recorded n m st ->
    kind (rebalance_strategy st) = TimeBased frequency ->
    last_rebalance_date (rebalance_strategy st) = Trajectory.reference_after frequency m ->
    months_loop p rows (seq m len) st = Ok r ->
    last_rebalance_date (rebalance_strategy (locals_of r))
    = Trajectory.reference_after
        frequency
        (match r with Next _ => m + len | Break st' => months_survived st' end).
Proof.
  induction len as [| len IH]; intros m st r Hrec Hkind Hlast Hloop; simpl in Hloop.
  - injection Hloop as <-. simpl. rewrite Nat.add_0_r. exact Hlast.
  - destruct (month_body p rows m st) as [[st1 | st1] |] eqn:Hbody;
      simpl in Hloop; [| | discriminate].
    + pose proof (months_loop_books p rows n 1 m st (Next st1) Hrec) as Hrec1.
      simpl in Hrec1. rewrite Hbody in Hrec1. specialize (Hrec1 eq_refl).
      replace (m + 1)%nat with (S m) in Hrec1 by lia.
      pose proof (month_body_strategy _ _ _ _ _ Hbody) as [alloc [pv Hs]].
      destruct Hrec as [_ [_ [_ [_ Hdate]]]].
      assert (Hlast1 : last_rebalance_date (rebalance_strategy st1)
                       = Trajectory.reference_after frequency (S m)).
      { rewrite Hs, Hdate. apply check_on_schedule; assumption. }
      assert (Hkind1 : kind (rebalance_strategy st1) = TimeBased frequency).
      { rewrite Hs.
        destruct (should_rebalance_keeps_configuration
                    (rebalance_strategy st) alloc (current_date st) pv)
          as [_ [_ Hk]].
        simpl in Hk. rewrite Hk. exact Hkind. }
      specialize (IH (S m) st1 r Hrec1 Hkind1 Hlast1 Hloop).
      destruct r; [replace (m + S len)%nat with (S m + len)%nat by lia |]; exact IH.
    + injection Hloop as <-. simpl.
      pose proof (month_body_strategy _ _ _ _ _ Hbody) as Hs. simpl in Hs.
      destruct (month_body_break _ _ _ _ _ Hbody) as [Hm _].
      rewrite Hs, Hm. exact Hlast.
Qed.

End Cadence.

(** X8.  The simulator steps its calendar by 30 days, so a newly built
    time-based strategy rebalances in the first month and then every 1, 3 or
    13 months for monthly, quarterly and annual (13 steps of 30 days are the
    first to reach 365 days; any other frequency counts as annual).  After a
    run that returns, the strategy's reference date is unset if no month was
    survived, and otherwise is the date of the last survived month whose
    number, counted from 0, is a multiple of that cadence. *)
Theorem time_based_cadence
        (p : Params) (asset_stats : asset_statistics) (target : dict)
        (frequency : string) (cost : R) (strategy' : RebalanceStrategy)
        (rows : returns_frame) (history : list History.row) (metrics : Metrics.t) :
  simulate_portfolio_path p asset_stats (TimeBasedRebalance target frequency cost) rows
  = Ok (history, metrics, strategy') ->
  last_rebalance_date strategy'
  = Trajectory.reference_after frequency (Metrics.months_survived metrics)
  /\ Trajectory.cadence "monthly" = 1%Z
  /\ Trajectory.cadence "quarterly" = 3%Z
  /\ Trajectory.cadence "annual" = 13%Z
  /\ (frequency <> "monthly"%string -> frequency <> "quarterly"%string ->
      Trajectory.cadence frequency = 13%Z).
Proof.
  intros H. apply simulate_portfolio_path_inv in H.
  destruct H as [r [Hloop [_ [-> [Hsurv _]]]]].
  split; [| repeat split; try reflexivity].
  - rewrite Hsurv.
    pose proof (months_loop_schedule
                  p rows frequency (List.length rows) (List.length rows) 0
                  (initial_locals p (TimeBasedRebalance target frequency cost)
                                  (List.length rows))
                  r (initial_locals_recorded p _ _) eq_refl eq_refl Hloop) as Hsched.
    rewrite Hsched.
    pose proof (months_loop_books p rows (List.length rows) (List.length rows) 0
                  _ r (initial_locals_recorded p _ _) Hloop) as Hbooks.
    destruct r as [st | st]; simpl in *; [| reflexivity].
    destruct Hbooks as [Hn _]. rewrite Hn. reflexivity.
  - intros Hm Hq. unfold Trajectory.cadence. simpl.
    apply String.eqb_neq in Hm, Hq. rewrite Hm, Hq.
    destruct (String.eqb frequency "annual"); reflexivity.
Qed.

Lemma time_based_cadence_witness :
  exists history metrics strategy',
    simulate_portfolio_path Fixtures.ruin_params Fixtures.flat_stats
                            (TimeBasedRebalance Fixtures.stocks_bonds "annual" 0)
                            (Fixtures.zero_returns 60)
    = Ok (history, metrics, strategy')
    /\ last_rebalance_date strategy'
       = Trajectory.reference_after "annual" (Metrics.months_survived metrics).
Proof.
  destruct (ruin_scenario_path None (TimeBased "annual") Fixtures.flat_stats)
    as [history [metrics [strategy' Hpath]]].
  exists history, metrics, strategy'. split; [exact Hpath |].
  apply (time_based_cadence _ _ _ _ _ _ _ _ _ Hpath).
Defined.

(** ** Sampled returns *)

Section SampledReturns.

Variable rng : Type.
Variable seeded : Z -> rng.
Variable normal : R -> R -> nat -> rng -> list R * rng.

Lemma np_random_seed_range (seed : Z) :
  (Tables.seed_in_range seed -> np_random_seed rng seeded seed = Ok (seeded seed))
  /\ (~ Tables.seed_in_range seed -> np_random_seed rng seeded seed = Raise SeedOutOfRange).
Proof.
  unfold np_random_seed, Tables.seed_in_range.
  destruct (Z.leb_spec 0 seed); destruct (Z.ltb_spec seed (2 ^ 32)); simpl;
    split; intros; try reflexivity; lia.
Qed.

Lemma frame_of_columns_shape (columns : list (string * list R)) (n_rows : nat) :
  List.length (frame_of_columns columns n_rows)
  = match columns with [] => 0%nat | _ :: _ => n_rows end
  /\ Forall (fun row => keys row = map fst columns) (frame_of_columns columns n_rows).
Proof.
  unfold frame_of_columns. destruct columns as [| column columns].
  - split; [reflexivity | constructor].
  - split; [rewrite length_map, length_seq; reflexivity |].
    apply Forall_forall. intros row Hin. apply in_map_iff in Hin.
    destruct Hin as [i [<- _]]. unfold keys. rewrite map_map.
    apply map_ext. intros [asset column']. reflexivity.
Qed.

(** The columns the loop has drawn when it ends: one more per asset, in
    order. *)
Lemma draw_columns_keys (n_months : nat) (assets : asset_statistics) :
  forall (columns columns' : list (string * list R)) (g g' : rng),
    draw_columns rng normal n_months assets columns g = Ok (columns', g') ->
    map fst columns' = map fst columns ++ map fst assets.
Proof.
  induction assets as [| [asset stat] assets IH]; intros columns columns' g g' H.
  - simpl in H. injection H as <- <-. simpl. rewrite app_nil_r. reflexivity.
  - cbn [draw_columns] in H.
    destruct (if String.eqb asset "cash" then _ else _) as [mean_annual std_annual].
    destruct (np_random_normal rng normal _ _ n_months g) as [[log_returns g1] |];
      simpl in H; [| discriminate].
    apply IH in H. rewrite H, map_app, <- app_assoc. reflexivity.
Qed.

(** The loop ends when every deviation but that of cash is accepted. *)
Lemma draw_columns_ok (n_months : nat) (assets : asset_statistics) :
  Tables.scales_accepted assets ->
  forall (columns : list (string * list R)) (g : rng),
  exists columns' g',
    draw_columns rng normal n_months assets columns g = Ok (columns', g').
Proof.
  induction 1 as [| [asset stat] assets Hscale _ IH]; intros columns g.
  - exists columns, g. reflexivity.
  - cbn [draw_columns]. simpl in Hscale.
    destruct (String.eqb_spec asset "cash") as [Hcash | Hcash].
    + rewrite np_random_normal_ok by (apply monthly_scale_sign; lra).
      destruct (normal _ _ n_months g) as [log_returns g1]. simpl. apply IH.
    + rewrite np_random_normal_ok by (apply monthly_scale_sign; auto).
      destruct (normal _ _ n_months g) as [log_returns g1]. simpl. apply IH.
Qed.

(** The loop stops at the first deviation below zero. *)
Lemma draw_columns_refused (n_months : nat) (assets : asset_statistics) :
  (exists asset stat,
      In (asset, stat) assets /\ asset <> "cash"%string /\ std_dev stat < 0) ->
  forall (columns : list (string * list R)) (g : rng),
    draw_columns rng normal n_months assets columns g = Raise NegativeScale.
Proof.
  induction assets as [| [asset stat] assets IH]; intros [a [st [Hin [Hcash Hneg]]]].
  - destruct Hin.
  - intros columns g. cbn [draw_columns].
    destruct (String.eqb_spec asset "cash") as [Hthis | Hthis].
    + rewrite np_random_normal_ok by (apply monthly_scale_sign; lra).
      destruct (normal _ _ n_months g) as [log_returns g1]. simpl.
      apply IH. destruct Hin as [Heq | Hin].
      * injection Heq as -> ->. contradiction.
      * exists a, st. auto.
    + destruct (Rlt_dec (std_dev stat) 0) as [Hbad | Hgood].
      * rewrite np_random_normal_refused by (apply monthly_scale_sign; exact Hbad).
        reflexivity.
      * rewrite np_random_normal_ok by (apply monthly_scale_sign; lra).
        destruct (normal _ _ n_months g) as [log_returns g1]. simpl.
        apply IH. destruct Hin as [Heq | Hin].
        -- injection Heq as -> ->. contradiction.
        -- exists a, st. auto.
Qed.

(** The columns [generate_monthly_returns] draws, one per entry of
    [asset_stats], in order. *)
Lemma generated_columns_inv (asset_stats : asset_statistics) (n_months : nat)
      (random_seed : option Z) (g g' : rng) (rows : returns_frame) :
  generate_monthly_returns rng seeded normal asset_stats n_months random_seed g
  = Ok (rows, g') ->
  exists columns,
    rows = frame_of_columns columns n_months
    /\ map fst columns = map fst asset_stats.
Proof.
  unfold generate_monthly_returns. intros H.
  destruct (match random_seed with Some seed => _ | None => _ end) as [g0 |];
    simpl in H; [| discriminate].
  destruct (draw_columns rng normal n_months asset_stats [] g0)
    as [[columns g1] |] eqn:Hdraw; simpl in H; [| discriminate].
  injection H as <- <-. exists columns. split; [reflexivity |].
  apply draw_columns_keys in Hdraw. exact Hdraw.
Qed.

Lemma generated_columns (asset_stats : asset_statistics) (n_months : nat)
      (random_seed : option Z) (g : rng) :
  (forall seed, random_seed = Some seed -> Tables.seed_in_range seed) ->
  Tables.scales_accepted asset_stats ->
  exists columns g',
    generate_monthly_returns rng seeded normal asset_stats n_months random_seed g
    = Ok (frame_of_columns columns n_months, g')
    /\ map fst columns = map fst asset_stats.
Proof.
  intros Hrange Hscales.
  assert (Hseed : exists g0,
             match random_seed with
             | Some seed => np_random_seed rng seeded seed
             | None => Ok g
             end = Ok g0).
  { destruct random_seed as [seed |]; [| exists g; reflexivity].
    exists (seeded seed). apply np_random_seed_range. apply Hrange. reflexivity. }
  destruct Hseed as [g0 Hseed].
  destruct (draw_columns_ok n_months asset_stats Hscales [] g0)
    as [columns [g' Hdraw]].
  exists columns, g'. split.
  - unfold generate_monthly_returns. rewrite Hseed. simpl. rewrite Hdraw. reflexivity.
  - apply draw_columns_keys in Hdraw. exact Hdraw.
Qed.

End SampledReturns.

(** X9.  With a seed [np.random.seed] accepts, or none, and no deviation
    below zero among the assets other than cash, [generate_monthly_returns]
    returns a frame of n_months rows, each with one entry per asset of
    asset_stats, in the order of asset_stats; without any asset the frame has
    no row at all, whatever n_months.  A seed outside 0 .. 2**32 - 1 is an
    error, and so is, with an accepted seed, a deviation below zero of an
    asset other than cash. *)
Theorem generated_frame_shape (rng : Type) (seeded : Z -> rng)
        (normal : R -> R -> nat -> rng -> list R * rng)
        (asset_stats : asset_statistics) (n_months : nat)
        (random_seed : option Z) (g : rng) :
  ((forall seed, random_seed = Some seed -> Tables.seed_in_range seed) ->
   Tables.scales_accepted asset_stats ->
   exists frame g',
     generate_monthly_returns rng seeded normal asset_stats n_months random_seed g
     = Ok (frame, g')
     /\ List.length frame = match asset_stats with [] => 0%nat | _ :: _ => n_months end
     /\ Forall (fun row => keys row = map fst asset_stats) frame)
  /\ (forall seed,
         random_seed = Some seed ->
         ~ Tables.seed_in_range seed ->
         generate_monthly_returns rng seeded normal asset_stats n_months random_seed g
         = Raise SeedOutOfRange)
  /\ ((forall seed, random_seed = Some seed -> Tables.seed_in_range seed) ->
      (exists asset stat,
          In (asset, stat) asset_stats /\ asset <> "cash"%string /\ std_dev stat < 0) ->
      generate_monthly_returns rng seeded normal asset_stats n_months random_seed g
      = Raise NegativeScale).
Proof.
  split; [| split].
  - intros Hrange Hscales.
    destruct (generated_columns rng seeded normal asset_stats n_months random_seed g
                                Hrange Hscales) as [columns [g' [Hgen Hkeys]]].
    exists (frame_of_columns columns n_months), g'. split; [exact Hgen |].
    destruct (frame_of_columns_shape columns n_months) as [Hlen Hrows].
    rewrite <- Hkeys. split; [| exact Hrows].
    rewrite Hlen. destruct columns, asset_stats; try reflexivity; discriminate.
  - intros seed -> Hout. unfold generate_monthly_returns.
    rewrite (proj2 (np_random_seed_range rng seeded seed) Hout). reflexivity.
  - intros Hrange Hbad. unfold generate_monthly_returns.
    assert (Hseed : exists g0,
               match random_seed with
               | Some seed => np_random_seed rng seeded seed
               | None => Ok g
               end = Ok g0).
    { destruct random_seed as [seed |]; [| exists g; reflexivity].
      exists (seeded seed). apply np_random_seed_range. apply Hrange. reflexivity. }
    destruct Hseed as [g0 ->]. simpl.
    rewrite (draw_columns_refused rng normal n_months asset_stats Hbad). reflexivity.
Qed.

(** X10.  The statistics supplied for cash are never read: two statistics
    tables that list the same assets and differ in the entry of cash only
    give the same returns, drawn for cash with an annual mean of 2% and an
    annual deviation of 0.1%. *)
Theorem cash_statistics_are_ignored (rng : Type) (seeded : Z -> rng)
        (normal : R -> R -> nat -> rng -> list R * rng)
        (stats1 stats2 : asset_statistics) (n_months : nat)
        (random_seed : option Z) (g : rng) :
  Tables.same_but_cash stats1 stats2 ->
  generate_monthly_returns rng seeded normal stats1 n_months random_seed g
  = generate_monthly_returns rng seeded normal stats2 n_months random_seed g
  /\ (forall stat : AssetStat,
         generate_monthly_returns rng seeded normal [("cash"%string, stat)] n_months
                                  None g
         = Ok (frame_of_columns
                 [("cash"%string,
                   fst (normal (0.02 / 12) (0.001 / sqrt 12) n_months g))]
                 n_months,
               snd (normal (0.02 / 12) (0.001 / sqrt 12) n_months g))).
Proof.
  intros Hsame. split.
  - unfold generate_monthly_returns.
    destruct (match random_seed with Some seed => _ | None => _ end) as [g0 |];
      simpl; [| reflexivity].
    assert (Hdraw : forall columns g1,
               draw_columns rng normal n_months stats1 columns g1
               = draw_columns rng normal n_months stats2 columns g1).
    { induction Hsame as [| [a1 s1] [a2 s2] stats1 stats2 [Hname Hstat] Hrest IH];
        intros columns g1; [reflexivity |].
      simpl in Hname, Hstat. subst a2. cbn [draw_columns].
      destruct (String.eqb a1 "cash") eqn:Hcash.
      - destruct (np_random_normal rng normal _ _ n_months g1) as [[draws g2] |];
          simpl; [apply IH | reflexivity].
      - apply String.eqb_neq in Hcash. rewrite (Hstat Hcash).
        destruct (np_random_normal rng normal _ _ n_months g1) as [[draws g2] |];
          simpl; [apply IH | reflexivity]. }
    rewrite Hdraw. reflexivity.
  - intros stat. unfold generate_monthly_returns.
    cbn [bind draw_columns String.eqb Ascii.eqb Bool.eqb app].
    rewrite np_random_normal_ok by (apply monthly_scale_sign; lra).
    destruct (normal (0.02 / 12) (0.001 / sqrt 12) n_months g) as [draws g']. reflexivity.
Qed.

Lemma cash_statistics_are_ignored_witness :
  generate_monthly_returns unit (fun _ => tt) Fixtures.mean_draws
                           [("cash"%string, mkAssetStat 0.5 0.5)] 12 None tt
  = generate_monthly_returns unit (fun _ => tt) Fixtures.mean_draws
                             [("cash"%string, mkAssetStat 0 0)] 12 None tt.
Proof.
  apply (cash_statistics_are_ignored unit (fun _ => tt) Fixtures.mean_draws
           [("cash"%string, mkAssetStat 0.5 0.5)] [("cash"%string, mkAssetStat 0 0)]
           12 None tt).
  constructor; [| constructor]. simpl. split; [reflexivity |].
  intros H. exfalso. apply H. reflexivity.
Defined.

(** ** The tables of a batch *)

Lemma path_history_length (p : Params) (asset_stats : asset_statistics)
      (strategy strategy' : RebalanceStrategy) (rows : returns_frame)
      (history : list History.row) (metrics : Metrics.t) :
  simulate_portfolio_path p asset_stats strategy rows = Ok (history, metrics, strategy') ->
  List.length history = Metrics.months_survived metrics.
Proof.
  intros H. apply simulate_portfolio_path_inv in H.
  destruct H as [r [Hloop [-> [_ [Hsurv _]]]]]. rewrite Hsurv.
  pose proof (months_loop_books p rows (List.length rows) (List.length rows) 0
                (initial_locals p strategy (List.length rows)) r
                (initial_locals_recorded p strategy _) Hloop) as Hbooks.
  destruct r as [st | st]; simpl in *.
  - destruct Hbooks as [Hn [Hlabels _]].
    rewrite <- (length_map History.month), Hlabels, length_seq. symmetry. exact Hn.
  - destruct Hbooks as [[Hlabels _] _].
    rewrite <- (length_map History.month), Hlabels, length_seq. reflexivity.
Qed.

Section BatchTables.

Variable rng : Type.
Variable seeded : Z -> rng.
Variable normal : R -> R -> nat -> rng -> list R * rng.
Variable p : Params.
Variable asset_stats : asset_statistics.
Variable n_months : nat.
Variable random_seed : option Z.

Lemma iteration_body_inv (i : nat) (b b' : Batch rng) :
  iteration_body rng seeded normal p asset_stats n_months random_seed i b = Ok b' ->
  exists rows g' history metrics strategy',
    generate_monthly_returns rng seeded normal asset_stats n_months
                             (iteration_seed random_seed i) (generator b)
    = Ok (rows, g')
    /\ simulate_portfolio_path p asset_stats (strategy_object b) rows
       = Ok (history, metrics, strategy')
    /\ b' = mkBatch (all_histories b ++ [(history, (i + 1)%nat)])
                    (all_metrics b ++ [metrics]) strategy' g'.
Proof.
  unfold iteration_body. intros H.
  destruct (generate_monthly_returns _ _ _ _ _ _ _) as [[rows g'] |] eqn:Hgen;
    simpl in H; [| discriminate].
  destruct (simulate_portfolio_path _ _ _ _) as [[[history metrics] strategy'] |]
    eqn:Hpath; simpl in H; [| discriminate].
  injection H as <-. exists rows, g', history, metrics, strategy'.
  repeat split; [exact Hpath].
Qed.

Lemma iterations_loop_tabled (len : nat) :
  forall (k : nat) (b b' : Batch rng),
    Tables.tabled k b ->
    iterations_loop rng seeded normal p asset_stats n_months random_seed (seq k len) b
    = Ok b' ->
    Tables.tabled (k + len) b'.
Proof.
  induction len as [| len IH]; intros k b b' Hb Hloop; simpl in Hloop.
  - injection Hloop as <-. rewrite Nat.add_0_r. exact Hb.
  - destruct (iteration_body _ _ _ _ _ _ _ k b) as [b1 |] eqn:Hbody;
      simpl in Hloop; [| discriminate].
    replace (k + S len)%nat with (S k + len)%nat by lia.
    apply (IH (S k) b1 b'); [| exact Hloop].
    apply iteration_body_inv in Hbody.
    destruct Hbody as [rows [g' [history [metrics [strategy' [_ [Hpath ->]]]]]]].
    destruct Hb as [Hlen [Hnumbers Hpairs]]. unfold Tables.tabled.
    cbn [all_histories all_metrics].
    rewrite length_app, map_app, Hlen, Hnumbers, seq_S.
    repeat split.
    + simpl. lia.
    + simpl. f_equal. f_equal. lia.
    + apply Forall2_app; [exact Hpairs |].
      constructor; [| constructor]. simpl.
      apply (path_history_length _ _ _ _ _ _ _ Hpath).
Qed.

End BatchTables.

(** X11.  A batch that returns has one metrics row and one history per
    iteration, in the order of the iterations; the history of iteration i
    carries simulation = i + 1 and has as many rows as the trajectory's
    months_survived.  With n_iterations = 0 the batch returns empty tables
    and leaves strategy and generator untouched. *)
Theorem batch_tables_shape (rng : Type) (seeded : Z -> rng)
        (normal : R -> R -> nat -> rng -> list R * rng) (p : Params)
        (asset_stats : asset_statistics) (strategy : RebalanceStrategy)
        (n_months n_iterations : nat) (random_seed : option Z) (g : rng)
        (b : Batch rng) :
  monte_carlo_simulation rng seeded normal p asset_stats strategy n_months
                         n_iterations random_seed g = Ok b ->
  List.length (all_metrics b) = n_iterations
  /\ map snd (all_histories b) = seq 1 n_iterations
  /\ Forall2 (fun history metrics =>
                List.length (fst history) = Metrics.months_survived metrics)
             (all_histories b) (all_metrics b)
  /\ (n_iterations = 0%nat -> b = mkBatch [] [] strategy g).
Proof.
  unfold monte_carlo_simulation, run_iterations. intros H.
  pose proof (iterations_loop_tabled rng seeded normal p (with_cash p asset_stats)
                                     n_months random_seed n_iterations 0
                                     (mkBatch [] [] strategy g) b) as Htabled.
  simpl in Htabled.
  destruct Htabled as [Hlen [Hnumbers Hpairs]]; [| exact H |].
  - unfold Tables.tabled. simpl. repeat split. constructor.
  - repeat split; try assumption.
    intros ->. simpl in H. injection H as <-. reflexivity.
Qed.

Lemma batch_tables_shape_witness :
  exists b,
    monte_carlo_simulation unit (fun _ => tt) Fixtures.mean_draws Fixtures.ruin_params
                           Fixtures.flat_stats
                           (TimeBasedRebalance Fixtures.stocks_bonds "monthly" 0.002)
                           1 1 (Some 42%Z) tt
    = Ok b
    /\ List.length (all_metrics b) = 1%nat.
Proof.
  destruct leak_example_batch as [b [Hrun _]].
  exists b. split; [exact Hrun |].
  apply (batch_tables_shape _ _ _ _ _ _ _ _ _ _ _ Hrun).
Defined.

(** X12.  With a base seed that is set and not zero, a batch does not depend
    on the state it finds NumPy's generator in: iteration i is seeded with
    random_seed + i, and two runs with the same arguments end with the same
    fault or with the same histories, metrics and strategy object. *)
Theorem seeded_batch_is_reproducible (rng : Type) (seeded : Z -> rng)
        (normal : R -> R -> nat -> rng -> list R * rng) (p : Params)
        (asset_stats : asset_statistics) (strategy : RebalanceStrategy)
        (n_months n_iterations : nat) (seed : Z) (g1 g2 : rng) :
  seed <> 0%Z ->
  (forall i : nat, iteration_seed (Some seed) i = Some (seed + Z.of_nat i)%Z)
  /\ Spec.same_result
       (monte_carlo_simulation rng seeded normal p asset_stats strategy n_months
                               n_iterations (Some seed) g1)
       (monte_carlo_simulation rng seeded normal p asset_stats strategy n_months
                               n_iterations (Some seed) g2).
Proof.
  intros Hnz. split.
  - intros i. apply iteration_seed_set. exact Hnz.
  - apply seeded_runs_agree. exact Hnz.
Qed.

Lemma seeded_batch_is_reproducible_witness :
  Spec.same_result
    (monte_carlo_simulation Z (fun seed => seed) Fixtures.counting_draws
                            Fixtures.ruin_params Fixtures.flat_stats
                            Fixtures.test_strategy 12 3 (Some 42%Z) 1%Z)
    (monte_carlo_simulation Z (fun seed => seed) Fixtures.counting_draws
                            Fixtures.ruin_params Fixtures.flat_stats
                            Fixtures.test_strategy 12 3 (Some 42%Z) 2%Z).
Proof.
  apply (seeded_batch_is_reproducible Z (fun seed => seed) Fixtures.counting_draws
           Fixtures.ruin_params Fixtures.flat_stats Fixtures.test_strategy 12 3 42%Z 1%Z 2%Z).
  discriminate.
Defined.

(** ** A batch without statistics *)

Section EmptyStatistics.

Variable rng : Type.
Variable seeded : Z -> rng.
Variable normal : R -> R -> nat -> rng -> list R * rng.
Variable p : Params.
Variable strategy : RebalanceStrategy.
Variable n_months : nat.
Variable random_seed : option Z.

(** A trajectory over a frame without rows: nothing is simulated. *)
Lemma simulate_no_rows (asset_stats : asset_statistics) (s : RebalanceStrategy) :
  exists metrics,
    simulate_portfolio_path p asset_stats s [] = Ok ([], metrics, s)
    /\ Metrics.months_survived metrics = 0%nat
    /\ Metrics.survived_full_period metrics = true
    /\ Metrics.final_value metrics = initial_capital p
    /\ Metrics.total_withdrawals metrics = 0.
Proof.
  unfold simulate_portfolio_path, run_months. simpl.
  unfold final_metrics. simpl.
  destruct (gt (initial_capital p) 0) eqn:Hpos.
  - apply gt_true in Hpos. rewrite div_ok by lra. simpl. eexists.
    split; [reflexivity |]. simpl. repeat split.
  - simpl. eexists. split; [reflexivity |]. simpl. repeat split.
Qed.

Let nothing_simulated (metrics : Metrics.t) : Prop :=
  Metrics.months_survived metrics = 0%nat
  /\ Metrics.survived_full_period metrics = true
  /\ Metrics.final_value metrics = initial_capital p
  /\ Metrics.total_withdrawals metrics = 0.

Lemma iterations_loop_no_rows (len : nat) :
  forall (k : nat) (b : Batch rng),
    Forall nothing_simulated (all_metrics b) ->
    strategy_object b = strategy ->
    (forall i seed, (i < k + len)%nat -> iteration_seed random_seed i = Some seed ->
                    Tables.seed_in_range seed) ->
    exists b',
      iterations_loop rng seeded normal p [] n_months random_seed (seq k len) b = Ok b'
      /\ Forall nothing_simulated (all_metrics b')
      /\ strategy_object b' = strategy.
Proof.
  induction len as [| len IH]; intros k b Hall Hs Hrange.
  - exists b. repeat split; assumption.
  - destruct (generated_columns rng seeded normal [] n_months
                                (iteration_seed random_seed k) (generator b))
      as [columns [g' [Hgen Hkeys]]].
    { intros seed Hseed. apply (Hrange k seed); [lia | exact Hseed]. }
    { constructor. }
    destruct columns; [| discriminate]. simpl in Hgen.
    destruct (simulate_no_rows [] (strategy_object b)) as [metrics [Hpath Hnothing]].
    destruct (IH (S k)
                 (mkBatch (all_histories b ++ [([], (k + 1)%nat)])
                          (all_metrics b ++ [metrics]) (strategy_object b) g'))
      as [b' [Hloop Hb']].
    + simpl. apply Forall_app. split; [exact Hall |].
      constructor; [exact Hnothing | constructor].
    + exact Hs.
    + intros i seed Hi. apply Hrange. lia.
    + exists b'. split; [| exact Hb'].
      simpl. unfold iteration_body. rewrite Hgen. simpl. rewrite Hpath. simpl.
      exact Hloop.
Qed.

End EmptyStatistics.

(** X13.  A batch run on an empty statistics table, for a portfolio without a
    positive cash weight, simulates nothing and raises nothing: with seeds
    that are accepted, every trajectory reports months_survived = 0,
    survived_full_period = true and final_value = initial_capital, whatever
    n_months was asked for, and the strategy object is never checked. *)
Theorem empty_statistics_simulate_nothing (rng : Type) (seeded : Z -> rng)
        (normal : R -> R -> nat -> rng -> list R * rng) (p : Params)
        (strategy : RebalanceStrategy) (n_months n_iterations : nat)
        (random_seed : option Z) (g : rng) :
  get (allocation (portfolio_config p)) "cash" 0 <= 0 ->
  (forall i seed, (i < n_iterations)%nat -> iteration_seed random_seed i = Some seed ->
                  Tables.seed_in_range seed) ->
  exists b,
    monte_carlo_simulation rng seeded normal p [] strategy n_months n_iterations
                           random_seed g = Ok b
    /\ List.length (all_metrics b) = n_iterations
    /\ Forall (fun metrics =>
                 Metrics.months_survived metrics = 0%nat
                 /\ Metrics.survived_full_period metrics = true
                 /\ Metrics.final_value metrics = initial_capital p
                 /\ Metrics.total_withdrawals metrics = 0)
              (all_metrics b)
    /\ strategy_object b = strategy.
Proof.
  intros Hcash Hrange.
  assert (Hstats : with_cash p [] = []).
  { unfold with_cash. rewrite (proj2 (gt_false _ _) Hcash).
    destruct (contains _ _); reflexivity. }
  destruct (iterations_loop_no_rows rng seeded normal p strategy n_months random_seed
                                    n_iterations 0 (mkBatch [] [] strategy g))
    as [b [Hloop [Hall Hs]]].
  - constructor.
  - reflexivity.
  - exact Hrange.
  - exists b.
    assert (Hrun : monte_carlo_simulation rng seeded normal p [] strategy n_months
                                          n_iterations random_seed g = Ok b).
    { unfold monte_carlo_simulation, run_iterations. rewrite Hstats. exact Hloop. }
    split; [exact Hrun |]. split; [| split; [exact Hall | exact Hs]].
    pose proof (iterations_loop_tabled rng seeded normal p [] n_months random_seed
                                       n_iterations 0 (mkBatch [] [] strategy g) b)
      as Htabled.
    destruct Htabled as [Hlen _]; [| exact Hloop | exact Hlen].
    unfold Tables.tabled. simpl. repeat split. constructor.
Qed.

Lemma empty_statistics_simulate_nothing_witness :
  exists b,
    monte_carlo_simulation unit (fun _ => tt) Fixtures.mean_draws Fixtures.ruin_params
                           [] Fixtures.test_strategy 360 3 None tt = Ok b
    /\ List.length (all_metrics b) = 3%nat.
Proof.
  destruct (empty_statistics_simulate_nothing
              unit (fun _ => tt) Fixtures.mean_draws Fixtures.ruin_params
              Fixtures.test_strategy 360 3 None tt)
    as [b [Hrun [Hlen _]]].
  - simpl. lra.
  - intros i seed _ Hseed. discriminate Hseed.
  - exists b. split; [exact Hrun | exact Hlen].
Defined.

(** ** The strategy factory *)

(** X14.  For a portfolio whose rebalance type is 'threshold', the factory
    returns a strategy on the portfolio's allocation that no check modifies
    and that asks for a rebalance exactly when some asset of the allocation
    is off its target by strictly more than the configured threshold, or by
    more than 0.05 when the settings give none; a 'frequency' entry is not
    read. *)
Theorem factory_threshold_strategy (portfolio_config : RebalanceFactory.PortfolioSettings)
        (target : dict) (rebalance_config : RebalanceFactory.RebalanceSettings)
        (cost : R) :
  RebalanceFactory.settings_allocation portfolio_config = Some target ->
  RebalanceFactory.settings_rebalance portfolio_config = Some rebalance_config ->
  RebalanceFactory.rebalance_type rebalance_config = Some "threshold"%string ->
  exists strategy,
    RebalanceFactory.create_rebalance_strategy portfolio_config cost
    = RebalanceFactory.Returns strategy
    /\ target_allocation strategy = target
    /\ transaction_cost strategy = cost
    /\ last_rebalance_date strategy = None
    /\ forall current_allocation date portfolio_value,
        snd (should_rebalance strategy current_allocation date portfolio_value)
        = strategy
        /\ (fst (should_rebalance strategy current_allocation date portfolio_value)
            = true
            <-> exists item,
                In item target
                /\ Spec.deviation current_allocation item
                   > RebalanceFactory.get_or
                       (RebalanceFactory.rebalance_threshold rebalance_config) 0.05).
Proof.
  intros Hallocation Hrebalance Htype.
  unfold RebalanceFactory.create_rebalance_strategy.
  rewrite Hallocation, Hrebalance, Htype.
  change (String.eqb "threshold" "time") with false.
  change (String.eqb "threshold" "threshold") with true.
  cbv beta iota. eexists. split; [reflexivity |].
  repeat split; try reflexivity.
  - intros Hcheck. apply threshold_loop_strict. exact Hcheck.
  - intros Hsome. apply threshold_loop_strict in Hsome. exact Hsome.
Qed.

Lemma factory_threshold_strategy_witness :
  exists strategy,
    RebalanceFactory.create_rebalance_strategy
      (RebalanceFactory.mkPortfolioSettings
         (Some Fixtures.stocks_bonds)
         (Some (RebalanceFactory.mkRebalanceSettings
                  (Some "threshold"%string) (Some "monthly"%string) None)))
      0.002
    = RebalanceFactory.Returns strategy
    /\ target_allocation strategy = Fixtures.stocks_bonds.
Proof.
  destruct (factory_threshold_strategy
              (RebalanceFactory.mkPortfolioSettings
                 (Some Fixtures.stocks_bonds)
                 (Some (RebalanceFactory.mkRebalanceSettings
                          (Some "threshold"%string) (Some "monthly"%string) None)))
              Fixtures.stocks_bonds
              (RebalanceFactory.mkRebalanceSettings
                 (Some "threshold"%string) (Some "monthly"%string) None)
              0.002 eq_refl eq_refl eq_refl)
    as [strategy [Hbuilt [Htarget _]]].
  exists strategy. split; [exact Hbuilt | exact Htarget].
Defined.

(** ** Summary tables *)

Section SummaryFacts.

Variable median : list R -> Pandas.scalar.
Variable std : list R -> Pandas.scalar.
Variable quantile : list R -> R -> Pandas.scalar.

Let summary := SensitivityAnalysis.calculate_summary_statistics median std quantile.

(** The rows one portfolio contributes to the scenario comparison. *)
Let scenario_rows (portfolio_name : string)
    (portfolio_results : list (string * list Metrics.t))
  : list SensitivityAnalysis.table_row :=
  map (fun '(scenario_name, metrics_df) =>
         ("portfolio"%string, SensitivityAnalysis.Text portfolio_name)
           :: ("scenario"%string, SensitivityAnalysis.Text scenario_name)
           :: SensitivityAnalysis.stats_cells (summary metrics_df))
      portfolio_results.

Lemma item_absent {V : Type} (d : list (string * V)) (key : string) :
  ~ In key (map fst d) -> SensitivityAnalysis.item d key = None.
Proof.
  induction d as [| [k v] d IH]; intros Hnot; simpl.
  - reflexivity.
  - destruct (String.eqb_spec key k) as [-> | Hne].
    + exfalso. apply Hnot. left. reflexivity.
    + apply IH. intros Hin. apply Hnot. right. exact Hin.
Qed.

Lemma row_says_scenario (portfolio_name scenario_name scenario : string)
      (metrics_df : list Metrics.t) :
  Reports.says "scenario" scenario
               (("portfolio"%string, SensitivityAnalysis.Text portfolio_name)
                  :: ("scenario"%string, SensitivityAnalysis.Text scenario_name)
                  :: SensitivityAnalysis.stats_cells (summary metrics_df))
  = String.eqb scenario_name scenario.
Proof. reflexivity. Qed.

Lemma row_without_scenario (portfolio_name scenario_name : string)
      (metrics_df : list Metrics.t) :
  Reports.without "scenario"
                  (("portfolio"%string, SensitivityAnalysis.Text portfolio_name)
                     :: ("scenario"%string, SensitivityAnalysis.Text scenario_name)
                     :: SensitivityAnalysis.stats_cells (summary metrics_df))
  = ("portfolio"%string, SensitivityAnalysis.Text portfolio_name)
      :: SensitivityAnalysis.stats_cells (summary metrics_df).
Proof. reflexivity. Qed.

Lemma scenario_rows_slice (portfolio_name scenario : string)
      (portfolio_results : list (string * list Metrics.t)) :
  NoDup (map fst portfolio_results) ->
  map (Reports.without "scenario")
      (filter (Reports.says "scenario" scenario)
              (scenario_rows portfolio_name portfolio_results))
  = match SensitivityAnalysis.item portfolio_results scenario with
    | Some metrics_df =>
        [ ("portfolio"%string, SensitivityAnalysis.Text portfolio_name)
            :: SensitivityAnalysis.stats_cells (summary metrics_df) ]
    | None => []
    end.
Proof.
  induction portfolio_results as [| [scenario_name metrics_df] rest IH]; intros Hnodup.
  - reflexivity.
  - inversion Hnodup as [| ? ? Hnot Hrest]; subst.
    specialize (IH Hrest).
    change (scenario_rows portfolio_name ((scenario_name, metrics_df) :: rest))
      with ((("portfolio"%string, SensitivityAnalysis.Text portfolio_name)
               :: ("scenario"%string, SensitivityAnalysis.Text scenario_name)
               :: SensitivityAnalysis.stats_cells (summary metrics_df))
              :: scenario_rows portfolio_name rest).
    cbn [filter SensitivityAnalysis.item].
    rewrite row_says_scenario.
    rewrite (String.eqb_sym scenario scenario_name).
    destruct (String.eqb_spec scenario_name scenario) as [-> | Hne].
    + cbn [map]. rewrite row_without_scenario. rewrite IH.
      rewrite (item_absent rest scenario Hnot). reflexivity.
    + exact IH.
Qed.

Lemma compare_scenarios_cons (portfolio_name : string)
      (portfolio_results : list (string * list Metrics.t))
      (rest : SensitivityAnalysis.results) :
  SensitivityAnalysis.compare_scenarios median std quantile
                                        ((portfolio_name, portfolio_results) :: rest)
  = scenario_rows portfolio_name portfolio_results
      ++ SensitivityAnalysis.compare_scenarios median std quantile rest.
Proof. reflexivity. Qed.

Lemma compare_portfolios_cons (portfolio_name scenario : string)
      (portfolio_results : list (string * list Metrics.t))
      (rest : SensitivityAnalysis.results) :
  SensitivityAnalysis.compare_portfolios median std quantile
                                         ((portfolio_name, portfolio_results) :: rest)
                                         scenario
  = match SensitivityAnalysis.item portfolio_results scenario with
    | Some metrics_df =>
        [ ("portfolio"%string, SensitivityAnalysis.Text portfolio_name)
            :: SensitivityAnalysis.stats_cells (summary metrics_df) ]
    | None => []
    end
      ++ SensitivityAnalysis.compare_portfolios median std quantile rest scenario.
Proof. reflexivity. Qed.

End SummaryFacts.

(** X15.  The portfolio comparison for a scenario is the scenario comparison
    cut down to that scenario: the same rows in the same order, without the
    'scenario' column.  A portfolio without results for the scenario has no
    row in it. *)
Theorem compare_portfolios_is_slice (median std : list R -> Pandas.scalar)
        (quantile : list R -> R -> Pandas.scalar)
        (results_dict : SensitivityAnalysis.results) (scenario : string) :
  Reports.scenarios_once results_dict ->
  SensitivityAnalysis.compare_portfolios median std quantile results_dict scenario
  = map (Reports.without "scenario")
        (filter (Reports.says "scenario" scenario)
                (SensitivityAnalysis.compare_scenarios median std quantile
                                                       results_dict)).
Proof.
  unfold Reports.scenarios_once.
  induction results_dict as [| [portfolio_name portfolio_results] rest IH];
    intros Honce.
  - reflexivity.
  - inversion Honce as [| ? ? Hnodup Hrest]; subst.
    rewrite compare_scenarios_cons, compare_portfolios_cons.
    rewrite filter_app, map_app, <- (IH Hrest).
    rewrite (scenario_rows_slice median std quantile portfolio_name scenario
                                 portfolio_results Hnodup).
    reflexivity.
Qed.

Lemma compare_portfolios_is_slice_witness :
  List.length
    (SensitivityAnalysis.compare_portfolios
       Reports.no_number Reports.no_number Reports.no_quantile
       [ ("conservative"%string, [("base"%string, []); ("crisis"%string, [])]);
         ("growth"%string, [("crisis"%string, [])]) ]
       "base")
  = 1%nat.
Proof.
  rewrite (compare_portfolios_is_slice
             Reports.no_number Reports.no_number Reports.no_quantile
             [ ("conservative"%string, [("base"%string, []); ("crisis"%string, [])]);
               ("growth"%string, [("crisis"%string, [])]) ]
             "base").
  - reflexivity.
  - repeat constructor; simpl; intuition discriminate.
Defined.

(** ** The summary of a batch *)

Section BatchSummary.

Variable rng : Type.
Variable seeded : Z -> rng.
Variable normal : R -> R -> nat -> rng -> list R * rng.
Variable p : Params.
Variable asset_stats : asset_statistics.
Variable n_months : nat.
Variable random_seed : option Z.

(** A frame that was generated for some asset has [n_months] rows. *)
Lemma generated_frame_length (seed : option Z) (g g' : rng) (rows : returns_frame) :
  asset_stats <> [] ->
  generate_monthly_returns rng seeded normal asset_stats n_months seed g = Ok (rows, g') ->
  List.length rows = n_months.
Proof.
  intros Hne Hgen.
  destruct (generated_columns_inv rng seeded normal asset_stats n_months seed g g' rows
                                  Hgen) as [columns [-> Hkeys]].
  destruct (frame_of_columns_shape columns n_months) as [Hlen _].
  rewrite Hlen. destruct columns as [| column columns]; [| reflexivity].
  destruct asset_stats; [contradiction | discriminate].
Qed.

(** What holds of the metrics of every trajectory holds of the table. *)
Lemma iterations_loop_metrics (P : Metrics.t -> Prop) :
  (forall i strategy rows g g' history metrics strategy',
      generate_monthly_returns rng seeded normal asset_stats n_months
                               (iteration_seed random_seed i) g = Ok (rows, g') ->
      simulate_portfolio_path p asset_stats strategy rows
      = Ok (history, metrics, strategy') ->
      P metrics) ->
  forall (iterations : list nat) (b b' : Batch rng),
    Forall P (all_metrics b) ->
    iterations_loop rng seeded normal p asset_stats n_months random_seed iterations b
    = Ok b' ->
    Forall P (all_metrics b').
Proof.
  intros Hpath. induction iterations as [| i rest IH]; intros b b' Hall Hloop.
  - simpl in Hloop. injection Hloop as <-. exact Hall.
  - simpl in Hloop.
    destruct (iteration_body rng seeded normal p asset_stats n_months random_seed i b)
      as [b1 | e] eqn:Hbody; [| discriminate].
    simpl in Hloop. apply (IH b1 b'); [| exact Hloop].
    destruct (iteration_body_inv rng seeded normal p asset_stats n_months random_seed
                                 i b b1 Hbody)
      as [rows [g' [history [metrics [strategy' [Hgen [Hrun ->]]]]]]].
    cbn [all_metrics]. apply Forall_app. split; [exact Hall |].
    constructor; [| constructor].
    exact (Hpath i (strategy_object b) rows (generator b) g' history metrics strategy'
                 Hgen Hrun).
Qed.

End BatchSummary.

Lemma with_cash_nonempty (p : Params) (asset_stats : asset_statistics) :
  asset_stats <> [] -> with_cash p asset_stats <> [].
Proof.
  intros Hne. unfold with_cash.
  destruct (_ && _ && _); [| exact Hne].
  destruct asset_stats; [contradiction | discriminate].
Qed.

Lemma sum_of_flags {A : Type} (f : A -> bool) (l : list A) :
  sum (map (fun x => Pandas.of_bool (f x)) l) = INR (List.length (filter f l)).
Proof.
  induction l as [| x l IH].
  - reflexivity.
  - cbn [map filter]. rewrite sum_cons, IH.
    destruct (f x); unfold Pandas.of_bool.
    + cbn [List.length]. rewrite S_INR. lra.
    + lra.
Qed.

Lemma sum_of_differences {A : Type} (f g h : A -> R) (l : list A) :
  Forall (fun x => h x = f x - g x) l ->
  sum (map h l) = sum (map f l) - sum (map g l).
Proof.
  induction 1 as [| x l Hx _ IH].
  - cbn [map]. rewrite sum_nil. lra.
  - cbn [map]. rewrite !sum_cons, IH, Hx. lra.
Qed.

(** X16.  For a batch of at least one trajectory over at least one asset,
    the survival rate computed from its metrics table is 100 times the share
    of trajectories whose months_survived equals n_months; it is a number,
    between 0 and 100. *)
Theorem batch_survival_rate (rng : Type) (seeded : Z -> rng)
        (normal : R -> R -> nat -> rng -> list R * rng)
        (median std : list R -> Pandas.scalar)
        (quantile : list R -> R -> Pandas.scalar) (p : Params)
        (asset_stats : asset_statistics) (strategy : RebalanceStrategy)
        (n_months n_iterations : nat) (random_seed : option Z) (g : rng)
        (b : Batch rng) :
  asset_stats <> [] ->
  (0 < n_iterations)%nat ->
  monte_carlo_simulation rng seeded normal p asset_stats strategy n_months
                         n_iterations random_seed g = Ok b ->
  SensitivityAnalysis.item
    (SensitivityAnalysis.calculate_summary_statistics median std quantile
                                                      (all_metrics b))
    "survival_rate"
  = Some (Some (INR (Reports.lasted n_months (all_metrics b)) / INR n_iterations * 100))
  /\ (Reports.lasted n_months (all_metrics b) <= n_iterations)%nat.
Proof.
  intros Hne Hpos Hrun.
  unfold monte_carlo_simulation, run_iterations in Hrun.
  assert (Hlen : List.length (all_metrics b) = n_iterations).
  { pose proof (iterations_loop_tabled rng seeded normal p (with_cash p asset_stats)
                                       n_months random_seed n_iterations 0
                                       (mkBatch [] [] strategy g) b) as Htabled.
    destruct Htabled as [Hlen _]; [| exact Hrun | exact Hlen].
    unfold Tables.tabled. simpl. repeat split. constructor. }
  assert (Hflags : Forall (fun metrics =>
                             Metrics.survived_full_period metrics
                             = (Metrics.months_survived metrics =? n_months)%nat)
                          (all_metrics b)).
  { apply (iterations_loop_metrics rng seeded normal p (with_cash p asset_stats)
                                   n_months random_seed _)
      with (iterations := seq 0 n_iterations) (b := mkBatch [] [] strategy g);
      [| constructor | exact Hrun].
    intros i s rows g0 g' history metrics s' Hgen Hpath.
    apply simulate_portfolio_path_inv in Hpath.
    destruct Hpath as [r [_ [_ [_ [Hmonths [Hflag _]]]]]].
    rewrite Hflag, Hmonths.
    rewrite (generated_frame_length rng seeded normal (with_cash p asset_stats)
                                    n_months _ g0 g' rows
                                    (with_cash_nonempty p asset_stats Hne) Hgen).
    reflexivity. }
  split.
  - cbn [SensitivityAnalysis.item SensitivityAnalysis.calculate_summary_statistics].
    change (String.eqb "survival_rate" "survival_rate") with true. cbv beta iota.
    assert (Hcolumn :
              map (fun row => Pandas.of_bool (Metrics.survived_full_period row))
                  (all_metrics b)
              = map (fun row =>
                       Pandas.of_bool (Metrics.months_survived row =? n_months)%nat)
                    (all_metrics b)).
    { apply map_ext_in. intros row Hin.
      rewrite Forall_forall in Hflags. rewrite (Hflags row Hin). reflexivity. }
    rewrite Hcolumn. clear Hcolumn.
    unfold Pandas.mean.
    destruct (map _ (all_metrics b)) as [| x column] eqn:Hmap.
    + apply (f_equal (@List.length R)) in Hmap. rewrite length_map in Hmap.
      simpl in Hmap. lia.
    + rewrite <- Hmap. rewrite sum_of_flags, length_map, Hlen. reflexivity.
  - unfold Reports.lasted. rewrite <- Hlen. apply filter_length_le.
Qed.

Lemma batch_survival_rate_witness :
  exists b,
    monte_carlo_simulation unit (fun _ => tt) Fixtures.mean_draws Fixtures.ruin_params
                           Fixtures.flat_stats
                           (TimeBasedRebalance Fixtures.stocks_bonds "monthly" 0.002)
                           1 1 (Some 42%Z) tt
    = Ok b
    /\ (Reports.lasted 1 (all_metrics b) <= 1)%nat.
Proof.
  destruct leak_example_batch as [b [Hrun _]].
  exists b. split; [exact Hrun |].
  apply (batch_survival_rate unit (fun _ => tt) Fixtures.mean_draws
           Reports.no_number Reports.no_number Reports.no_quantile
           Fixtures.ruin_params Fixtures.flat_stats
           (TimeBasedRebalance Fixtures.stocks_bonds "monthly" 0.002)
           1 1 (Some 42%Z) tt b).
  - discriminate.
  - lia.
  - exact Hrun.
Defined.

(** X17.  In the summary of a batch of at least one trajectory the mean net
    flow is the mean of the total contributions minus the mean of the total
    withdrawals; all three are numbers. *)
Theorem batch_mean_net_flow (rng : Type) (seeded : Z -> rng)
        (normal : R -> R -> nat -> rng -> list R * rng)
        (median std : list R -> Pandas.scalar)
        (quantile : list R -> R -> Pandas.scalar) (p : Params)
        (asset_stats : asset_statistics) (strategy : RebalanceStrategy)
        (n_months n_iterations : nat) (random_seed : option Z) (g : rng)
        (b : Batch rng) :
  (0 < n_iterations)%nat ->
  monte_carlo_simulation rng seeded normal p asset_stats strategy n_months
                         n_iterations random_seed g = Ok b ->
  exists contributions withdrawals,
    SensitivityAnalysis.item
      (SensitivityAnalysis.calculate_summary_statistics median std quantile
                                                        (all_metrics b))
      "mean_total_contributions"
    = Some (Some contributions)
    /\ SensitivityAnalysis.item
         (SensitivityAnalysis.calculate_summary_statistics median std quantile
                                                           (all_metrics b))
         "mean_total_withdrawals"
       = Some (Some withdrawals)
    /\ SensitivityAnalysis.item
         (SensitivityAnalysis.calculate_summary_statistics median std quantile
                                                           (all_metrics b))
         "mean_net_flow"
       = Some (Some (contributions - withdrawals)).
Proof.
  intros Hpos Hrun.
  unfold monte_carlo_simulation, run_iterations in Hrun.
  assert (Hlen : List.length (all_metrics b) = n_iterations).
  { pose proof (iterations_loop_tabled rng seeded normal p (with_cash p asset_stats)
                                       n_months random_seed n_iterations 0
                                       (mkBatch [] [] strategy g) b) as Htabled.
    destruct Htabled as [Hlen _]; [| exact Hrun | exact Hlen].
    unfold Tables.tabled. simpl. repeat split. constructor. }
  assert (Hflow : Forall (fun metrics =>
                            Metrics.net_flow metrics
                            = Metrics.total_contributions metrics
                              - Metrics.total_withdrawals metrics)
                         (all_metrics b)).
  { apply (iterations_loop_metrics rng seeded normal p (with_cash p asset_stats)
                                   n_months random_seed _)
      with (iterations := seq 0 n_iterations) (b := mkBatch [] [] strategy g);
      [| constructor | exact Hrun].
    intros i s rows g0 g' history metrics s' _ Hpath.
    apply simulate_portfolio_path_inv in Hpath.
    destruct Hpath as [r [_ [_ [_ [_ [_ [_ [Hw [Hc [_ Hn]]]]]]]]]].
    rewrite Hn, Hw, Hc. reflexivity. }
  apply sum_of_differences in Hflow.
  destruct (all_metrics b) as [| row rows] eqn:Htable; [simpl in Hlen; lia |].
  exists (sum (map Metrics.total_contributions (row :: rows))
          / INR (List.length (map Metrics.total_contributions (row :: rows)))),
         (sum (map Metrics.total_withdrawals (row :: rows))
          / INR (List.length (map Metrics.total_withdrawals (row :: rows)))).
  split; [reflexivity | split; [reflexivity |]].
  change (SensitivityAnalysis.item
            (SensitivityAnalysis.calculate_summary_statistics median std quantile
                                                              (row :: rows))
            "mean_net_flow")
    with (Some (Pandas.mean (map Metrics.net_flow (row :: rows)))).
  cbn [map Pandas.mean]. cbn [map] in Hflow. rewrite Hflow.
  do 2 f_equal. cbn [List.length]. rewrite !length_map. unfold Rdiv. ring.
Qed.

Lemma batch_mean_net_flow_witness :
  exists b contributions withdrawals,
    monte_carlo_simulation unit (fun _ => tt) Fixtures.mean_draws Fixtures.ruin_params
                           Fixtures.flat_stats
                           (TimeBasedRebalance Fixtures.stocks_bonds "monthly" 0.002)
                           1 1 (Some 42%Z) tt
    = Ok b
    /\ SensitivityAnalysis.item
         (SensitivityAnalysis.calculate_summary_statistics
            Reports.no_number Reports.no_number Reports.no_quantile (all_metrics b))
         "mean_net_flow"
       = Some (Some (contributions - withdrawals)).
Proof.
  destruct leak_example_batch as [b [Hrun _]].
  destruct (batch_mean_net_flow unit (fun _ => tt) Fixtures.mean_draws
              Reports.no_number Reports.no_number Reports.no_quantile
              Fixtures.ruin_params Fixtures.flat_stats
              (TimeBasedRebalance Fixtures.stocks_bonds "monthly" 0.002)
              1 1 (Some 42%Z) tt b)
    as [contributions [withdrawals [_ [_ Hflow]]]].
  - lia.
  - exact Hrun.
  - exists b, contributions, withdrawals. split; [exact Hrun | exact Hflow].
Defined.

(** ** The withdrawals a trajectory is asked for *)

Section WithdrawalSchedule.

Variable p : Params.
Variable rows : returns_frame.

Lemma month_body_withdrawals (month : nat) (st st' : Locals) :
  month_body p rows month st = Ok (Next st') ->
  exists row,
    history st' = history st ++ [row]
    /\ History.month row = (month + 1)%nat
    /\ History.base_withdrawal row = adjust_withdrawal p month (withdrawal st)
    /\ History.withdrawal row
       = total_monthly_withdrawal p month (History.base_withdrawal row)
    /\ withdrawal st' = History.base_withdrawal row.
Proof.
  intros H. open_month_body H; simpl; eexists; (split; [reflexivity |]);
    simpl; repeat split; reflexivity.
Qed.

(** The month's amount, from the amount of the month before. *)
Lemma adjust_withdrawal_schedule (month : nat) :
  adjust_withdrawal p month
                    (match month with
                     | O => withdrawal_amount p
                     | S before => Schedule.base_withdrawal_in p before
                     end)
  = Schedule.base_withdrawal_in p month.
Proof.
  unfold adjust_withdrawal, Schedule.base_withdrawal_in.
  destruct (apply_inflation p); cbn [andb].
  - destruct month as [| before].
    + cbn [Nat.ltb Nat.leb]. unfold Rpower.
      replace (INR 0 / 12 * ln (1 + inflation_rate p)) with 0
        by (change (INR 0) with 0; unfold Rdiv; ring).
      rewrite exp_0. ring.
    + change (0 <? S before)%nat with true. cbv beta iota.
      replace (INR (S before) / 12) with (INR before / 12 + 1 / 12)
        by (rewrite S_INR; unfold Rdiv; ring).
      rewrite Rpower_plus. ring.
  - destruct month; reflexivity.
Qed.

Lemma listed_0indexed (month : nat) :
  existsb (Z.eqb (Z.of_nat month)) (thirteenth_payment_months_0indexed p)
  = Schedule.listed p (month + 1).
Proof.
  unfold thirteenth_payment_months_0indexed, Schedule.listed.
  destruct (thirteenth_payment_months p) as [months |]; [| reflexivity].
  induction months as [| m months IH]; [reflexivity |].
  cbn [map existsb]. rewrite IH. f_equal.
  destruct (Z.eqb_spec (Z.of_nat month) (m - 1));
    destruct (Z.eqb_spec (Z.of_nat (month + 1)) m); try reflexivity; lia.
Qed.

Lemma total_monthly_withdrawal_schedule (month : nat) (withdrawal : R) :
  total_monthly_withdrawal p month withdrawal
  = withdrawal + Schedule.thirteenth_payment_in p (month + 1).
Proof.
  unfold total_monthly_withdrawal, Schedule.thirteenth_payment_in.
  rewrite listed_0indexed.
  replace (1 <? month + 1)%nat with (0 <? month)%nat
    by (destruct month as [| [| k]]; reflexivity).
  destruct (thirteenth_payment_enabled p && Schedule.listed p (month + 1)); [| lra].
  reflexivity.
Qed.

Lemma months_loop_schedule_kept (len : nat) :
  forall (m : nat) (st : Locals) (r : loop_exit),
    withdrawal st = match m with
                    | O => withdrawal_amount p
                    | S before => Schedule.base_withdrawal_in p before
                    end ->
    Forall (Schedule.on_schedule p) (history st) ->
    months_loop p rows (seq m len) st = Ok r ->
    Forall (Schedule.on_schedule p) (history (locals_of r)).
Proof.
  induction len as [| len IH]; intros m st r Hw Hall Hloop; simpl in Hloop.
  - injection Hloop as <-. exact Hall.
  - destruct (month_body p rows m st) as [[st1 | st1] |] eqn:Hbody;
      simpl in Hloop; [| | discriminate].
    + destruct (month_body_withdrawals m st st1 Hbody)
        as [row [Hhist [Hmonth [Hbase [Htotal Hnext]]]]].
      rewrite Hw, adjust_withdrawal_schedule in Hbase.
      apply (IH (S m) st1 r); [rewrite Hnext; exact Hbase | | exact Hloop].
      rewrite Hhist. apply Forall_app. split; [exact Hall |].
      constructor; [| constructor]. unfold Schedule.on_schedule.
      rewrite Htotal, total_monthly_withdrawal_schedule, Hmonth, Hbase.
      replace (m + 1 - 1)%nat with m by lia. split; reflexivity.
    + injection Hloop as <-. simpl.
      apply month_body_break in Hbody.
      destruct Hbody as [_ [_ [_ [_ [_ [_ Hhist]]]]]]. rewrite Hhist. exact Hall.
Qed.

Lemma path_on_schedule (asset_stats : asset_statistics)
      (strategy strategy' : RebalanceStrategy) (history : list History.row)
      (metrics : Metrics.t) :
  simulate_portfolio_path p asset_stats strategy rows = Ok (history, metrics, strategy') ->
  Forall (Schedule.on_schedule p) history.
Proof.
  intros H. apply simulate_portfolio_path_inv in H.
  destruct H as [r [Hloop [-> _]]].
  apply (months_loop_schedule_kept (List.length rows) 0
           (initial_locals p strategy (List.length rows)) r);
    [reflexivity | constructor | exact Hloop].
Qed.

End WithdrawalSchedule.

(** ** A trajectory with thirteenth payments *)

Section PensionRun.

Let p := Samples.pension_params.
Let rows := Fixtures.zero_returns 13.

(** Where the trajectory stands after [k] of its 13 months. *)
Let pension_course (k : nat) (st : Locals) : Prop :=
  sum (values (asset_values st)) >= 100000 - 1100 * INR k
  /\ asset_values st <> []
  /\ withdrawal st = match k with
                     | O => withdrawal_amount p
                     | S before => Schedule.base_withdrawal_in p before
                     end
  /\ transaction_cost (rebalance_strategy st) = 0
  /\ sum (values (target_allocation (rebalance_strategy st))) = 1
  /\ months_survived st = 13%nat.

(** Two years of inflation at 2% do not double anything. *)
Lemma pension_growth (y : R) : 0 <= y <= 2 -> 1 <= Rpower (1 + 0.02) y <= 1.0404.
Proof.
  intros [Hlo Hhi]. split.
  - replace 1 with (Rpower (1 + 0.02) 0) at 1
      by (unfold Rpower; rewrite Rmult_0_l; apply exp_0).
    apply Rle_Rpower; lra.
  - replace 1.0404 with (Rpower (1 + 0.02) (INR 2))
      by (rewrite Rpower_pow by lra; simpl; lra).
    apply Rle_Rpower; [lra | simpl; lra].
Qed.

Lemma pension_month_withdrawal (k : nat) :
  (k < 13)%nat ->
  0 <= Schedule.base_withdrawal_in p k
  /\ 0 <= total_monthly_withdrawal p k (Schedule.base_withdrawal_in p k) <= 1100.
Proof.
  intros Hk.
  assert (Hmonth : 0 <= INR k / 12 <= 2).
  { assert (0 <= INR k) by apply pos_INR.
    assert (INR k <= INR 13) by (apply le_INR; lia).
    simpl in *. lra. }
  assert (Hnext : 0 <= INR (k + 1) / 12 <= 2).
  { assert (0 <= INR (k + 1)) by apply pos_INR.
    assert (INR (k + 1) <= INR 13) by (apply le_INR; lia).
    simpl in *. lra. }
  pose proof (pension_growth _ Hmonth) as Hbase.
  pose proof (pension_growth _ Hnext) as Hextra.
  rewrite total_monthly_withdrawal_schedule.
  unfold Schedule.base_withdrawal_in, Schedule.thirteenth_payment_in.
  change (apply_inflation p) with true.
  change (withdrawal_amount p) with 500.
  change (thirteenth_payment_amount p) with 500.
  change (inflation_rate p) with 0.02.
  cbv beta iota.
  destruct (thirteenth_payment_enabled p && Schedule.listed p (k + 1));
    [destruct (true && (1 <? k + 1)%nat) |]; nra.
Qed.

Lemma pension_step (k : nat) (st : Locals) :
  (k < 13)%nat ->
  pension_course k st ->
  exists st', month_body p rows k st = Ok (Next st') /\ pension_course (S k) st'.
Proof.
  intros Hk [Hsum [Hne [Hw [Hfree [Hone Hsurv]]]]].
  pose proof (apply_returns_zero (asset_values st) (nth k rows [])
                                 (zero_returns_all_zero 13 k)) as Hreturns.
  fold rows in Hreturns.
  destruct (pension_month_withdrawal k Hk) as [Hbase [Hmw0 Hmw]].
  assert (Hadjust : adjust_withdrawal p k (withdrawal st)
                    = Schedule.base_withdrawal_in p k).
  { rewrite Hw. apply adjust_withdrawal_schedule. }
  assert (Hmonths : INR k <= 12).
  { replace 12 with (INR 12) by (simpl; lra). apply le_INR. lia. }
  destruct (month_body_progress
              p rows k st
              (apply_returns (asset_values st) (nth k rows []))
              0 (sum (values (apply_returns (asset_values st) (nth k rows []))))
              (total_contributions st))
    as [st' [Hbody [Hw' [Hcost Hpv']]]].
  - reflexivity.
  - rewrite Hadjust, Hreturns. lra.
  - rewrite Hreturns. lra.
  - exists st'. split; [exact Hbody |].
    destruct (month_body_next p rows k st st' Hbody Hne)
      as [Hpv1 [Hsame [Hne1 [Hsurv1 [_ [_ Htarget]]]]]].
    + rewrite Hw. destruct k; [simpl; lra |].
      apply (pension_month_withdrawal k). lia.
    + simpl. lra.
    + exact Hone.
    + unfold pension_course. rewrite Hsame, <- Hpv1, Hpv' by (left; exact Hfree).
      rewrite Hadjust, Hreturns, Hw', Hadjust, Hcost, Htarget, S_INR.
      repeat split; try assumption; [lra | rewrite <- Hsame; exact Hne1 | congruence].
Qed.

Lemma pension_loop (j : nat) :
  forall (k : nat) (st : Locals),
    (k + j <= 13)%nat ->
    pension_course k st ->
    exists st',
      months_loop p rows (seq k j) st = Ok (Next st') /\ pension_course (k + j) st'.
Proof.
  induction j as [| j IH]; intros k st Hk Hst.
  - exists st. rewrite Nat.add_0_r. split; [reflexivity | exact Hst].
  - destruct (pension_step k st ltac:(lia) Hst) as [st1 [Hbody Hst1]].
    destruct (IH (S k) st1 ltac:(lia) Hst1) as [st' [Hloop Hst']].
    exists st'. split.
    + simpl. rewrite Hbody. simpl. exact Hloop.
    + replace (k + S j)%nat with (S k + j)%nat by lia. exact Hst'.
Qed.

(** The pension sample runs its 13 months. *)
Lemma pension_path (asset_stats : asset_statistics) (last : option datetime)
      (kind : variant) :
  exists history metrics strategy',
    simulate_portfolio_path p asset_stats
                            (mkRebalanceStrategy Fixtures.stocks_bonds 0 last kind) rows
    = Ok (history, metrics, strategy')
    /\ List.length history = 13%nat.
Proof.
  set (strategy := mkRebalanceStrategy Fixtures.stocks_bonds 0 last kind).
  destruct (pension_loop 13 0 (initial_locals p strategy 13)) as [st [Hloop Hst]].
  - lia.
  - unfold pension_course. simpl. repeat split; try reflexivity.
    + unfold sum. simpl. lra.
    + discriminate.
    + exact stocks_bonds_sum.
  - destruct (final_metrics_ok p 13 st) as [metrics [Hmetrics [Hmonths _]]].
    exists (history st), metrics, (rebalance_strategy st).
    assert (Hpath : simulate_portfolio_path p asset_stats strategy rows
                    = Ok (history st, metrics, rebalance_strategy st)).
    { unfold simulate_portfolio_path, run_months.
      change (List.length rows) with 13%nat.
      rewrite Hloop. simpl. rewrite Hmetrics. reflexivity. }
    split; [exact Hpath |].
    rewrite (path_history_length _ _ _ _ _ _ _ Hpath), Hmonths.
    destruct Hst as [_ [_ [_ [_ [_ Hsurv]]]]]. exact Hsurv.
Qed.

End PensionRun.

(** X18.  With the inflation adjustment on and an annual rate above -100%,
    the base withdrawal recorded for month m (counted from 1) is
    withdrawal_amount x (1 + inflation_rate)^((m - 1) / 12), whatever the
    returns: it grows every month, and after every 12 months it has grown by
    exactly the annual rate.  With the adjustment off it is withdrawal_amount
    in every row. *)
Theorem base_withdrawal_follows_inflation
        (p : Params) (asset_stats : asset_statistics)
        (strategy strategy' : RebalanceStrategy) (rows : returns_frame)
        (history : list History.row) (metrics : Metrics.t) :
  -1 < inflation_rate p ->
  simulate_portfolio_path p asset_stats strategy rows = Ok (history, metrics, strategy') ->
  Forall (fun row =>
            History.base_withdrawal row
            = Schedule.base_withdrawal_in p (History.month row - 1))
         history
  /\ (apply_inflation p = true ->
      forall row years,
        In row history ->
        History.month row = (12 * years + 1)%nat ->
        History.base_withdrawal row
        = withdrawal_amount p * (1 + inflation_rate p) ^ years)
  /\ (apply_inflation p = false ->
      Forall (fun row => History.base_withdrawal row = withdrawal_amount p) history).
Proof.
  intros Hrate Hpath.
  pose proof (path_on_schedule p rows asset_stats strategy strategy' history metrics
                               Hpath) as Hall.
  assert (Hbase : Forall (fun row =>
                            History.base_withdrawal row
                            = Schedule.base_withdrawal_in p (History.month row - 1))
                         history).
  { eapply Forall_impl; [| exact Hall]. intros row [Hrow _]. exact Hrow. }
  split; [exact Hbase |]. split.
  - intros Hon row years Hin Hmonth.
    rewrite Forall_forall in Hbase. rewrite (Hbase row Hin), Hmonth.
    unfold Schedule.base_withdrawal_in. rewrite Hon.
    replace (12 * years + 1 - 1)%nat with (12 * years)%nat by lia.
    replace (INR (12 * years) / 12) with (INR years)
      by (rewrite mult_INR; replace (INR 12) with 12 by (simpl; lra); field).
    rewrite Rpower_pow by lra. reflexivity.
  - intros Hoff. eapply Forall_impl; [| exact Hbase].
    intros row Hrow. rewrite Hrow. unfold Schedule.base_withdrawal_in.
    rewrite Hoff. reflexivity.
Qed.

Lemma base_withdrawal_follows_inflation_witness :
  exists history metrics strategy',
    simulate_portfolio_path Fixtures.ruin_params Fixtures.flat_stats
                            (mkRebalanceStrategy Fixtures.stocks_bonds 0 None
                                                 (ThresholdBased 0.05))
                            (Fixtures.zero_returns 60)
    = Ok (history, metrics, strategy')
    /\ Forall (fun row => History.base_withdrawal row = 2000) history.
Proof.
  destruct (ruin_scenario_path None (ThresholdBased 0.05) Fixtures.flat_stats)
    as [history [metrics [strategy' Hpath]]].
  exists history, metrics, strategy'. split; [exact Hpath |].
  assert (Hrate : -1 < inflation_rate Fixtures.ruin_params) by (simpl; lra).
  destruct (base_withdrawal_follows_inflation _ _ _ _ _ _ _ Hrate Hpath)
    as [_ [_ Hoff]].
  apply Hoff. reflexivity.
Defined.

(** X19.  With an annual inflation rate above -100%, the withdrawal recorded
    for a month is its base withdrawal, plus the thirteenth payment when these
    are enabled and the month's number, counted from 1 over the whole
    trajectory, is listed in thirteenth_payment_months; the payment is
    thirteenth_payment_amount, times (1 + inflation_rate)^(m / 12) from the
    second month on when the inflation adjustment is on.  The month is not
    reduced to a month of the year: with months listed from 1 to 12, no row
    after the twelfth carries a payment. *)
Theorem thirteenth_payments_are_not_repeated
        (p : Params) (asset_stats : asset_statistics)
        (strategy strategy' : RebalanceStrategy) (rows : returns_frame)
        (history : list History.row) (metrics : Metrics.t) :
  -1 < inflation_rate p ->
  simulate_portfolio_path p asset_stats strategy rows = Ok (history, metrics, strategy') ->
  Forall (fun row =>
            History.withdrawal row
            = History.base_withdrawal row
              + Schedule.thirteenth_payment_in p (History.month row))
         history
  /\ ((forall months m,
          thirteenth_payment_months p = Some months -> In m months -> (m <= 12)%Z) ->
      Forall (fun row =>
                (12 < History.month row)%nat ->
                History.withdrawal row = History.base_withdrawal row)
             history).
Proof.
  intros _ Hpath.
  pose proof (path_on_schedule p rows asset_stats strategy strategy' history metrics
                               Hpath) as Hall.
  assert (Htotal : Forall (fun row =>
                             History.withdrawal row
                             = History.base_withdrawal row
                               + Schedule.thirteenth_payment_in p (History.month row))
                          history).
  { eapply Forall_impl; [| exact Hall]. intros row [_ Hrow]. exact Hrow. }
  split; [exact Htotal |].
  intros Hyear. eapply Forall_impl; [| exact Htotal].
  intros row Hrow Hlate. rewrite Hrow.
  assert (Hnot : Schedule.listed p (History.month row) = false).
  { unfold Schedule.listed.
    destruct (thirteenth_payment_months p) as [months |] eqn:Hmonths; [| reflexivity].
    destruct (existsb _ months) eqn:Hlisted; [| reflexivity].
    apply existsb_exists in Hlisted. destruct Hlisted as [m [Hin Heq]].
    apply Z.eqb_eq in Heq. specialize (Hyear months m eq_refl Hin). lia. }
  unfold Schedule.thirteenth_payment_in. rewrite Hnot, andb_false_r. lra.
Qed.

Lemma thirteenth_payments_are_not_repeated_witness :
  exists history metrics strategy',
    simulate_portfolio_path Samples.pension_params Fixtures.flat_stats
                            (mkRebalanceStrategy Fixtures.stocks_bonds 0 None
                                                 (TimeBased "quarterly"))
                            (Fixtures.zero_returns 13)
    = Ok (history, metrics, strategy')
    /\ List.length history = 13%nat
    /\ Forall (fun row =>
                 History.withdrawal row
                 = History.base_withdrawal row
                   + Schedule.thirteenth_payment_in Samples.pension_params
                                                    (History.month row))
              history
    /\ Forall (fun row =>
                 (12 < History.month row)%nat ->
                 History.withdrawal row = History.base_withdrawal row)
              history.
Proof.
  destruct (pension_path Fixtures.flat_stats None (TimeBased "quarterly"))
    as [history [metrics [strategy' [Hpath Hlen]]]].
  exists history, metrics, strategy'. split; [exact Hpath |]. split; [exact Hlen |].
  assert (Hrate : -1 < inflation_rate Samples.pension_params) by (simpl; lra).
  destruct (thirteenth_payments_are_not_repeated _ _ _ _ _ _ _ Hrate Hpath)
    as [Hall Hyear].
  split; [exact Hall |]. apply Hyear.
  intros months m Hmonths Hin. injection Hmonths as <-.
  destruct Hin as [<- | [<- | []]]; lia.
Defined.
